(** * Sysd2v: systemd unit files to SysV init scripts

    A shallow embedding of [sysd2v.py] (class [SystemdServiceConverter] and
    [main]) together with the part of CPython's [configparser] the converter
    calls, followed by the properties of the converter that the
    specification states.

    Text is modelled as [string] over 8-bit characters; the standard output
    of the program is the list of the strings handed to [print], in order. *)

From Stdlib Require Import Ascii String Sorted.
From stdpp Require Import base option list strings pretty gmap.

Local Open Scope string_scope.
Local Open Scope list_scope.

Set Warnings "-clear-no-such-hyp".

(** ** Python's [str] methods, as far as the program uses them *)

Module Py.

Definition LF : ascii := "010"%char.
Definition CR : ascii := "013"%char.
Definition nl : string := String LF "".
Definition tab : string := String "009"%char "".
Definition dq : string := String "034"%char "".

(** [str.isspace] on one character (code points below 128). *)
Definition isspace (c : ascii) : bool :=
  let n := nat_of_ascii c in
  ((9 <=? n)%nat && (n <=? 13)%nat) || ((28 <=? n)%nat && (n <=? 32)%nat).

Fixpoint lstrip (s : string) : string :=
  match s with
  | String c s' => if isspace c then lstrip s' else s
  | "" => ""
  end.

Definition rstrip (s : string) : string := String.rev (lstrip (String.rev s)).

Definition strip (s : string) : string := rstrip (lstrip s).

Definition lower_ascii (c : ascii) : ascii :=
  let n := nat_of_ascii c in
  if (65 <=? n)%nat && (n <=? 90)%nat then ascii_of_nat (n + 32) else c.

Fixpoint lower (s : string) : string :=
  match s with
  | String c s' => String (lower_ascii c) (lower s')
  | "" => ""
  end.

Definition startswith (s p : string) : bool := String.prefix p s.

Definition endswith (s p : string) : bool :=
  String.prefix (String.rev p) (String.rev s).

(** [sub in s]. *)
Fixpoint contains (sub s : string) : bool :=
  String.prefix sub s ||
  match s with
  | String _ s' => contains sub s'
  | "" => false
  end.

(** [s[n:]]. *)
Fixpoint slice_from (n : nat) (s : string) : string :=
  match n, s with
  | S k, String _ s' => slice_from k s'
  | _, _ => s
  end.

(** [bool(s)] for a string. *)
Definition nonempty (s : string) : bool :=
  match s with "" => false | _ => true end.

(** [bool(x)] for a value that is [None] or a string. *)
Definition truthy (o : option string) : bool :=
  match o with Some s => nonempty s | None => false end.

(** [s.replace(old, new)]: occurrences are found left to right and do not
    overlap; the text of [new] that has been inserted is not looked at
    again.  [skip] counts the characters of a matched [old] still to be
    passed over. *)
Fixpoint replace_go (old new : string) (skip : nat) (s : string) : string :=
  match s with
  | "" => ""
  | String c s' =>
      match skip with
      | S k => replace_go old new k s'
      | O =>
          if String.prefix old s
          then new +:+ replace_go old new (String.length old - 1) s'
          else String c (replace_go old new 0 s')
      end
  end.

Fixpoint replace_empty (new s : string) : string :=
  match s with
  | "" => new
  | String c s' => new +:+ String c (replace_empty new s')
  end.

Definition replace (s old new : string) : string :=
  match old with
  | "" => replace_empty new s
  | _ => replace_go old new 0 s
  end.

(** The head of a list of fields gets one more character in front. *)
Definition cons_field (c : ascii) (fs : list string) : list string :=
  match fs with
  | f :: r => String c f :: r
  | [] => [String c ""]
  end.

(** [s.split(sep)] for a separator that is not empty. *)
Fixpoint split_go (sep : string) (skip : nat) (s : string) : list string :=
  match s with
  | "" => [""]
  | String c s' =>
      match skip with
      | S k => split_go sep k s'
      | O =>
          if String.prefix sep s
          then "" :: split_go sep (String.length sep - 1) s'
          else cons_field c (split_go sep 0 s')
      end
  end.

Definition split (s sep : string) : list string := split_go sep 0 s.

(** [s.split(sep, 1)]. *)
Fixpoint split1 (s sep : string) : list string :=
  match s with
  | "" => [""]
  | String c s' =>
      if String.prefix sep s
      then [""; slice_from (String.length sep) s]
      else cons_field c (split1 s' sep)
  end.

(** [s.split()]: the maximal runs of characters that are not white space. *)
Fixpoint split_ws (s : string) : list string :=
  match s with
  | "" => []
  | String c s' =>
      if isspace c then split_ws s'
      else match s' with
           | "" => [String c ""]
           | String d _ =>
               if isspace d then String c "" :: split_ws s'
               else cons_field c (split_ws s')
           end
  end.

(** [sep.join(l)]. *)
Definition join (sep : string) (l : list string) : string := String.concat sep l.

(** [os.path.basename]: what follows the last slash. *)
Fixpoint basename (p : string) : string :=
  match p with
  | "" => ""
  | String _ p' => if contains "/" p then basename p' else p
  end.

(** Text-mode reading translates the line ends ["\r\n"] and ["\r"] to
    ["\n"]. *)
Fixpoint universal_newlines (s : string) : string :=
  match s with
  | "" => ""
  | String c s' =>
      if Ascii.eqb c CR then
        match s' with
        | String d _ =>
            if Ascii.eqb d LF then universal_newlines s'
            else String LF (universal_newlines s')
        | "" => String LF ""
        end
      else String c (universal_newlines s')
  end.

(** The lines of a text, each with its line end, as iterating over a file
    or [readlines] gives them. *)
Fixpoint splitlines_keep (s : string) : list string :=
  match s with
  | "" => []
  | String c s' =>
      if Ascii.eqb c LF then String c "" :: splitlines_keep s'
      else cons_field c (splitlines_keep s')
  end.

Definition readlines (content : string) : list string :=
  splitlines_keep (universal_newlines content).

End Py.

(** ** The configuration parser

    [configparser.ConfigParser(interpolation=None)] with its defaults: the
    delimiters [=] and [:], the comment prefixes [#] and [;] for whole
    lines, no inline comments, [strict] reading, empty lines kept inside
    values, option names folded to lower case, the default section
    [DEFAULT].  The reader below follows [RawConfigParser._read] line by
    line. *)

Module configparser.

Inductive Error : Type :=
| DuplicateSectionError (section source : string) (lineno : nat)
| DuplicateOptionError (section opt source : string) (lineno : nat)
| MissingSectionHeaderError (source : string) (lineno : nat) (line : string)
| ParsingError (source : string) (errors : list (nat * string)).

(** A parser after reading: the options of the default section and of
    every other section. *)
Record ConfigParser : Type := {
  _defaults : gmap string string;
  _sections : gmap string (gmap string string)
}.

Definition default_section : string := "DEFAULT".

Definition optionxform (o : string) : string := Py.lower o.

(** The dictionary [cursect] points to: none yet, the defaults, or the
    dictionary of a section. *)
Inductive cursor : Type :=
| NoSection
| InDefaults
| InSection (name : string).

(** The local variables of [_read] and the two dictionaries it fills;
    while reading, a value is the list of its lines. *)
Record reader : Type := {
  defaults : gmap string (list string);
  sections : gmap string (gmap string (list string));
  added_sections : gset string;
  added_options : gset (string * string);
  cursect : cursor;
  sectname : string;
  optname : option string;
  indent_level : nat;
  errors : list (nat * string)
}.

Definition init : reader :=
  {| defaults := ∅; sections := ∅; added_sections := ∅; added_options := ∅;
     cursect := NoSection; sectname := ""; optname := None;
     indent_level := 0; errors := [] |}.

Definition cur_dict (st : reader) : option (gmap string (list string)) :=
  match cursect st with
  | NoSection => None
  | InDefaults => Some (defaults st)
  | InSection n => sections st !! n
  end.

(** [cursect[o] = v], through the reference. *)
Definition cur_set (o : string) (v : list string) (st : reader) : reader :=
  match cursect st with
  | NoSection => st
  | InDefaults =>
      {| defaults := <[o := v]> (defaults st); sections := sections st;
         added_sections := added_sections st; added_options := added_options st;
         cursect := cursect st; sectname := sectname st; optname := optname st;
         indent_level := indent_level st; errors := errors st |}
  | InSection n =>
      {| defaults := defaults st;
         sections := <[n := <[o := v]> (default ∅ (sections st !! n))]> (sections st);
         added_sections := added_sections st; added_options := added_options st;
         cursect := cursect st; sectname := sectname st; optname := optname st;
         indent_level := indent_level st; errors := errors st |}
  end.

(** [cursect[o].append(v)]. *)
Definition cur_append (o : string) (v : string) (st : reader) : reader :=
  match cur_dict st with
  | Some d =>
      match d !! o with
      | Some l => cur_set o (l ++ [v]) st
      | None => st
      end
  | None => st
  end.

(** The part of [s] before the last [c] in it. *)
Fixpoint before_last (c : ascii) (s : string) : option string :=
  match s with
  | "" => None
  | String a s' =>
      match before_last c s' with
      | Some p => Some (String a p)
      | None => if Ascii.eqb a c then Some "" else None
      end
  end.

(** [SECTCRE.match]: an opening bracket, at least one character, a closing
    bracket; the header runs to the last closing bracket and what follows
    that one is not looked at. *)
Definition sect_match (value : string) : option string :=
  match value with
  | String "["%char rest =>
      match before_last "]"%char rest with
      | Some h => if Py.nonempty h then Some h else None
      | None => None
      end
  | _ => None
  end.

Definition is_delim (c : ascii) : bool := Ascii.eqb c "="%char || Ascii.eqb c ":"%char.

Fixpoint opt_split (value : string) : option (string * string) :=
  match value with
  | "" => None
  | String c s' =>
      if is_delim c then Some ("", s')
      else match opt_split s' with
           | Some (o, v) => Some (String c o, v)
           | None => None
           end
  end.

(** [OPTCRE.match]: the groups [option] and [value] around the first
    delimiter, without the white space next to it. *)
Definition opt_match (value : string) : option (string * string) :=
  match opt_split value with
  | Some (o, v) => Some (Py.rstrip o, Py.lstrip v)
  | None => None
  end.

Definition is_comment (line : string) : bool :=
  Py.startswith (Py.strip line) "#" || Py.startswith (Py.strip line) ";".

(** [NONSPACECRE.search(line).start()], 0 when there is no match. *)
Fixpoint first_nonspace (line : string) : option nat :=
  match line with
  | "" => None
  | String c s' => if Py.isspace c then S <$> first_nonspace s' else Some 0
  end.

Definition handle_error (lineno : nat) (line : string) (st : reader) : reader :=
  {| defaults := defaults st; sections := sections st;
     added_sections := added_sections st; added_options := added_options st;
     cursect := cursect st; sectname := sectname st; optname := optname st;
     indent_level := indent_level st;
     errors := errors st ++ [(lineno, line)] |}.

(** A section header line. *)
Definition enter_section (fpname : string) (lineno : nat) (name : string)
    (lvl : nat) (st : reader) : Error + reader :=
  if bool_decide (name ∈ dom (sections st)) then
    if bool_decide (name ∈ added_sections st)
    then inl (DuplicateSectionError name fpname lineno)
    else inr {| defaults := defaults st; sections := sections st;
                added_sections := {[name]} ∪ added_sections st;
                added_options := added_options st;
                cursect := InSection name; sectname := name; optname := None;
                indent_level := lvl; errors := errors st |}
  else if String.eqb name default_section then
    inr {| defaults := defaults st; sections := sections st;
           added_sections := added_sections st; added_options := added_options st;
           cursect := InDefaults; sectname := name; optname := None;
           indent_level := lvl; errors := errors st |}
  else
    inr {| defaults := defaults st; sections := <[name := ∅]> (sections st);
           added_sections := {[name]} ∪ added_sections st;
           added_options := added_options st;
           cursect := InSection name; sectname := name; optname := None;
           indent_level := lvl; errors := errors st |}.

(** An option line in the current section. *)
Definition add_option (fpname : string) (lineno : nat) (line value : string)
    (lvl : nat) (st : reader) : Error + reader :=
  match opt_match value with
  | Some (o, v) =>
      let st1 := if Py.nonempty o then st else handle_error lineno line st in
      let o' := optionxform (Py.rstrip o) in
      if bool_decide ((sectname st, o') ∈ added_options st)
      then inl (DuplicateOptionError (sectname st) o' fpname lineno)
      else
        inr (cur_set o' [Py.strip v]
               {| defaults := defaults st1; sections := sections st1;
                  added_sections := added_sections st1;
                  added_options := {[(sectname st, o')]} ∪ added_options st1;
                  cursect := cursect st1; sectname := sectname st1;
                  optname := Some o'; indent_level := lvl;
                  errors := errors st1 |})
  | None =>
      inr (handle_error lineno line
             {| defaults := defaults st; sections := sections st;
                added_sections := added_sections st;
                added_options := added_options st;
                cursect := cursect st; sectname := sectname st;
                optname := optname st; indent_level := lvl;
                errors := errors st |})
  end.

(** The body of the loop of [_read] for one line. *)
Definition read_line (fpname : string) (lineno : nat) (line : string)
    (st : reader) : Error + reader :=
  let comment := is_comment line in
  let value := if comment then "" else Py.strip line in
  if negb (Py.nonempty value) then
    match comment, cursect st, optname st with
    | false, (InDefaults | InSection _), Some o =>
        if Py.nonempty o then inr (cur_append o "" st) else inr st
    | _, _, _ => inr st
    end
  else
    let cur_indent_level := default 0 (first_nonspace line) in
    let continuation :=
      match cursect st, optname st with
      | (InDefaults | InSection _), Some o =>
          Py.nonempty o && (indent_level st <? cur_indent_level)%nat
      | _, _ => false
      end in
    if continuation then
      inr (cur_append (default "" (optname st)) value st)
    else
      match sect_match value with
      | Some name => enter_section fpname lineno name cur_indent_level st
      | None =>
          match cursect st with
          | NoSection => inl (MissingSectionHeaderError fpname lineno line)
          | _ => add_option fpname lineno line value cur_indent_level st
          end
      end.

Fixpoint read_lines (fpname : string) (lineno : nat) (lines : list string)
    (st : reader) : Error + reader :=
  match lines with
  | [] => inr st
  | line :: rest =>
      match read_line fpname lineno line st with
      | inl e => inl e
      | inr st' => read_lines fpname (S lineno) rest st'
      end
  end.

(** [_join_multiline_values] for one value. *)
Definition join_value (val : list string) : string := Py.rstrip (Py.join Py.nl val).

(** [read_file(f)] on a fresh parser, [f] open on a file of the given name
    and content. *)
Definition read_file (fpname content : string) : Error + ConfigParser :=
  match read_lines fpname 1 (Py.readlines content) init with
  | inl e => inl e
  | inr st =>
      match errors st with
      | [] => inr {| _defaults := join_value <$> defaults st;
                     _sections :=
                       (λ d : gmap string (list string), join_value <$> d)
                         <$> sections st |}
      | errs => inl (ParsingError fpname errs)
      end
  end.

Definition has_section (cfg : ConfigParser) (section : string) : bool :=
  bool_decide (section ∈ dom (_sections cfg)).

(** [get(section, option, fallback=fallback)]: the section's own options
    come before the defaults; a missing section or option gives the
    fallback. *)
Definition get (cfg : ConfigParser) (section opt : string)
    (fallback : option string) : option string :=
  let sectiondict :=
    match _sections cfg !! section with
    | Some d => Some d
    | None => if String.eqb section default_section then Some ∅ else None
    end in
  match sectiondict with
  | None => fallback
  | Some d =>
      match d !! optionxform opt with
      | Some v => Some v
      | None =>
          match _defaults cfg !! optionxform opt with
          | Some v => Some v
          | None => fallback
          end
      end
  end.

End configparser.

(** ** Exceptions and printed output *)

Inductive exn : Type :=
| ValueError (msg : string)
| ConfigError (e : configparser.Error)
| NameError (name : string)
| IndexError.

Inductive result (A : Type) : Type :=
| Return (a : A)
| Raise (e : exn).
Arguments Return {A} a.
Arguments Raise {A} e.

(** A computation that prints: the strings it has handed to [print], in
    order, and how it ended.  What was printed before an exception stays
    printed. *)
Definition Out (A : Type) : Type := list string * result A.

Global Instance Out_ret : MRet Out := λ A a, ([], Return a).

Global Instance Out_bind : MBind Out := λ A B f m,
  match m with
  | (o, Return a) => let '(o', r) := f a in (o ++ o', r)
  | (o, Raise e) => (o, Raise e)
  end.

Definition print (s : string) : Out unit := ([s], Return tt).

Definition raise {A : Type} (e : exn) : Out A := ([], Raise e).

Definition lift {A : Type} (r : result A) : Out A := ([], r).

(** [for x in l: body]. *)
Fixpoint for_ {A : Type} (l : list A) (body : A → Out unit) : Out unit :=
  match l with
  | [] => mret tt
  | x :: l' => body x ;; for_ l' body
  end.

(** [if c: body]. *)
Definition when (c : bool) (body : Out unit) : Out unit :=
  if c then body else mret tt.

Definition printed {A : Type} (m : Out A) : list string := m.1.

Definition outcome {A : Type} (m : Out A) : result A := m.2.

(** The bytes a list of printed strings puts on the stream. *)
Definition render (out : list string) : string :=
  String.concat "" ((λ s, s +:+ Py.nl) <$> out).

(** ** [repr] and [str] of what is printed in error messages *)

Module Msg.

Definition bs : string := String "092"%char "".
Definition sq : string := String "039"%char "".

Definition hex_digit (n : nat) : string :=
  String.substring n 1 "0123456789abcdef".

Definition repr_char (quote : string) (c : ascii) : string :=
  let n := nat_of_ascii c in
  if String.eqb (String c "") bs then bs +:+ bs
  else if String.eqb (String c "") quote then bs +:+ quote
  else if (n =? 9)%nat then bs +:+ "t"
  else if (n =? 10)%nat then bs +:+ "n"
  else if (n =? 13)%nat then bs +:+ "r"
  else if (n <? 32)%nat || (n =? 127)%nat
       then bs +:+ "x" +:+ hex_digit (n / 16) +:+ hex_digit (n mod 16)
  else String c "".

Fixpoint repr_body (quote : string) (s : string) : string :=
  match s with
  | "" => ""
  | String c s' => repr_char quote c +:+ repr_body quote s'
  end.

(** [repr(s)] for text of code points below 128. *)
Definition repr (s : string) : string :=
  let quote := if Py.contains sq s && negb (Py.contains Py.dq s) then Py.dq else sq in
  quote +:+ repr_body quote s +:+ quote.

(** ["%2d" % n]. *)
Definition d2 (n : nat) : string :=
  if (n <? 10)%nat then " " +:+ pretty n else pretty n.

Definition parsing_error_line (e : nat * string) : string :=
  Py.nl +:+ Py.tab +:+ "[line " +:+ d2 e.1 +:+ "]: " +:+ repr e.2.

Definition str_config (e : configparser.Error) : string :=
  match e with
  | configparser.DuplicateSectionError section source lineno =>
      "While reading from " +:+ repr source +:+ " [line " +:+ d2 lineno +:+
      "]: section " +:+ repr section +:+ " already exists"
  | configparser.DuplicateOptionError section opt source lineno =>
      "While reading from " +:+ repr source +:+ " [line " +:+ d2 lineno +:+
      "]: option " +:+ repr opt +:+ " in section " +:+ repr section +:+
      " already exists"
  | configparser.MissingSectionHeaderError source lineno line =>
      "File contains no section headers." +:+ Py.nl +:+ "file: " +:+
      repr source +:+ ", line: " +:+ pretty lineno +:+ Py.nl +:+ repr line
  | configparser.ParsingError source errs =>
      "Source contains parsing errors: " +:+ repr source +:+
      String.concat "" (parsing_error_line <$> errs)
  end.

(** [str(e)]. *)
Definition str (e : exn) : string :=
  match e with
  | ValueError msg => msg
  | ConfigError e => str_config e
  | NameError name => "name " +:+ repr name +:+ " is not defined"
  | IndexError => "list index out of range"
  end.

End Msg.

(** ** The converter: loading a unit file *)

(** The fields of a [SystemdServiceConverter] once [parse_service_file] has
    returned. *)
Record SystemdServiceConverter : Type := {
  config : configparser.ConfigParser;
  service_name : string;
  template_service : bool;
  instance_name : string;
  prefix_name : string
}.

(** The state of the loop of [preprocess_service_file]. *)
Record preprocess_state : Type := {
  processed_lines : list string;
  section_data : gmap string (gmap string string);
  current_section : option string
}.

Definition preprocess_line (st : preprocess_state) (line : string) : preprocess_state :=
  let stripped_line := Py.strip line in
  if Py.startswith stripped_line "[" && Py.endswith stripped_line "]" then
    {| processed_lines := processed_lines st ++ [line];
       section_data := <[stripped_line := ∅]> (section_data st);
       current_section := Some stripped_line |}
  else if Py.contains "=" stripped_line && Py.truthy (current_section st) then
    match Py.split1 stripped_line "=", current_section st with
    | [key; value], Some sec =>
        let key := Py.lower (Py.strip key) in
        let data := default ∅ (section_data st !! sec) in
        match data !! key with
        | Some old =>
            (* the duplicate line is not kept *)
            {| processed_lines := processed_lines st;
               section_data :=
                 <[sec := <[key := old +:+ " " +:+ Py.strip value]> data]> (section_data st);
               current_section := current_section st |}
        | None =>
            {| processed_lines := processed_lines st ++ [line];
               section_data := <[sec := <[key := Py.strip value]> data]> (section_data st);
               current_section := current_section st |}
        end
    | _, _ => st
    end
  else
    {| processed_lines := processed_lines st ++ [line];
       section_data := section_data st;
       current_section := current_section st |}.

Definition preprocess_loop (lines : list string) : preprocess_state :=
  foldl preprocess_line
    {| processed_lines := []; section_data := ∅; current_section := None |} lines.

(** [preprocess_service_file], on the content of the file at [filepath]. *)
Definition preprocess_service_file (content : string) : list string :=
  processed_lines (preprocess_loop (Py.readlines content)).

(** The [replacements] dictionary, in the order its items are visited. *)
Definition replacements (instance_name prefix_name service_name : string)
    : list (string * string) :=
  [ ("%i", instance_name);
    ("%I", instance_name);
    ("%p", prefix_name);
    ("%P", prefix_name);
    ("%f", "/" +:+ instance_name);
    ("%u", service_name);
    ("%U", service_name) ].

Definition replace_specifier (result : string) (r : string * string) : string :=
  if Py.contains r.1 result then Py.replace result r.1 r.2 else result.

Definition replace_systemd_specifiers (template_service : bool)
    (instance_name prefix_name service_name : string) (text : string) : string :=
  if negb template_service then text
  else foldl replace_specifier text (replacements instance_name prefix_name service_name).

Definition template_error : exn := ValueError "Template service requires instance name".

Definition missing_service_error : exn :=
  ValueError "Not a valid systemd service file: missing [Service] section".

(** The first part of [parse_service_file]: the service name and, for a
    template unit, the prefix and the instance. *)
Definition parse_template (filepath : string) : result (string * bool * string * string) :=
  let service_basename := Py.basename filepath in
  let service_name := Py.replace service_basename ".service" "" in
  if Py.contains "@" service_name then
    let parts := Py.split service_name "@" in
    let prefix_name := default "" (parts !! 0) in
    match parts !! 1 with
    | Some p => if Py.nonempty p then Return (service_name, true, p, prefix_name)
                else Raise template_error
    | None => Raise template_error
    end
  else Return (service_name, false, "", "").

(** The text written to the temporary file and read by the parser. *)
Definition processed_content (filepath content : string) : result string :=
  match parse_template filepath with
  | Raise e => Raise e
  | Return (service_name, template_service, instance_name, prefix_name) =>
      Return (replace_systemd_specifiers template_service instance_name prefix_name
                service_name (String.concat "" (preprocess_service_file content)))
  end.

(** [parse_service_file(filepath)], for a file of the given content and a
    temporary file of the given name. *)
Definition parse_service_file (filepath content temp_filename : string)
    : result SystemdServiceConverter :=
  match parse_template filepath with
  | Raise e => Raise e
  | Return (service_name, template_service, instance_name, prefix_name) =>
      let processed_lines := preprocess_service_file content in
      let processed_content := String.concat "" processed_lines in
      let processed_content :=
        replace_systemd_specifiers template_service instance_name prefix_name
          service_name processed_content in
      match configparser.read_file temp_filename processed_content with
      | inl e => Raise (ConfigError e)
      | inr cfg =>
          if negb (configparser.has_section cfg "Service")
          then Raise missing_service_error
          else Return {| config := cfg; service_name := service_name;
                         template_service := template_service;
                         instance_name := instance_name;
                         prefix_name := prefix_name |}
      end
  end.

(** ** The converter: reading the configuration *)

Definition get_config_option (self : SystemdServiceConverter)
    (section opt : string) (fallback : option string) : option string :=
  configparser.get (config self) section opt fallback.

(** A lookup whose fallback is a string gives a string. *)
Definition str_of (o : option string) : string := default "" o.

Definition get_executable_path (self : SystemdServiceConverter) : result string :=
  let exec_start := str_of (get_config_option self "Service" "ExecStart" (Some "")) in
  if negb (Py.nonempty exec_start) then Return ""
  else
    let exec_start :=
      if Py.startswith exec_start "-" then Py.slice_from 1 exec_start else exec_start in
    match Py.split_ws exec_start with
    | x :: _ => Return x
    | [] => Raise IndexError
    end.

Definition get_full_command (self : SystemdServiceConverter) : string :=
  let exec_start := str_of (get_config_option self "Service" "ExecStart" (Some "")) in
  if negb (Py.nonempty exec_start) then ""
  else if Py.startswith exec_start "-" then Py.slice_from 1 exec_start else exec_start.

(** ** The converter: the LSB header *)

(** The facility an [After] or [Requires] token stands for. *)
Definition required_facility (dep : string) : option string :=
  if String.eqb dep "network.target" then Some "$network"
  else if String.eqb dep "syslog.target" then Some "$syslog"
  else if String.eqb dep "remote-fs.target" then Some "$remote_fs"
  else if String.eqb dep "time-sync.target" then Some "$time"
  else if String.eqb dep "rpcbind.service" then Some "$portmap"
  else if String.eqb dep "nss-lookup.target" then Some "$named"
  else None.

(** One pass of the body of [for dep in deps.split()]. *)
Definition add_required (required_deps : list string) (dep : string) : list string :=
  if String.eqb dep "network.target" then required_deps ++ ["$network"]
  else if String.eqb dep "syslog.target" then
    if bool_decide ("$syslog" ∈ required_deps) then required_deps
    else required_deps ++ ["$syslog"]
  else if String.eqb dep "remote-fs.target" then required_deps ++ ["$remote_fs"]
  else if String.eqb dep "time-sync.target" then required_deps ++ ["$time"]
  else if String.eqb dep "rpcbind.service" then required_deps ++ ["$portmap"]
  else if String.eqb dep "nss-lookup.target" then required_deps ++ ["$named"]
  else required_deps.

(** One pass of the body of [for option in ["After", "Requires"]]. *)
Definition add_required_option (self : SystemdServiceConverter)
    (required_deps : list string) (opt : string) : list string :=
  let deps := str_of (get_config_option self "Unit" opt (Some "")) in
  if Py.nonempty deps then foldl add_required required_deps (Py.split_ws deps)
  else required_deps.

Definition add_should (should_deps : list string) (want : string) : list string :=
  if String.eqb want "network.target" then should_deps ++ ["$network"]
  else if String.eqb want "remote-fs.target" then should_deps ++ ["$remote_fs"]
  else should_deps.

(** The list [required_deps] when the dependencies are printed. *)
Definition required_deps (self : SystemdServiceConverter) (exec_path : string) : list string :=
  let required_deps := ["$syslog"; "$local_fs"] in
  let required_deps :=
    if Py.nonempty exec_path && Py.startswith exec_path "/usr"
    then required_deps ++ ["$remote_fs"] else required_deps in
  foldl (add_required_option self) required_deps ["After"; "Requires"].

(** The list [should_deps] when the dependencies are printed. *)
Definition should_deps (self : SystemdServiceConverter) : list string :=
  let wants := str_of (get_config_option self "Unit" "Wants" (Some "")) in
  if Py.nonempty wants then foldl add_should [] (Py.split_ws wants) else [].

Section Generator.

(** The order in which this run of the interpreter iterates over
    [set(l)]: the elements of [l], each once, in an order that depends on
    the hash seed of the process. *)
Variable set_iter : list string → list string.

Definition _generate_dependencies (self : SystemdServiceConverter) : Out unit :=
  exec_path ← lift (get_executable_path self);
  let required_str := Py.join " " (set_iter (required_deps self exec_path)) in
  print ("# Required-Start:" +:+ Py.tab +:+ required_str) ;;
  print ("# Required-Stop:" +:+ Py.tab +:+ required_str) ;;
  when (match should_deps self with [] => false | _ => true end)
    (let should_str := Py.join " " (set_iter (should_deps self)) in
     print ("# Should-Start:" +:+ Py.tab +:+ should_str)).

Definition _generate_runlevels (self : SystemdServiceConverter) : Out unit :=
  let wanted_by := str_of (get_config_option self "Install" "WantedBy" (Some "")) in
  if String.eqb wanted_by "multi-user.target" then
    print ("# Default-Start:" +:+ Py.tab +:+ "2 3 4 5") ;;
    print ("# Default-Stop:" +:+ Py.tab +:+ Py.tab +:+ "0 1 6")
  else if String.eqb wanted_by "graphical.target" then
    print ("# Default-Start:" +:+ Py.tab +:+ "2 3 4 5") ;;
    print ("# Default-Stop:" +:+ Py.tab +:+ Py.tab +:+ "0 1 6")
  else if String.eqb wanted_by "basic.target" then
    print ("# Default-Start:" +:+ Py.tab +:+ "1") ;;
    print ("# Default-Stop:" +:+ Py.tab)
  else if String.eqb wanted_by "rescue.target" then
    print ("# Default-Start:" +:+ Py.tab +:+ "1") ;;
    print ("# Default-Stop:" +:+ Py.tab +:+ "0 2 3 4 5 6")
  else
    print ("# Default-Start:" +:+ Py.tab +:+ "2 3 4 5") ;;
    print ("# Default-Stop:" +:+ Py.tab +:+ Py.tab +:+ "0 1 6").

Definition generate_lsb_header (self : SystemdServiceConverter) : Out unit :=
  print "### BEGIN INIT INFO" ;;
  print ("# Provides: " +:+ service_name self) ;;
  _generate_dependencies self ;;
  _generate_runlevels self ;;
  let description :=
    str_of (get_config_option self "Unit" "Description" (Some (service_name self))) in
  print ("# Short-Description: " +:+ description) ;;
  let documentation := get_config_option self "Unit" "Documentation" None in
  when (Py.truthy documentation)
    (print ("# Documentation: " +:+ str_of documentation)) ;;
  print "### END INIT INFO".

End Generator.

(** ** The converter: variables and procedures of the script *)

Definition generate_script_variables (self : SystemdServiceConverter) : Out unit :=
  print ". /lib/lsb/init-functions" ;;
  print ("prog=" +:+ service_name self) ;;
  let env_file := get_config_option self "Service" "EnvironmentFile" None in
  when (Py.truthy env_file)
    (let env_file := str_of env_file in
     if Py.startswith env_file "-" then
       let env_file := Py.slice_from 1 env_file in
       print ("if test -f " +:+ env_file +:+ "; then") ;;
       print (Py.tab +:+ ". " +:+ env_file) ;;
       print "fi"
     else
       print ("if test -f " +:+ env_file +:+ "; then") ;;
       print (Py.tab +:+ ". " +:+ env_file) ;;
       print "fi") ;;
  let pidfile := get_config_option self "Service" "PIDFile" None in
  (if Py.truthy pidfile then print ("PIDFILE=" +:+ str_of pidfile)
   else print "PIDFILE=/var/run/$prog.pid") ;;
  let description :=
    str_of (get_config_option self "Unit" "Description" (Some (service_name self))) in
  print ("DESC=" +:+ Py.dq +:+ description +:+ Py.dq) ;;
  let documentation := get_config_option self "Unit" "Documentation" None in
  when (Py.truthy documentation)
    (print ("# Service documentation: " +:+ str_of documentation)) ;;
  let environment := get_config_option self "Service" "Environment" None in
  when (Py.truthy environment)
    (for_ (Py.split_ws (str_of environment)) (λ env_var,
       when (Py.contains "=" env_var) (print ("export " +:+ env_var)))) ;;
  let working_dir := get_config_option self "Service" "WorkingDirectory" None in
  when (Py.truthy working_dir) (print ("WORKDIR=" +:+ str_of working_dir)) ;;
  let user := get_config_option self "Service" "User" None in
  let group := get_config_option self "Service" "Group" None in
  when (Py.truthy user) (print ("USER=" +:+ str_of user)) ;;
  when (Py.truthy group) (print ("GROUP=" +:+ str_of group)) ;;
  let timeout_sec := get_config_option self "Service" "TimeoutSec" None in
  let timeout_start := get_config_option self "Service" "TimeoutStartSec" None in
  let timeout_stop := get_config_option self "Service" "TimeoutStopSec" None in
  (if Py.truthy timeout_start && negb (String.eqb (str_of timeout_start) "0")
   then print ("STARTTIMEOUT=" +:+ str_of timeout_start)
   else when (Py.truthy timeout_sec && negb (String.eqb (str_of timeout_sec) "0"))
          (print ("STARTTIMEOUT=" +:+ str_of timeout_sec))) ;;
  (if Py.truthy timeout_stop && negb (String.eqb (str_of timeout_stop) "0")
   then print ("STOPTIMEOUT=" +:+ str_of timeout_stop)
   else when (Py.truthy timeout_sec && negb (String.eqb (str_of timeout_sec) "0"))
          (print ("STOPTIMEOUT=" +:+ str_of timeout_sec))) ;;
  let restart := get_config_option self "Service" "Restart" None in
  when (Py.truthy restart && negb (String.eqb (str_of restart) "no"))
    (let restart_sec := str_of (get_config_option self "Service" "RestartSec" (Some "1")) in
     print ("RESTART_MODE=" +:+ str_of restart) ;;
     print ("RESTART_SEC=" +:+ restart_sec)) ;;
  let oom_score_adjust := get_config_option self "Service" "OOMScoreAdjust" None in
  when (Py.truthy oom_score_adjust)
    (print ("OOM_SCORE_ADJUST=" +:+ str_of oom_score_adjust)).

Definition _add_success_check (action : string) : Out unit :=
  print (Py.tab +:+ "if [ $? -ne 0 ]; then") ;;
  print (Py.tab +:+ Py.tab +:+ "log_end_msg 1") ;;
  print (Py.tab +:+ Py.tab +:+ "exit 1") ;;
  print (Py.tab +:+ "fi") ;;
  when (negb (String.eqb action "startpre"))
    (print (Py.tab +:+ "if [ $? -eq 0 ]; then") ;;
     print (Py.tab +:+ Py.tab +:+ "log_end_msg 0") ;;
     print (Py.tab +:+ "fi")).

(** Evaluating a name that no scope binds.  The body of
    [_add_timeout_check] binds [self], [action], [timeout_val] and
    [exec_path]; the module binds its imports, [SystemdServiceConverter] and
    [main]; no builtin is called [timeout_var]. *)
Definition unbound_name (name : string) : Out string := raise (NameError name).

Definition _add_timeout_check (self : SystemdServiceConverter) (action : string) : Out unit :=
  let timeout_val := get_config_option self "Service" "TimeoutSec" None in
  if bool_decide (timeout_val = Some "0") || negb (Py.truthy timeout_val) then
    _add_success_check action
  else
    exec_path ← lift (get_executable_path self);
    timeout_var ← unbound_name "timeout_var";
    print (Py.tab +:+ "TIMEOUT=$" +:+ timeout_var) ;;
    print (Py.tab +:+ "TEMPPID=$(pidofproc " +:+ exec_path +:+ ")") ;;
    print (Py.tab +:+ "while [ $TIMEOUT -gt 0 ]; do") ;;
    (if String.eqb action "start" then
       print (Py.tab +:+ Py.tab +:+ "if /bin/kill -0 $TEMPPID 2>/dev/null; then") ;;
       print (Py.tab +:+ Py.tab +:+ Py.tab +:+ "log_end_msg 0") ;;
       print (Py.tab +:+ Py.tab +:+ Py.tab +:+ "break") ;;
       print (Py.tab +:+ Py.tab +:+ "fi")
     else when (String.eqb action "stop")
       (print (Py.tab +:+ Py.tab +:+ "if ! /bin/kill -0 $TEMPPID 2>/dev/null; then") ;;
        print (Py.tab +:+ Py.tab +:+ Py.tab +:+ "log_end_msg 0") ;;
        print (Py.tab +:+ Py.tab +:+ Py.tab +:+ "break") ;;
        print (Py.tab +:+ Py.tab +:+ "fi"))) ;;
    print (Py.tab +:+ Py.tab +:+ "sleep 1") ;;
    print (Py.tab +:+ Py.tab +:+ "TIMEOUT=$((TIMEOUT - 1))") ;;
    print (Py.tab +:+ "done") ;;
    print "" ;;
    print (Py.tab +:+ "if [ $TIMEOUT -eq 0 ]; then") ;;
    (if String.eqb action "stop" then
       print (Py.tab +:+ Py.tab +:+ "kill -15 $TEMPPID 2>/dev/null") ;;
       print (Py.tab +:+ Py.tab +:+ "sleep 2") ;;
       print (Py.tab +:+ Py.tab +:+ "kill -9 $TEMPPID 2>/dev/null") ;;
       print (Py.tab +:+ Py.tab +:+ "echo " +:+ Py.dq +:+ "$prog killed" +:+ Py.dq)
     else
       print (Py.tab +:+ Py.tab +:+ "log_end_msg 1") ;;
       timeout_var ← unbound_name "timeout_var";
       print (Py.tab +:+ Py.tab +:+ "echo " +:+ Py.dq +:+
              "Timeout error occurred trying to " +:+ action +:+
              " $prog (timeout: $" +:+ timeout_var +:+ " seconds)" +:+ Py.dq) ;;
       print (Py.tab +:+ Py.tab +:+ "exit 1")) ;;
    print (Py.tab +:+ "fi").

(** [cmd.strip()], whether it starts with a dash, and the command without
    that dash. *)
Definition command (cmd : string) : bool * string :=
  let cmd := Py.strip cmd in
  let optional := Py.startswith cmd "-" in
  (optional, if optional then Py.slice_from 1 cmd else cmd).

(** The guard of a start condition: the test, then the two lines and [fi]
    that every guard has. *)
Definition condition_guard (test : string) : Out unit :=
  print (Py.tab +:+ test) ;;
  print (Py.tab +:+ Py.tab +:+ "log_end_msg 1") ;;
  print (Py.tab +:+ Py.tab +:+ "exit 0") ;;
  print (Py.tab +:+ "fi").

Definition generate_start_function (self : SystemdServiceConverter) : Out unit :=
  print "start() {" ;;
  print (Py.tab +:+ "log_daemon_msg " +:+ Py.dq +:+ "Starting $DESC" +:+ Py.dq +:+ " " +:+
         Py.dq +:+ "$prog" +:+ Py.dq) ;;
  let condition_path := get_config_option self "Unit" "ConditionPathExists" None in
  when (Py.truthy condition_path)
    (condition_guard ("if [ ! -s " +:+ str_of condition_path +:+ " ]; then")) ;;
  let condition_path_exists_glob :=
    get_config_option self "Unit" "ConditionPathExistsGlob" None in
  when (Py.truthy condition_path_exists_glob)
    (condition_guard ("if ! ls " +:+ str_of condition_path_exists_glob +:+
                      " 1> /dev/null 2>&1; then")) ;;
  let condition_file_not_empty := get_config_option self "Unit" "ConditionFileNotEmpty" None in
  when (Py.truthy condition_file_not_empty)
    (condition_guard ("if [ ! -s " +:+ str_of condition_file_not_empty +:+ " ]; then")) ;;
  let condition_directory_not_empty :=
    get_config_option self "Unit" "ConditionDirectoryNotEmpty" None in
  when (Py.truthy condition_directory_not_empty)
    (condition_guard ("if [ ! -d " +:+ str_of condition_directory_not_empty +:+
                      " ] || [ -z " +:+ Py.dq +:+ "$(ls -A " +:+
                      str_of condition_directory_not_empty +:+ ")" +:+ Py.dq +:+
                      " ]; then")) ;;
  let working_dir := get_config_option self "Service" "WorkingDirectory" None in
  when (Py.truthy working_dir)
    (print (Py.tab +:+ "cd " +:+ str_of working_dir +:+ " || {") ;;
     print (Py.tab +:+ Py.tab +:+ "log_end_msg 1") ;;
     print (Py.tab +:+ Py.tab +:+ "exit 1") ;;
     print (Py.tab +:+ "}")) ;;
  let start_pre := get_config_option self "Service" "ExecStartPre" None in
  when (Py.truthy start_pre)
    (for_ (Py.split (str_of start_pre) " ; ") (λ cmd,
       let '(optional, cmd) := command cmd in
       print (Py.tab +:+ "start_daemon " +:+ cmd) ;;
       when (negb optional) (_add_success_check "startpre"))) ;;
  let exec_start := get_config_option self "Service" "ExecStart" None in
  when (Py.truthy exec_start)
    (let service_type :=
       Py.lower (str_of (get_config_option self "Service" "Type" (Some "simple"))) in
     if String.eqb service_type "oneshot" then
       let commands := Py.split (str_of exec_start) " ; " in
       for_ commands (λ cmd, print (Py.tab +:+ (command cmd).2)) ;;
       _add_success_check "start"
     else if String.eqb service_type "forking" then
       exec_path ← lift (get_executable_path self);
       let full_cmd := get_full_command self in
       let pidfile_opt :=
         if Py.truthy (get_config_option self "Service" "PIDFile" None)
         then " -p $PIDFILE" else "" in
       print (Py.tab +:+ "start_daemon" +:+ pidfile_opt +:+ " " +:+ full_cmd) ;;
       _add_timeout_check self "start"
     else
       exec_path ← lift (get_executable_path self);
       let full_cmd := get_full_command self in
       (if negb (String.eqb full_cmd exec_path) then
          let args := Py.strip (Py.slice_from (String.length exec_path) full_cmd) in
          if Py.truthy (get_config_option self "Service" "PIDFile" None) then
            print (Py.tab +:+
              "start-stop-daemon --start --background --pidfile $PIDFILE --startas " +:+
              exec_path +:+ " -- " +:+ args)
          else
            print (Py.tab +:+
              "start-stop-daemon --start --background --make-pidfile --pidfile $PIDFILE --startas " +:+
              exec_path +:+ " -- " +:+ args)
        else
          if Py.truthy (get_config_option self "Service" "PIDFile" None) then
            print (Py.tab +:+
              "start-stop-daemon --start --background --pidfile $PIDFILE --exec " +:+
              exec_path)
          else
            print (Py.tab +:+
              "start-stop-daemon --start --background --make-pidfile --pidfile $PIDFILE --exec " +:+
              exec_path)) ;;
       when (negb (String.eqb service_type "oneshot")) (_add_timeout_check self "start")) ;;
  let start_post := get_config_option self "Service" "ExecStartPost" None in
  when (Py.truthy start_post)
    (for_ (Py.split (str_of start_post) " ; ") (λ cmd,
       let '(optional, cmd) := command cmd in
       print (Py.tab +:+ "start_daemon " +:+ cmd) ;;
       when (negb optional) (_add_success_check "start"))) ;;
  print "}" ;;
  print "".

Definition generate_stop_function (self : SystemdServiceConverter) : Out unit :=
  print "stop() {" ;;
  print (Py.tab +:+ "log_daemon_msg " +:+ Py.dq +:+ "Stopping $DESC" +:+ Py.dq +:+ " " +:+
         Py.dq +:+ "$prog" +:+ Py.dq) ;;
  let exec_stop := get_config_option self "Service" "ExecStop" None in
  (if Py.truthy exec_stop then
     for_ (Py.split (str_of exec_stop) " ; ") (λ cmd, print (Py.tab +:+ (command cmd).2)) ;;
     _add_timeout_check self "stop"
   else
     exec_path ← lift (get_executable_path self);
     let kill_signal := get_config_option self "Service" "KillSignal" None in
     (if Py.truthy (get_config_option self "Service" "PIDFile" None) then
        print (Py.tab +:+ "if [ -f $PIDFILE ]; then") ;;
        (if Py.truthy kill_signal then
           print (Py.tab +:+ Py.tab +:+ "killproc -p $PIDFILE -s " +:+ str_of kill_signal +:+
                  " " +:+ exec_path)
         else
           print (Py.tab +:+ Py.tab +:+ "killproc -p $PIDFILE " +:+ exec_path)) ;;
        print (Py.tab +:+ "else") ;;
        (if Py.truthy kill_signal then
           print (Py.tab +:+ Py.tab +:+ "start-stop-daemon --stop --signal " +:+
                  str_of kill_signal +:+ " --name $(basename " +:+ exec_path +:+ ") --oknodo")
         else
           print (Py.tab +:+ Py.tab +:+ "start-stop-daemon --stop --name $(basename " +:+
                  exec_path +:+ ") --oknodo")) ;;
        print (Py.tab +:+ "fi")
      else
        if Py.truthy kill_signal then
          print (Py.tab +:+ "start-stop-daemon --stop --signal " +:+ str_of kill_signal +:+
                 " --name $(basename " +:+ exec_path +:+ ") --oknodo")
        else
          print (Py.tab +:+ "start-stop-daemon --stop --name $(basename " +:+ exec_path +:+
                 ") --oknodo")) ;;
     _add_timeout_check self "stop") ;;
  let stop_post := get_config_option self "Service" "ExecStopPost" None in
  when (Py.truthy stop_post)
    (for_ (Py.split (str_of stop_post) " ; ") (λ cmd,
       let '(optional, cmd) := command cmd in
       if optional then print (Py.tab +:+ cmd +:+ " || true")
       else print (Py.tab +:+ cmd) ;; _add_success_check "stop")) ;;
  print "}" ;;
  print "".

Definition generate_status_function (self : SystemdServiceConverter) : Out unit :=
  print "status() {" ;;
  exec_path ← lift (get_executable_path self);
  (if Py.truthy (get_config_option self "Service" "PIDFile" None) then
     print (Py.tab +:+ "if [ -f $PIDFILE ]; then") ;;
     print (Py.tab +:+ Py.tab +:+ "status_of_proc -p $PIDFILE " +:+ exec_path +:+ " " +:+
            Py.dq +:+ "$prog" +:+ Py.dq) ;;
     print (Py.tab +:+ "else") ;;
     print (Py.tab +:+ Py.tab +:+ "status_of_proc " +:+ exec_path +:+ " " +:+
            Py.dq +:+ "$prog" +:+ Py.dq) ;;
     print (Py.tab +:+ "fi")
   else
     print (Py.tab +:+ "status_of_proc " +:+ exec_path +:+ " " +:+
            Py.dq +:+ "$prog" +:+ Py.dq)) ;;
  print "}" ;;
  print "".

Definition generate_reload_function (self : SystemdServiceConverter) : Out unit :=
  let exec_reload := get_config_option self "Service" "ExecReload" None in
  if negb (Py.truthy exec_reload) then mret tt
  else
    print "reload() {" ;;
    print (Py.tab +:+ "log_daemon_msg " +:+ Py.dq +:+ "Reloading $DESC" +:+ Py.dq +:+ " " +:+
           Py.dq +:+ "$prog" +:+ Py.dq) ;;
    for_ (Py.split (str_of exec_reload) " ; ") (λ cmd,
      let '(optional, cmd) := command cmd in
      print (Py.tab +:+ cmd) ;;
      when (negb optional) (_add_success_check "reload")) ;;
    print (Py.tab +:+ "exit 0") ;;
    print "}" ;;
    print "".

Definition generate_force_reload_function (self : SystemdServiceConverter) : Out unit :=
  print "force_reload() {" ;;
  (if Py.truthy (get_config_option self "Service" "ExecReload" None) then
     print (Py.tab +:+ "reload") ;;
     print (Py.tab +:+ "if [ $? -ne 0 ]; then") ;;
     print (Py.tab +:+ Py.tab +:+ "restart") ;;
     print (Py.tab +:+ "fi")
   else
     print (Py.tab +:+ "stop") ;;
     print (Py.tab +:+ "start")) ;;
  print "}" ;;
  print "".

Definition generate_case_statement (self : SystemdServiceConverter) : Out unit :=
  let has_reload :=
    match get_config_option self "Service" "ExecReload" None with
    | Some _ => true
    | None => false
    end in
  print ("case " +:+ Py.dq +:+ "$1" +:+ Py.dq +:+ " in") ;;
  print (Py.tab +:+ "start)") ;;
  print (Py.tab +:+ Py.tab +:+ "start") ;;
  print (Py.tab +:+ Py.tab +:+ ";;") ;;
  print (Py.tab +:+ "stop)") ;;
  print (Py.tab +:+ Py.tab +:+ "stop") ;;
  print (Py.tab +:+ Py.tab +:+ ";;") ;;
  print (Py.tab +:+ "status)") ;;
  print (Py.tab +:+ Py.tab +:+ "status") ;;
  print (Py.tab +:+ Py.tab +:+ ";;") ;;
  print (Py.tab +:+ "force-reload)") ;;
  print (Py.tab +:+ Py.tab +:+ "force_reload") ;;
  print (Py.tab +:+ Py.tab +:+ ";;") ;;
  print (Py.tab +:+ "restart)") ;;
  print (Py.tab +:+ Py.tab +:+ "stop") ;;
  print (Py.tab +:+ Py.tab +:+ "sleep 2") ;;
  print (Py.tab +:+ Py.tab +:+ "start") ;;
  print (Py.tab +:+ Py.tab +:+ ";;") ;;
  usage_msg ←
    (if has_reload then
       print (Py.tab +:+ "reload)") ;;
       print (Py.tab +:+ Py.tab +:+ "reload") ;;
       print (Py.tab +:+ Py.tab +:+ ";;") ;;
       mret "{start|stop|status|reload|force-reload|restart}"
     else mret "{start|stop|status|force-reload|restart}");
  print (Py.tab +:+ "*)") ;;
  print (Py.tab +:+ Py.tab +:+ "echo " +:+ Py.dq +:+ "Usage: $0 " +:+ usage_msg +:+ Py.dq) ;;
  print (Py.tab +:+ Py.tab +:+ "exit 2") ;;
  print "esac".

Section Script.

Variable set_iter : list string → list string.

Definition generate_init_script (self : SystemdServiceConverter) : Out unit :=
  print "#!/bin/sh" ;;
  generate_lsb_header set_iter self ;;
  print "" ;;
  generate_script_variables self ;;
  print "" ;;
  generate_start_function self ;;
  generate_stop_function self ;;
  generate_status_function self ;;
  generate_reload_function self ;;
  generate_force_reload_function self ;;
  generate_case_statement self.

(** The conversion of one unit file: loading, then the script. *)
Definition convert (filepath content temp_filename : string) : result (Out unit) :=
  match parse_service_file filepath content temp_filename with
  | Raise e => Raise e
  | Return self => Return (generate_init_script self)
  end.

End Script.

(** ** The command line *)

(** The parsed arguments. *)
Record Namespace : Type := {
  service_file : option string;
  list_services : bool;
  output : option string;
  install : bool
}.

Inductive os_error : Type :=
| PermissionError
| OSError (msg : string).

(** What [main] asks of its surroundings.  [os.chmod] is taken to succeed. *)
Record World : Type := {
  argv : list string;
  isfile : string → bool;
  file_content : string → string;
  temp_filename : string;
  path_exists : string → bool;
  access_w : string → bool;
  open_w : string → option os_error;
  input_line : string;
  chown : string → bool;
  display_services : list string;
  set_iter : list string → list string
}.

(** How the process ends. *)
Inductive ending : Type :=
| Finished
| Exit (code : nat)
| ParserError (message : string)
| Uncaught (e : exn).

(** What a run leaves behind: the strings printed on the standard output,
    whether the overwrite question was asked, the file opened for writing
    with the strings printed into it, and the ending. *)
Record Outcome : Type := {
  stdout : list string;
  prompted : bool;
  written : option (string * list string);
  finish : ending
}.

Definition stop_with (out : list string) (e : ending) : Outcome :=
  {| stdout := out; prompted := false; written := None; finish := e |}.

(** The messages after the script has been written to [output_file]. *)
Definition report_written (w : World) (args : Namespace) (name output_file : string)
    : list string :=
  if install args then
    if chown w output_file then
      [ "✓ Service '" +:+ name +:+ "' successfully installed to " +:+ output_file;
        "✓ Set proper root ownership and execute permissions";
        "✓ You can now use: service " +:+ name +:+ " start|stop|status|restart" ]
    else
      [ "✓ Service '" +:+ name +:+ "' installed to " +:+ output_file;
        "⚠ Warning: Could not set root ownership. Run manually:";
        "  sudo chown root:root " +:+ output_file ]
  else
    ("Init script written to " +:+ output_file +:+ " with execute permissions") ::
    (if negb (Py.startswith output_file "/etc/init.d/") then
       [ "";
         "⚠ IMPORTANT: To install this service, run:";
         "  sudo cp " +:+ output_file +:+ " /etc/init.d/" +:+ name;
         "  sudo chown root:root /etc/init.d/" +:+ name;
         "  sudo chmod 755 /etc/init.d/" +:+ name;
         "";
         "Then you can use: service " +:+ name +:+ " start|stop|status|restart" ]
     else []).

(** The branch of [main] that writes the script to [output_file]. *)
Definition write_script (w : World) (args : Namespace) (converter : SystemdServiceConverter)
    (output_file : string) : Outcome :=
  let init_d := Py.startswith output_file "/etc/init.d/" in
  if init_d && negb (path_exists w "/etc/init.d/") then
    stop_with ["Error: /etc/init.d/ directory does not exist."] (Exit 1)
  else if init_d && negb (access_w w "/etc/init.d/") then
    stop_with
      [ "Error: Permission denied. Installing to /etc/init.d/ requires root privileges.";
        "Try: sudo python3 " +:+ Py.join " " (argv w) ] (Exit 1)
  else
    let asked := path_exists w output_file in
    let warning :=
      if asked
      then ["Warning: File " +:+ output_file +:+ " already exists and will be overwritten."]
      else [] in
    let answer := Py.lower (input_line w) in
    if asked && negb (String.eqb answer "y" || String.eqb answer "yes") then
      {| stdout := warning ++ ["Operation cancelled."]; prompted := true;
         written := None; finish := Exit 0 |}
    else
      match open_w w output_file with
      | Some PermissionError =>
          {| stdout := warning ++ ["Error: Permission denied writing to " +:+ output_file];
             prompted := asked; written := None; finish := Exit 1 |}
      | Some (OSError msg) =>
          {| stdout := warning ++ ["Error writing to " +:+ output_file +:+ ": " +:+ msg];
             prompted := asked; written := None; finish := Exit 1 |}
      | None =>
          match generate_init_script (set_iter w) converter with
          | (script, Raise e) =>
              {| stdout := warning; prompted := asked;
                 written := Some (output_file, script); finish := Uncaught e |}
          | (script, Return _) =>
              {| stdout := warning ++
                   report_written w args (service_name converter) output_file;
                 prompted := asked; written := Some (output_file, script);
                 finish := Finished |}
          end
      end.

Definition main (w : World) (args : Namespace) : Outcome :=
  if list_services args then stop_with (display_services w) Finished
  else
    match service_file args with
    | None => stop_with [] (ParserError "service_file is required unless using --list")
    | Some path =>
        if negb (Py.nonempty path) then
          stop_with [] (ParserError "service_file is required unless using --list")
        else if install args && Py.truthy (output args) then
          stop_with [] (ParserError "--install and --output cannot be used together")
        else if negb (isfile w path) then
          stop_with ["Error: Service file '" +:+ path +:+ "' not found"] (Exit 1)
        else
          match parse_service_file path (file_content w path) (temp_filename w) with
          | Raise e => stop_with ["Error parsing service file: " +:+ Msg.str e] (Exit 1)
          | Return converter =>
              let output_file :=
                if install args then Some ("/etc/init.d/" +:+ service_name converter)
                else output args in
              match output_file with
              | Some output_file =>
                  if Py.nonempty output_file
                  then write_script w args converter output_file
                  else
                    let '(script, r) := generate_init_script (set_iter w) converter in
                    stop_with script (match r with Return _ => Finished | Raise e => Uncaught e end)
              | None =>
                  let '(script, r) := generate_init_script (set_iter w) converter in
                  stop_with script (match r with Return _ => Finished | Raise e => Uncaught e end)
              end
          end
    end.

(** ** Sample unit files *)

Definition lines (l : list string) : string :=
  String.concat "" ((λ s, s +:+ Py.nl) <$> l).

(** Two [Environment] lines in one section. *)
Definition env_unit : string :=
  lines [ "[Service]"; "ExecStart=/bin/foo"; "Environment=A=1"; "Environment=B=2" ].

(** A start timeout of its own and no [TimeoutSec]. *)
Definition start_timeout_unit : string :=
  lines [ "[Service]"; "ExecStart=/bin/foo"; "TimeoutStartSec=30" ].

Definition timeout_unit : string :=
  lines [ "[Service]"; "ExecStart=/bin/foo"; "TimeoutSec=30" ].

Definition empty_timeout_unit : string :=
  lines [ "[Service]"; "ExecStart=/bin/foo"; "TimeoutSec=" ].

Definition empty_reload_unit : string :=
  lines [ "[Service]"; "ExecStart=/bin/foo"; "ExecReload=" ].

Definition path_exists_unit : string :=
  lines [ "[Unit]"; "ConditionPathExists=/etc/default/foo";
          "[Service]"; "ExecStart=/bin/foo" ].

Definition file_not_empty_unit : string :=
  lines [ "[Unit]"; "ConditionFileNotEmpty=/etc/default/foo";
          "[Service]"; "ExecStart=/bin/foo" ].

Definition usr_after_unit : string :=
  lines [ "[Unit]"; "After=network.target syslog.target";
          "[Service]"; "ExecStart=/usr/sbin/food -D" ].

Definition after_unit : string :=
  lines [ "[Unit]"; "After=network.target syslog.target";
          "[Service]"; "ExecStart=/bin/foo" ].

Definition no_service_unit : string :=
  lines [ "[Unit]"; "Description=Nothing to run" ].

Definition reload_unit : string :=
  lines [ "[Service]"; "ExecStart=/bin/foo"; "ExecReload=/bin/kill -HUP $MAINPID" ].

Definition instance_unit : string :=
  lines [ "[Service]"; "ExecStart=/bin/x --name %i"; "Environment=NAME=%I" ].

(** The entry of the dispatch for [reload] and the usage line that lists it. *)
Definition reload_entry : string := Py.tab +:+ "reload)".

Definition reload_usage : string :=
  Py.tab +:+ Py.tab +:+ "echo " +:+ Py.dq +:+
  "Usage: $0 {start|stop|status|reload|force-reload|restart}" +:+ Py.dq.

Definition template_unit : string :=
  lines [ "[Service]"; "ExecStart=/bin/echo 100%%i"; "Environment=NAME=%i PORT=%I" ].

(** ** Specifier substitution as the specification words it

    One pass over the text: a specifier token is replaced by its value and
    the scan goes on after the token; the value put in is not scanned. *)

Inductive specifier : Type :=
| Spec_i | Spec_I | Spec_p | Spec_P | Spec_f | Spec_u | Spec_U.

Definition letter (sp : specifier) : ascii :=
  match sp with
  | Spec_i => "i" | Spec_I => "I" | Spec_p => "p" | Spec_P => "P"
  | Spec_f => "f" | Spec_u => "u" | Spec_U => "U"
  end%char.

Definition specifier_of (c : ascii) : option specifier :=
  if Ascii.eqb c "i" then Some Spec_i
  else if Ascii.eqb c "I" then Some Spec_I
  else if Ascii.eqb c "p" then Some Spec_p
  else if Ascii.eqb c "P" then Some Spec_P
  else if Ascii.eqb c "f" then Some Spec_f
  else if Ascii.eqb c "u" then Some Spec_u
  else if Ascii.eqb c "U" then Some Spec_U
  else None.

(** The token [%c]. *)
Definition token_text (sp : specifier) : string := String "%" (String (letter sp) "").

(** instance, instance, prefix, prefix, ['/' + instance], service name,
    service name. *)
Definition specifier_value (instance_name prefix_name service_name : string)
    (sp : specifier) : string :=
  match sp with
  | Spec_i | Spec_I => instance_name
  | Spec_p | Spec_P => prefix_name
  | Spec_f => "/" +:+ instance_name
  | Spec_u | Spec_U => service_name
  end.

(** [skip] tells that the character at hand is the letter of a token that
    has just been replaced. *)
Fixpoint substitute_once_go (val : specifier → string) (skip : bool) (text : string)
    : string :=
  match text with
  | "" => ""
  | String a rest =>
      if skip then substitute_once_go val false rest
      else
        match (if Ascii.eqb a "%" then
                 match rest with
                 | String c _ => specifier_of c
                 | "" => None
                 end
               else None) with
        | Some sp => val sp +:+ substitute_once_go val true rest
        | None => String a (substitute_once_go val false rest)
        end
  end.

Definition substitute_once (val : specifier → string) (text : string) : string :=
  substitute_once_go val false text.

(** The same scan, keeping the pieces apart: a specifier token, or one
    character of other text. *)
Inductive piece : Type :=
| Token (sp : specifier)
| Chr (a : ascii).

Fixpoint pieces_go (skip : bool) (text : string) : list piece :=
  match text with
  | "" => []
  | String a rest =>
      if skip then pieces_go false rest
      else
        match (if Ascii.eqb a "%" then
                 match rest with
                 | String c _ => specifier_of c
                 | "" => None
                 end
               else None) with
        | Some sp => Token sp :: pieces_go true rest
        | None => Chr a :: pieces_go false rest
        end
  end.

Definition pieces (text : string) : list piece := pieces_go false text.

Fixpoint chars (s : string) : list piece :=
  match s with
  | "" => []
  | String a s' => Chr a :: chars s'
  end.

Definition piece_text (p : piece) : string :=
  match p with
  | Token sp => token_text sp
  | Chr a => String a ""
  end.

Fixpoint unparse (ps : list piece) : string :=
  match ps with
  | [] => ""
  | p :: ps' => piece_text p +:+ unparse ps'
  end.

(** Replacing the tokens of one specifier by the characters of a value. *)
Definition expand_piece (sp : specifier) (v : string) (p : piece) : list piece :=
  match p with
  | Token sp' => if bool_decide (letter sp' = letter sp) then chars v else [p]
  | Chr _ => [p]
  end.

Definition expand (sp : specifier) (v : string) (ps : list piece) : list piece :=
  ps ≫= expand_piece sp v.

(** Replacing every token by the characters of its value, at once. *)
Definition expand_all (val : specifier → string) (ps : list piece) : list piece :=
  ps ≫= λ p, match p with Token sp => chars (val sp) | Chr _ => [p] end.

(** The seven replacements of the loop, in its order. *)
Definition passes (instance_name prefix_name service_name : string) (ps : list piece)
    : list piece :=
  expand Spec_U service_name
    (expand Spec_u service_name
       (expand Spec_f ("/" +:+ instance_name)
          (expand Spec_P prefix_name
             (expand Spec_p prefix_name
                (expand Spec_I instance_name
                   (expand Spec_i instance_name ps)))))).

(** A percent sign that is text is at the end or before a character that is
    neither a percent sign nor the letter of a specifier. *)
Fixpoint settled (ps : list piece) : Prop :=
  match ps with
  | [] => True
  | Token _ :: ps' => settled ps'
  | Chr a :: ps' =>
      settled ps' ∧
      (a = "%"%char →
       match ps' with
       | [] => True
       | Chr b :: _ => specifier_of b = None
       | Token _ :: _ => False
       end)
  end.

(** A set may be iterated in any order, each element once. *)
Definition set_order (set_iter : list string → list string) : Prop :=
  ∀ l, set_iter l ≡ₚ remove_dups l.

(** Two printed strings that are equal, or that are the same dependency
    field of the header with the same facilities in another order. *)
Definition same_up_to_order (s1 s2 : string) : Prop :=
  s1 = s2 ∨
  ∃ field toks1 toks2,
    field ∈ ["# Required-Start:"; "# Required-Stop:"; "# Should-Start:"] ∧
    toks1 ≡ₚ toks2 ∧
    s1 = field +:+ Py.tab +:+ Py.join " " toks1 ∧
    s2 = field +:+ Py.tab +:+ Py.join " " toks2.

(** The section [Service] is in what the parser reads from the text. *)
Definition has_service_section (fpname text : string) : bool :=
  match configparser.read_file fpname text with
  | inr cfg => configparser.has_section cfg "Service"
  | inl _ => false
  end.

(** The source name an error carries, replaced. *)
Definition with_source (fpname : string) (e : configparser.Error) : configparser.Error :=
  match e with
  | configparser.DuplicateSectionError s _ n => configparser.DuplicateSectionError s fpname n
  | configparser.DuplicateOptionError s o _ n => configparser.DuplicateOptionError s o fpname n
  | configparser.MissingSectionHeaderError _ n l => configparser.MissingSectionHeaderError fpname n l
  | configparser.ParsingError _ errs => configparser.ParsingError fpname errs
  end.

(** A world for a run on one file, no output path given. *)
Definition plain_world (content : string) : World :=
  {| argv := ["sysd2v.py"]; isfile := λ _, true; file_content := λ _, content;
     temp_filename := "/tmp/tmpk3v0a1x_"; path_exists := λ _, false;
     access_w := λ _, true; open_w := λ _, None; input_line := "";
     chown := λ _, true; display_services := []; set_iter := remove_dups |}.

Definition convert_args (path : string) : Namespace :=
  {| service_file := Some path; list_services := false; output := None; install := false |}.

(** A computation that ends without an exception. *)
Definition returns (m : Out unit) : Prop := outcome m = Return tt.

(** A computation that ends without an exception or with the given one. *)
Definition ends (m : Out unit) (e : exn) : Prop := returns m ∨ outcome m = Raise e.

(** The exception that stops a generation which reaches the polling loop:
    the one of the executable path, if that has one. *)
Definition abort (self : SystemdServiceConverter) : exn :=
  match get_executable_path self with
  | Return _ => NameError "timeout_var"
  | Raise e => e
  end.

(** The words of [After], [Requires] or [Wants]. *)
Definition dependency_tokens (self : SystemdServiceConverter) (opt : string) : list string :=
  Py.split_ws (str_of (get_config_option self "Unit" opt (Some ""))).

(** Two computations that end alike and print alike, the order within the
    dependency fields apart. *)
Definition alike (m1 m2 : Out unit) : Prop :=
  outcome m1 = outcome m2 ∧ Forall2 same_up_to_order (printed m1) (printed m2).

(** The source name in an exception of the parser, replaced. *)
Definition renamed (fpname : string) (e : exn) : exn :=
  match e with
  | ConfigError e => ConfigError (with_source fpname e)
  | _ => e
  end.

(** ** Further notions for the properties *)

(** A line that [preprocess_service_file] never drops: a section header, or
    a line without an equals sign. *)
Definition always_kept (line : string) : bool :=
  let stripped_line := Py.strip line in
  (Py.startswith stripped_line "[" && Py.endswith stripped_line "]") ||
  negb (Py.contains "=" stripped_line).

(** The keys seen so far are the same, section by section. *)
Definition same_keys (st1 st2 : preprocess_state) : Prop :=
  current_section st1 = current_section st2 ∧
  ∀ sec key,
    is_Some (default ∅ (section_data st1 !! sec) !! key) ↔
    is_Some (default ∅ (section_data st2 !! sec) !! key).

Fixpoint all_space (s : string) : bool :=
  match s with
  | "" => true
  | String c s' => Py.isspace c && all_space s'
  end.

Fixpoint no_space (s : string) : bool :=
  match s with
  | "" => true
  | String c s' => negb (Py.isspace c) && no_space s'
  end.

(** The facility a [Wants] token stands for. *)
Definition should_facility (want : string) : option string :=
  if String.eqb want "network.target" then Some "$network"
  else if String.eqb want "remote-fs.target" then Some "$remote_fs"
  else None.

(** The digits of a runlevel field. *)
Fixpoint digits (s : string) : list ascii :=
  match s with
  | "" => []
  | String c s' =>
      if (48 <=? nat_of_ascii c)%nat && (nat_of_ascii c <=? 57)%nat
      then c :: digits s' else digits s'
  end.

(** An [ExecStart] with a dash and arguments. *)
Definition args_unit : string :=
  lines [ "[Service]"; "ExecStart=-/usr/bin/foo --bar baz" ].

Definition wants_unit : string :=
  lines [ "[Unit]"; "Wants=network.target remote-fs.target foo.service network.target";
          "[Service]"; "ExecStart=/bin/foo" ].


Definition dash_unit : string := lines [ "[Service]"; "ExecStart=-" ].

(** ** Finding the unit files of the system *)

(** What [find_systemd_services] asks of the file system. *)
Record FileSystem : Type := {
  fs_exists : string → bool;
  fs_isdir : string → bool;
  fs_isfile : string → bool;
  fs_getsize : string → nat;
  fs_glob : string → list string
}.

(** [os.path.join(a, b)]. *)
Definition path_join (a b : string) : string :=
  if Py.startswith b "/" then b
  else if negb (Py.nonempty a) || Py.endswith a "/" then a +:+ b
  else a +:+ "/" +:+ b.

Definition search_paths : list string :=
  [ "/etc/systemd/system"; "/lib/systemd/system"; "/usr/lib/systemd/system";
    "/usr/local/lib/systemd/system"; "/run/systemd/system" ].

(** What one search directory adds to [services]. *)
Definition services_in (fs : FileSystem) (search_dir : string) : list string :=
  fs_glob fs (path_join search_dir "*.service") ++
  (["*.wants"; "*.requires"] ≫= λ subdir_pattern,
     fs_glob fs (path_join search_dir subdir_pattern) ≫= λ subdir,
       if fs_isdir fs subdir then fs_glob fs (path_join subdir "*.service") else []).

(** The list [services] after the first loop. *)
Definition found_services (fs : FileSystem) : list string :=
  search_paths ≫= λ search_dir,
    if fs_exists fs search_dir then services_in fs search_dir else [].

(** The state of the second loop. *)
Record discovery : Type := {
  valid_services : list (string * string);
  seen_names : gset string
}.

Definition usable (fs : FileSystem) (service_path : string) : bool :=
  fs_isfile fs service_path && negb (fs_getsize fs service_path =? 0)%nat.

Definition consider_service (fs : FileSystem) (st : discovery) (service_path : string)
    : discovery :=
  if negb (fs_isfile fs service_path) || (fs_getsize fs service_path =? 0)%nat then st
  else
    let service_name := Py.basename service_path in
    if bool_decide (service_name ∈ seen_names st) then
      if Py.contains "/etc/systemd" service_path then
        {| valid_services :=
             filter (λ s, Py.basename s.2 ≠ service_name) (valid_services st)
             ++ [(service_name, service_path)];
           seen_names := seen_names st |}
      else st
    else
      {| valid_services := valid_services st ++ [(service_name, service_path)];
         seen_names := {[service_name]} ∪ seen_names st |}.

(** [sorted(l, key=lambda x: x[0])]: the sort is stable, the keys are
    compared as strings. *)
Fixpoint insert_by_name (x : string * string) (l : list (string * string))
    : list (string * string) :=
  match l with
  | [] => [x]
  | y :: l' => if String.leb x.1 y.1 then x :: l else y :: insert_by_name x l'
  end.

Definition sorted_by_name (l : list (string * string)) : list (string * string) :=
  foldr insert_by_name [] l.

Definition find_systemd_services (fs : FileSystem) : list (string * string) :=
  sorted_by_name
    (valid_services
       (foldl (consider_service fs) {| valid_services := []; seen_names := ∅ |}
          (found_services fs))).

(** What the second loop keeps true of its state and the paths it has
    gone through. *)
Record discovered (fs : FileSystem) (st : discovery) (paths : list string) : Prop := {
  discovered_seen : ∀ n, n ∈ seen_names st ↔ n ∈ (valid_services st).*1;
  discovered_nodup : NoDup (valid_services st).*1;
  discovered_entry : ∀ n p, (n, p) ∈ valid_services st →
    n = Py.basename p ∧ p ∈ paths ∧ usable fs p = true;
  discovered_all : ∀ p, p ∈ paths → usable fs p = true →
    Py.basename p ∈ (valid_services st).*1;
  discovered_etc : ∀ p p', p' ∈ paths → usable fs p' = true →
    Py.contains "/etc/systemd" p' = true →
    (Py.basename p', p) ∈ valid_services st →
    Py.contains "/etc/systemd" p = true
}.

(** A small file system: one unit in three places, one empty file. *)
Definition sample_fs : FileSystem :=
  {| fs_exists := λ d, String.eqb d "/etc/systemd/system" || String.eqb d "/lib/systemd/system";
     fs_isdir := λ d, String.eqb d "/etc/systemd/system/multi-user.target.wants";
     fs_isfile := λ _, true;
     fs_getsize := λ p, if String.eqb p "/lib/systemd/system/empty.service" then 0 else 120;
     fs_glob := λ pat,
       if String.eqb pat "/etc/systemd/system/*.service"
       then ["/etc/systemd/system/ssh.service"]
       else if String.eqb pat "/lib/systemd/system/*.service"
       then ["/lib/systemd/system/ssh.service"; "/lib/systemd/system/empty.service";
             "/lib/systemd/system/cron.service"]
       else if String.eqb pat "/etc/systemd/system/*.wants"
       then ["/etc/systemd/system/multi-user.target.wants"]
       else if String.eqb pat "/etc/systemd/system/multi-user.target.wants/*.service"
       then ["/etc/systemd/system/multi-user.target.wants/ssh.service"]
       else [] |}.

(** Where the path listed for a name stands among the paths found: an
    [/etc/systemd] path after which no usable [/etc/systemd] path has the
    name, or a path before which no usable path has the name. *)
Definition chosen (fs : FileSystem) (paths : list string) (n p : string) : Prop :=
  ∃ l1 l2, paths = l1 ++ p :: l2 ∧
    if Py.contains "/etc/systemd" p
    then ∀ q, q ∈ l2 → usable fs q = true → Py.basename q = n →
              Py.contains "/etc/systemd" q = false
    else ∀ q, q ∈ l1 → usable fs q = true → Py.basename q ≠ n.


(** * Properties *)

(** ** The output monad *)

Lemma outcome_bind {A B : Type} (m : Out A) (f : A → Out B) :
  outcome (m ≫= f) =
  match outcome m with Return a => outcome (f a) | Raise e => Raise e end.
Proof. destruct m as [o [a|e]]; simpl; [destruct (f a)|]; reflexivity. Qed.

Lemma printed_bind {A B : Type} (m : Out A) (f : A → Out B) :
  printed (m ≫= f) =
  printed m ++ match outcome m with Return a => printed (f a) | Raise _ => [] end.
Proof.
  destruct m as [o [a|e]]; simpl; [destruct (f a); reflexivity|].
  unfold printed; simpl. by rewrite app_nil_r.
Qed.

Lemma returns_print s : returns (print s).
Proof. reflexivity. Qed.

Lemma returns_ret : returns (mret tt).
Proof. reflexivity. Qed.

Lemma returns_seq (m k : Out unit) : returns m → returns k → returns (m ;; k).
Proof. unfold returns. intros Hm Hk. by rewrite outcome_bind, Hm. Qed.

Lemma returns_when c m : returns m → returns (when c m).
Proof. destruct c; [done|]. intros _. reflexivity. Qed.

Lemma returns_for {A : Type} (l : list A) (body : A → Out unit) :
  (∀ x, returns (body x)) → returns (for_ l body).
Proof.
  intros H. induction l as [|x l IH]; [reflexivity|].
  simpl. by apply returns_seq.
Qed.

Lemma returns_if (c : bool) (m k : Out unit) :
  returns m → returns k → returns (if c then m else k).
Proof. by destruct c. Qed.

Lemma returns_success_check action : returns (_add_success_check action).
Proof. unfold _add_success_check. by destruct (negb _). Qed.

(** ** Duplicate keys *)

(** C1.  On a unit with the lines [Environment=A=1] and [Environment=B=2] in
    its [Service] section the loop of [preprocess_service_file] does build
    the merged value ["A=1 B=2"] in [section_data], but the lines it returns
    keep the first line as it was written and drop the second: the parser
    is handed [Environment=A=1], the option has the value ["A=1"], and the
    variable block exports [A=1] and nothing for [B]. *)
Theorem duplicate_environment_dropped (tmp : string) :
  (section_data (preprocess_loop (Py.readlines env_unit)) !! "[Service]")
    ≫= (.!! "environment") = Some "A=1 B=2" ∧
  String.concat "" (preprocess_service_file env_unit) =
    lines ["[Service]"; "ExecStart=/bin/foo"; "Environment=A=1"] ∧
  ∃ self,
    parse_service_file "/etc/systemd/system/foo.service" env_unit tmp = Return self ∧
    get_config_option self "Service" "Environment" None = Some "A=1" ∧
    generate_script_variables self =
      ([". /lib/lsb/init-functions"; "prog=foo"; "PIDFILE=/var/run/$prog.pid";
        "DESC=" +:+ Py.dq +:+ "foo" +:+ Py.dq; "export A=1"], Return tt).
Proof.
  split; [by vm_compute|]. split; [by vm_compute|].
  eexists. split; [by vm_compute|]. split; by vm_compute.
Qed.

(** ** The timeout check *)

(** [_add_timeout_check] prints the success check, or raises before it has
    printed anything; it never prints the polling loop. *)
Lemma add_timeout_check_cases self action :
  _add_timeout_check self action = _add_success_check action ∨
  ∃ e, _add_timeout_check self action = ([], Raise e) ∧
       (e = NameError "timeout_var" ∨ e = IndexError) ∧
       (∀ p, get_executable_path self = Return p → e = NameError "timeout_var").
Proof.
  unfold _add_timeout_check.
  destruct (bool_decide _ || negb _); [by left|right].
  destruct (get_executable_path self) as [p|e] eqn:Hp.
  - exists (NameError "timeout_var"). split; [reflexivity|]. split; [by left|done].
  - exists e. split; [reflexivity|]. split; [right|done].
    unfold get_executable_path in Hp. by repeat case_match; simplify_eq.
Qed.

Lemma existsb_eqb_elem_of (x : string) (l : list string) :
  existsb (String.eqb x) l = true ↔ x ∈ l.
Proof.
  rewrite existsb_exists. setoid_rewrite String.eqb_eq.
  setoid_rewrite <- list_elem_of_In. naive_solver.
Qed.

Lemma elem_of_existsb (x : string) (l : list string) :
  existsb (String.eqb x) l = true → x ∈ l.
Proof. apply existsb_eqb_elem_of. Qed.

Lemma not_elem_of_existsb (x : string) (l : list string) :
  existsb (String.eqb x) l = false → x ∉ l.
Proof. rewrite <- existsb_eqb_elem_of. by intros ->. Qed.

Ltac in_list := apply elem_of_existsb; vm_compute; reflexivity.

Ltac not_in_list := apply not_elem_of_existsb; vm_compute; reflexivity.

(** C2.  For [TimeoutStartSec=30] without [TimeoutSec] the variable block
    resolves [STARTTIMEOUT=30], yet the start procedure has the single
    success check and no loop, because [_add_timeout_check] looks at
    [TimeoutSec] alone; for [TimeoutSec=30] the variable block resolves the
    same value and the start procedure is cut off by [NameError] before the
    first line of the loop, because the loop names its bound through the
    unbound [timeout_var]. *)
Theorem start_timeout_not_polled (tmp : string) :
  (∃ self,
     parse_service_file "/etc/systemd/system/foo.service" start_timeout_unit tmp
       = Return self ∧
     "STARTTIMEOUT=30" ∈ printed (generate_script_variables self) ∧
     generate_start_function self =
       ([ "start() {";
          Py.tab +:+ "log_daemon_msg " +:+ Py.dq +:+ "Starting $DESC" +:+ Py.dq +:+
            " " +:+ Py.dq +:+ "$prog" +:+ Py.dq;
          Py.tab +:+ "start-stop-daemon --start --background --make-pidfile --pidfile $PIDFILE --exec /bin/foo";
          Py.tab +:+ "if [ $? -ne 0 ]; then";
          Py.tab +:+ Py.tab +:+ "log_end_msg 1";
          Py.tab +:+ Py.tab +:+ "exit 1";
          Py.tab +:+ "fi";
          Py.tab +:+ "if [ $? -eq 0 ]; then";
          Py.tab +:+ Py.tab +:+ "log_end_msg 0";
          Py.tab +:+ "fi";
          "}"; "" ], Return tt)) ∧
  (∃ self,
     parse_service_file "/etc/systemd/system/foo.service" timeout_unit tmp
       = Return self ∧
     "STARTTIMEOUT=30" ∈ printed (generate_script_variables self) ∧
     generate_start_function self =
       ([ "start() {";
          Py.tab +:+ "log_daemon_msg " +:+ Py.dq +:+ "Starting $DESC" +:+ Py.dq +:+
            " " +:+ Py.dq +:+ "$prog" +:+ Py.dq;
          Py.tab +:+ "start-stop-daemon --start --background --make-pidfile --pidfile $PIDFILE --exec /bin/foo" ],
        Raise (NameError "timeout_var"))).
Proof.
  split; eexists; (split; [by vm_compute|]); (split; [|by vm_compute]); in_list.
Qed.

(** ** Reloading *)

(** C8.  [ExecReload=] with nothing after the sign is an option that is
    there and is empty.  [generate_reload_function] and
    [generate_force_reload_function] test whether the value is empty and
    print no reload procedure and the stop-then-start body;
    [generate_case_statement] tests whether the option is there and prints
    the [reload] entry and the usage line with [reload]: the script
    dispatches to a procedure it does not define.  For an [ExecReload] with a
    command the fallback of [force_reload] is the word [restart], and no
    line of the script opens a procedure of that name. *)
Theorem empty_reload_dispatched_undefined (tmp : string) (set_iter : list string → list string) :
  (∃ self,
     parse_service_file "/etc/systemd/system/foo.service" empty_reload_unit tmp
       = Return self ∧
     get_config_option self "Service" "ExecReload" None = Some "" ∧
     generate_reload_function self = ([], Return tt) ∧
     generate_force_reload_function self =
       (["force_reload() {"; Py.tab +:+ "stop"; Py.tab +:+ "start"; "}"; ""], Return tt) ∧
     outcome (generate_init_script set_iter self) = Return tt ∧
     ("reload() {" ∉ printed (generate_init_script set_iter self)) ∧
     reload_entry ∈ printed (generate_init_script set_iter self) ∧
     reload_usage ∈ printed (generate_init_script set_iter self)) ∧
  (∃ self,
     parse_service_file "/etc/systemd/system/foo.service" reload_unit tmp
       = Return self ∧
     generate_force_reload_function self =
       (["force_reload() {"; Py.tab +:+ "reload"; Py.tab +:+ "if [ $? -ne 0 ]; then";
         Py.tab +:+ Py.tab +:+ "restart"; Py.tab +:+ "fi"; "}"; ""], Return tt) ∧
     outcome (generate_init_script set_iter self) = Return tt ∧
     "reload() {" ∈ printed (generate_init_script set_iter self) ∧
     ("restart() {" ∉ printed (generate_init_script set_iter self))).
Proof.
  split; eexists; (split; [by vm_compute|]).
  - repeat (split; [by vm_compute|]).
    split; [not_in_list|]. split; in_list.
  - repeat (split; [by vm_compute|]).
    split; [in_list|not_in_list].
Qed.

(** ** Start conditions *)

(** C9.  The guard printed for [ConditionPathExists=/etc/default/foo] tests
    [-s], a file that is there and not empty: line for line the start
    procedure is the one printed for
    [ConditionFileNotEmpty=/etc/default/foo], and no line of it has the
    existence test [-e].  Where the guard fails it logs and leaves with
    [exit 0]. *)
Theorem path_exists_guard_tests_size (tmp : string) :
  ∃ self self',
    parse_service_file "/etc/systemd/system/foo.service" path_exists_unit tmp
      = Return self ∧
    parse_service_file "/etc/systemd/system/foo.service" file_not_empty_unit tmp
      = Return self' ∧
    get_config_option self "Unit" "ConditionPathExists" None = Some "/etc/default/foo" ∧
    get_config_option self "Unit" "ConditionFileNotEmpty" None = None ∧
    take 6 (printed (generate_start_function self)) =
      [ "start() {";
        Py.tab +:+ "log_daemon_msg " +:+ Py.dq +:+ "Starting $DESC" +:+ Py.dq +:+
          " " +:+ Py.dq +:+ "$prog" +:+ Py.dq;
        Py.tab +:+ "if [ ! -s /etc/default/foo ]; then";
        Py.tab +:+ Py.tab +:+ "log_end_msg 1";
        Py.tab +:+ Py.tab +:+ "exit 0";
        Py.tab +:+ "fi" ] ∧
    generate_start_function self = generate_start_function self' ∧
    Forall (λ l, Py.contains " -e " l = false) (printed (generate_start_function self)).
Proof.
  do 2 eexists. repeat (split; [by vm_compute|]).
  vm_compute. repeat constructor.
Qed.

(** ** Generation with a timeout *)

Lemma executable_path_error self e : get_executable_path self = Raise e → e = IndexError.
Proof. unfold get_executable_path. intros H. by repeat case_match; simplify_eq. Qed.

Lemma ends_returns m e : returns m → ends m e.
Proof. by left. Qed.

Lemma ends_seq (m k : Out unit) e : ends m e → ends k e → ends (m ;; k) e.
Proof.
  unfold ends, returns. intros [Hm|Hm] Hk; rewrite outcome_bind, Hm; [done|by right].
Qed.

Lemma ends_when c m e : ends m e → ends (when c m) e.
Proof. destruct c; [done|]. intros _. by left. Qed.

Lemma ends_if (c : bool) (m k : Out unit) e : ends m e → ends k e → ends (if c then m else k) e.
Proof. by destruct c. Qed.

Lemma ends_path self (f : string → Out unit) :
  (∀ p, get_executable_path self = Return p → ends (f p) (abort self)) →
  ends (lift (get_executable_path self) ≫= f) (abort self).
Proof.
  intros H. unfold abort in *. destruct (get_executable_path self) as [p|e].
  - assert (lift (Return p) ≫= f = f p) as ->; [|by apply H].
    unfold lift; simpl. by destruct (f p).
  - by right.
Qed.

Lemma ends_timeout_check self action : ends (_add_timeout_check self action) (abort self).
Proof.
  unfold _add_timeout_check.
  destruct (bool_decide _ || negb _); [left; apply returns_success_check|].
  apply ends_path. intros p Hp. right. unfold abort. by rewrite Hp.
Qed.

Lemma raises_timeout_check self action v :
  get_config_option self "Service" "TimeoutSec" None = Some v → v ≠ "" → v ≠ "0" →
  outcome (_add_timeout_check self action) = Raise (abort self).
Proof.
  intros Hv Hne H0. unfold _add_timeout_check, abort. rewrite Hv.
  rewrite bool_decide_eq_false_2 by congruence.
  destruct v; [done|]. simpl. by destruct (get_executable_path self).
Qed.

Lemma raises_after (m k : Out unit) e :
  ends m e → outcome k = Raise e → outcome (m ;; k) = Raise e.
Proof. unfold ends, returns. intros [Hm|Hm] Hk; by rewrite outcome_bind, Hm. Qed.

Lemma raises_first {A B : Type} (m : Out A) (f : A → Out B) e :
  outcome m = Raise e → outcome (m ≫= f) = Raise e.
Proof. intros Hm. by rewrite outcome_bind, Hm. Qed.

Lemma raises_path self (f : string → Out unit) :
  (∀ p, get_executable_path self = Return p → outcome (f p) = Raise (abort self)) →
  outcome (lift (get_executable_path self) ≫= f) = Raise (abort self).
Proof.
  intros H. unfold abort in *. destruct (get_executable_path self) as [p|e].
  - assert (lift (Return p) ≫= f = f p) as ->; [|by apply H].
    unfold lift; simpl. by destruct (f p).
  - done.
Qed.

Ltac returns_tac :=
  repeat first
    [ apply returns_print | apply returns_ret | apply returns_success_check
    | apply returns_seq | apply returns_when | apply returns_if
    | apply returns_for; intros ?
    | match goal with |- returns (let '(_, _) := ?c in _) => destruct c end ].

Ltac ends_tac :=
  repeat first
    [ apply ends_timeout_check
    | apply ends_seq | apply ends_when | apply ends_if
    | apply ends_path; intros ? ?
    | apply ends_returns; returns_tac; fail ].

Lemma returns_script_variables self : returns (generate_script_variables self).
Proof. unfold generate_script_variables. returns_tac. Qed.

Lemma ends_lsb_header set_iter self : ends (generate_lsb_header set_iter self) (abort self).
Proof. unfold generate_lsb_header, _generate_dependencies, _generate_runlevels. ends_tac. Qed.

Lemma ends_start_function self : ends (generate_start_function self) (abort self).
Proof. unfold generate_start_function, condition_guard. ends_tac. Qed.

Lemma raises_stop_function self v :
  get_config_option self "Service" "TimeoutSec" None = Some v → v ≠ "" → v ≠ "0" →
  outcome (generate_stop_function self) = Raise (abort self).
Proof.
  intros Hv Hne H0. unfold generate_stop_function.
  do 2 (apply raises_after; [ends_tac|]).
  apply raises_first. destruct (Py.truthy _).
  - apply raises_after; [ends_tac|]. by eapply raises_timeout_check.
  - apply raises_path. intros p Hp.
    apply raises_after; [ends_tac|]. by eapply raises_timeout_check.
Qed.

(** C3, as amended.  When [TimeoutSec] has a value that is neither empty nor
    ["0"], the generation of the script stops with an exception: the
    [NameError] for [timeout_var], or the [IndexError] of an [ExecStart]
    that has no word after its dash, which comes first.  So a generation
    that runs to its end had [TimeoutSec] absent, empty or ["0"]. *)
Theorem nonzero_timeout_aborts set_iter self :
  (∀ v, get_config_option self "Service" "TimeoutSec" None = Some v →
        v ≠ "" → v ≠ "0" →
        ∃ e, outcome (generate_init_script set_iter self) = Raise e ∧
             (e = NameError "timeout_var" ∨ e = IndexError) ∧
             (∀ p, get_executable_path self = Return p → e = NameError "timeout_var")) ∧
  (returns (generate_init_script set_iter self) →
   get_config_option self "Service" "TimeoutSec" None ∈ [None; Some ""; Some "0"]).
Proof.
  assert (∀ v, get_config_option self "Service" "TimeoutSec" None = Some v →
               v ≠ "" → v ≠ "0" →
               outcome (generate_init_script set_iter self) = Raise (abort self)) as Habort.
  { intros v Hv Hne H0. unfold generate_init_script.
    apply raises_after; [ends_tac|].
    apply raises_after; [apply ends_lsb_header|].
    apply raises_after; [ends_tac|].
    apply raises_after; [apply ends_returns, returns_script_variables|].
    apply raises_after; [ends_tac|].
    apply raises_after; [apply ends_start_function|].
    apply raises_first. by eapply raises_stop_function. }
  split.
  - intros v Hv Hne H0. exists (abort self). split; [by eapply Habort|].
    unfold abort. destruct (get_executable_path self) as [p|e] eqn:Hp.
    + split; [by left|done].
    + split; [right; by eapply executable_path_error|done].
  - unfold returns. intros Hret.
    destruct (get_config_option self "Service" "TimeoutSec" None) as [v|] eqn:Hv;
      [|set_solver].
    destruct (decide (v = "")) as [->|Hne]; [set_solver|].
    destruct (decide (v = "0")) as [->|H0]; [set_solver|].
    rewrite (Habort v) in Hret by done. done.
Qed.


Lemma nonzero_timeout_aborts_witness :
  ∃ self,
    parse_service_file "/etc/systemd/system/foo.service" timeout_unit "/tmp/tmpk3v0a1x_"
      = Return self ∧
    get_config_option self "Service" "TimeoutSec" None = Some "30" ∧
    ∃ e, outcome (generate_init_script remove_dups self) = Raise e ∧
         (e = NameError "timeout_var" ∨ e = IndexError) ∧
         (∀ p, get_executable_path self = Return p → e = NameError "timeout_var").
Proof.
  eexists. split; [vm_compute; reflexivity|]. split; [vm_compute; reflexivity|].
  apply (proj1 (nonzero_timeout_aborts remove_dups _) "30");
    [vm_compute; reflexivity|discriminate|discriminate].
Defined.

(** C3, as it is stated, fails where [TimeoutSec=] has nothing after the
    sign: the option is set, its value is not ["0"], and the script is
    generated to its last line. *)
Lemma empty_timeout_completes :
  ∃ self,
    parse_service_file "/etc/systemd/system/foo.service" empty_timeout_unit
      "/tmp/tmpk3v0a1x_" = Return self ∧
    get_config_option self "Service" "TimeoutSec" None = Some "" ∧
    "" ≠ "0" ∧
    returns (generate_init_script remove_dups self) ∧
    last (printed (generate_init_script remove_dups self)) = Some "esac".
Proof.
  eexists. split; [by vm_compute|]. split; [by vm_compute|].
  split; [discriminate|]. split; by vm_compute.
Qed.

(** ** A unit without a [Service] section *)

(** C5.  When what the parser reads has no section [Service], loading
    raises, the conversion gives no script, and [main] prints the one line
    of the error, writes no file, and leaves with status 1; where the
    parser accepted the text the error is the one that names the missing
    section. *)
Theorem missing_service_section_fails (w : World) (args : Namespace) (path : string) :
  list_services args = false →
  service_file args = Some path →
  Py.nonempty path = true →
  install args && Py.truthy (output args) = false →
  isfile w path = true →
  (∀ text, processed_content path (file_content w path) = Return text →
           has_service_section (temp_filename w) text = false) →
  ∃ e,
    parse_service_file path (file_content w path) (temp_filename w) = Raise e ∧
    convert (set_iter w) path (file_content w path) (temp_filename w) = Raise e ∧
    main w args =
      {| stdout := ["Error parsing service file: " +:+ Msg.str e];
         prompted := false; written := None; finish := Exit 1 |} ∧
    (∀ text cfg,
       processed_content path (file_content w path) = Return text →
       configparser.read_file (temp_filename w) text = inr cfg →
       e = missing_service_error).
Proof.
  intros Hlist Hfile Hpath Hboth Hisfile Hno.
  assert (∃ e, parse_service_file path (file_content w path) (temp_filename w) = Raise e ∧
               ∀ text cfg,
                 processed_content path (file_content w path) = Return text →
                 configparser.read_file (temp_filename w) text = inr cfg →
                 e = missing_service_error) as (e & He & Hmissing).
  { unfold parse_service_file, processed_content, has_service_section in *.
    destruct (parse_template path) as [[[[name tpl] inst] pre]|e].
    - specialize (Hno _ eq_refl).
      destruct (configparser.read_file _ _) as [e|cfg] eqn:Hread.
      + eexists. split; [done|]. intros ?? [= <-] ?. congruence.
      + simpl in Hno. rewrite Hno. simpl. eexists. split; [done|]. done.
    - eexists. split; [done|]. done. }
  exists e. split; [done|]. split; [by unfold convert; rewrite He|].
  split; [|done].
  unfold main. by rewrite Hlist, Hfile, Hpath, Hboth, Hisfile, He.
Qed.

Lemma missing_service_section_fails_witness :
  ∃ e,
    parse_service_file "/etc/systemd/system/foo.service" no_service_unit
      "/tmp/tmpk3v0a1x_" = Raise e ∧
    convert remove_dups "/etc/systemd/system/foo.service" no_service_unit
      "/tmp/tmpk3v0a1x_" = Raise e ∧
    main (plain_world no_service_unit) (convert_args "/etc/systemd/system/foo.service") =
      {| stdout := ["Error parsing service file: " +:+ Msg.str e];
         prompted := false; written := None; finish := Exit 1 |} ∧
    (∀ text cfg,
       processed_content "/etc/systemd/system/foo.service" no_service_unit = Return text →
       configparser.read_file "/tmp/tmpk3v0a1x_" text = inr cfg →
       e = missing_service_error).
Proof.
  apply (missing_service_section_fails (plain_world no_service_unit)
           (convert_args "/etc/systemd/system/foo.service")
           "/etc/systemd/system/foo.service");
    [reflexivity|reflexivity|reflexivity|reflexivity|reflexivity|].
  intros text [= <-]. vm_compute. reflexivity.
Defined.

(** ** Dependencies *)

Lemma add_required_set (l : list string) (dep : string) :
  list_to_set (add_required l dep) =@{gset string}
  list_to_set l ∪ match required_facility dep with Some f => {[f]} | None => ∅ end.
Proof.
  unfold add_required, required_facility.
  destruct (String.eqb dep "network.target");
    [rewrite list_to_set_app_L; simpl; set_solver|].
  destruct (String.eqb dep "syslog.target").
  { case_bool_decide as Hin; [|rewrite list_to_set_app_L; simpl; set_solver].
    apply (elem_of_list_to_set (C:=gset string)) in Hin. set_solver. }
  repeat (destruct (String.eqb dep _);
          [rewrite list_to_set_app_L; simpl; set_solver|]).
  set_solver.
Qed.

Lemma foldl_add_required_set (toks l : list string) :
  list_to_set (foldl add_required l toks) =@{gset string}
  list_to_set l ∪ list_to_set (omap required_facility toks).
Proof.
  revert l. induction toks as [|dep toks IH]; intros l; simpl; [set_solver|].
  rewrite IH, add_required_set. destruct (required_facility dep); set_solver.
Qed.

Lemma add_required_option_tokens self l opt :
  add_required_option self l opt = foldl add_required l (dependency_tokens self opt).
Proof.
  unfold add_required_option, dependency_tokens.
  by destruct (str_of _).
Qed.

Lemma startswith_nonempty (s p : string) :
  Py.nonempty p = true → Py.nonempty s && Py.startswith s p = Py.startswith s p.
Proof. by destruct s, p. Qed.

Lemma required_deps_set self p :
  list_to_set (required_deps self p) =@{gset string}
  {["$syslog"; "$local_fs"]} ∪
  (if Py.startswith p "/usr" then {["$remote_fs"]} else ∅) ∪
  list_to_set (omap required_facility
                 (dependency_tokens self "After" ++ dependency_tokens self "Requires")).
Proof.
  unfold required_deps. simpl foldl.
  rewrite !add_required_option_tokens, !foldl_add_required_set.
  rewrite startswith_nonempty by done.
  rewrite omap_app, list_to_set_app_L.
  destruct (Py.startswith p "/usr"); simpl; set_solver.
Qed.

Lemma set_order_elements (set_iter : list string → list string) (l : list string) :
  set_order set_iter → list_to_set (set_iter l) =@{gset string} list_to_set l.
Proof.
  intros H. apply set_eq. intros x.
  by rewrite !elem_of_list_to_set, (H l), elem_of_remove_dups.
Qed.

(** C7, as amended.  The set printed as [Required-Start] and as
    [Required-Stop] is [$syslog] and [$local_fs], with [$remote_fs] when the
    executable path starts with [/usr], with the facility of every word of
    [After] and of [Requires] that the table knows; other words add
    nothing.  For [After=network.target syslog.target], no [Requires] and an
    executable outside [/usr] that is [$syslog], [$local_fs] and
    [$network].  Both lines print one iteration of the one set. *)
Theorem required_dependencies (set_iter : list string → list string)
    (self : SystemdServiceConverter) (p : string) :
  set_order set_iter →
  get_executable_path self = Return p →
  list_to_set (required_deps self p) =@{gset string}
    {["$syslog"; "$local_fs"]} ∪
    (if Py.startswith p "/usr" then {["$remote_fs"]} else ∅) ∪
    list_to_set (omap required_facility
                   (dependency_tokens self "After" ++ dependency_tokens self "Requires")) ∧
  (Py.startswith p "/usr" = false →
   get_config_option self "Unit" "After" (Some "") = Some "network.target syslog.target" →
   dependency_tokens self "Requires" = [] →
   list_to_set (required_deps self p) =@{gset string} {["$syslog"; "$local_fs"; "$network"]}) ∧
  ∃ order,
    order ≡ₚ remove_dups (required_deps self p) ∧
    list_to_set order =@{gset string} list_to_set (required_deps self p) ∧
    take 2 (printed (_generate_dependencies set_iter self)) =
      [ "# Required-Start:" +:+ Py.tab +:+ Py.join " " order;
        "# Required-Stop:" +:+ Py.tab +:+ Py.join " " order ].
Proof.
  intros Horder Hp. split; [apply required_deps_set|]. split.
  - intros Husr Hafter Hreq. rewrite required_deps_set, Husr, Hreq.
    unfold dependency_tokens. rewrite Hafter. vm_compute omap. set_solver.
  - exists (set_iter (required_deps self p)).
    split; [apply Horder|]. split; [by apply set_order_elements|].
    unfold _generate_dependencies. rewrite Hp.
    by destruct (should_deps self).
Qed.

Lemma set_order_remove_dups : set_order remove_dups.
Proof. by intros l. Defined.

Lemma required_dependencies_witness :
  ∃ self,
    parse_service_file "/etc/systemd/system/foo.service" after_unit "/tmp/tmpk3v0a1x_"
      = Return self ∧
    list_to_set (required_deps self "/bin/foo") =@{gset string}
      {["$syslog"; "$local_fs"; "$network"]}.
Proof.
  eexists. split; [vm_compute; reflexivity|].
  refine (proj1 (proj2 (required_dependencies remove_dups _ "/bin/foo"
                          set_order_remove_dups _)) _ _ _);
    vm_compute; reflexivity.
Defined.

(** C7, as it is stated, fails for an executable under [/usr]: with
    [After=network.target syslog.target] and [ExecStart=/usr/sbin/food -D]
    the set has [$remote_fs] too. *)
Lemma usr_executable_requires_remote_fs :
  ∃ self,
    parse_service_file "/etc/systemd/system/foo.service" usr_after_unit
      "/tmp/tmpk3v0a1x_" = Return self ∧
    get_config_option self "Unit" "After" None = Some "network.target syslog.target" ∧
    get_executable_path self = Return "/usr/sbin/food" ∧
    list_to_set (required_deps self "/usr/sbin/food") ≠@{gset string}
      {["$syslog"; "$local_fs"; "$network"]} ∧
    printed (_generate_dependencies remove_dups self) =
      [ "# Required-Start:" +:+ Py.tab +:+ "$syslog $local_fs $remote_fs $network";
        "# Required-Stop:" +:+ Py.tab +:+ "$syslog $local_fs $remote_fs $network" ].
Proof.
  eexists. split; [by vm_compute|]. split; [by vm_compute|]. split; [by vm_compute|].
  split; [|by vm_compute].
  intros Heq.
  assert ("$remote_fs" ∈@{gset string} {["$syslog"; "$local_fs"; "$network"]}) as Hin.
  { rewrite <- Heq. apply elem_of_list_to_set. vm_compute.
    do 2 apply list_elem_of_further. apply list_elem_of_here. }
  set_solver.
Qed.

(** ** Two runs on one input *)

Lemma read_line_source fp1 fp2 n line st :
  configparser.read_line fp2 n line st =
  match configparser.read_line fp1 n line st with
  | inl e => inl (with_source fp2 e)
  | inr st' => inr st'
  end.
Proof.
  unfold configparser.read_line, configparser.enter_section, configparser.add_option.
  cbv zeta. by repeat case_match.
Qed.

Lemma read_lines_source fp1 fp2 lines n st :
  configparser.read_lines fp2 n lines st =
  match configparser.read_lines fp1 n lines st with
  | inl e => inl (with_source fp2 e)
  | inr st' => inr st'
  end.
Proof.
  revert n st. induction lines as [|line lines IH]; intros n st; simpl; [done|].
  rewrite (read_line_source fp1 fp2).
  destruct (configparser.read_line fp1 n line st); [done|]. apply IH.
Qed.

Lemma read_file_source fp1 fp2 content :
  configparser.read_file fp2 content =
  match configparser.read_file fp1 content with
  | inl e => inl (with_source fp2 e)
  | inr cfg => inr cfg
  end.
Proof.
  unfold configparser.read_file. rewrite (read_lines_source fp1 fp2).
  destruct (configparser.read_lines fp1 _ _ _) as [e|st]; [done|].
  by destruct (configparser.errors st).
Qed.

Lemma parse_service_file_source filepath content tmp1 tmp2 :
  parse_service_file filepath content tmp2 =
  match parse_service_file filepath content tmp1 with
  | Return self => Return self
  | Raise e => Raise (renamed tmp2 e)
  end.
Proof.
  unfold parse_service_file.
  destruct (parse_template filepath) as [[[[name tpl] inst] pre]|e] eqn:Ht.
  - rewrite (read_file_source tmp1 tmp2).
    destruct (configparser.read_file tmp1 _) as [e|cfg]; [done|].
    by destruct (negb _).
  - unfold parse_template in Ht. by repeat case_match; simplify_eq.
Qed.

Lemma same_up_to_order_refl (l : list string) : Forall2 same_up_to_order l l.
Proof. induction l; constructor; [by left|done]. Qed.

Lemma alike_refl m : alike m m.
Proof. split; [done|apply same_up_to_order_refl]. Qed.

Lemma alike_bind {A : Type} (m1 m2 : Out A) (f1 f2 : A → Out unit) :
  outcome m1 = outcome m2 →
  Forall2 same_up_to_order (printed m1) (printed m2) →
  (∀ a, alike (f1 a) (f2 a)) →
  alike (m1 ≫= f1) (m2 ≫= f2).
Proof.
  intros Ho Hp Hf. split.
  - rewrite !outcome_bind, Ho. destruct (outcome m2); [apply Hf|done].
  - rewrite !printed_bind, Ho. apply Forall2_app; [done|].
    destruct (outcome m2); [apply Hf|constructor].
Qed.

Lemma alike_seq (m1 m2 k1 k2 : Out unit) :
  alike m1 m2 → alike k1 k2 → alike (m1 ;; k1) (m2 ;; k2).
Proof. intros [??] ?. by apply alike_bind. Qed.

Lemma same_field field (si1 si2 : list string → list string) (l : list string) :
  field ∈ ["# Required-Start:"; "# Required-Stop:"; "# Should-Start:"] →
  set_order si1 → set_order si2 →
  same_up_to_order (field +:+ Py.tab +:+ Py.join " " (si1 l))
                   (field +:+ Py.tab +:+ Py.join " " (si2 l)).
Proof.
  intros Hf H1 H2. right. exists field, (si1 l), (si2 l).
  split; [done|]. split; [by rewrite (H1 l), (H2 l)|done].
Qed.

Lemma alike_print s1 s2 : same_up_to_order s1 s2 → alike (print s1) (print s2).
Proof. intros H. split; [done|]. unfold print, printed; simpl. by constructor. Qed.

Lemma alike_dependencies si1 si2 self :
  set_order si1 → set_order si2 →
  alike (_generate_dependencies si1 self) (_generate_dependencies si2 self).
Proof.
  intros H1 H2. unfold _generate_dependencies.
  apply alike_bind; [done|apply same_up_to_order_refl|]. intros p.
  apply alike_seq; [apply alike_print, same_field; [set_solver|done..]|].
  apply alike_seq; [apply alike_print, same_field; [set_solver|done..]|].
  destruct (should_deps self); [apply alike_refl|].
  apply alike_print, same_field; [set_solver|done..].
Qed.

Lemma alike_init_script si1 si2 self :
  set_order si1 → set_order si2 →
  alike (generate_init_script si1 self) (generate_init_script si2 self).
Proof.
  intros H1 H2. unfold generate_init_script, generate_lsb_header.
  apply alike_seq; [apply alike_refl|].
  apply alike_seq; [|apply alike_refl].
  do 2 (apply alike_seq; [apply alike_refl|]).
  apply alike_seq; [by apply alike_dependencies|apply alike_refl].
Qed.

(** C10.  Two runs on the same path and content, each with its own order of
    iterating over a set and its own temporary file: either both fail to
    load, with the same exception but for the name of the temporary file in
    it, or both load and generate, end alike, and print the same strings,
    one for one, except that a [Required-Start], [Required-Stop] or
    [Should-Start] line may list the same facilities in another order. *)
Theorem conversion_deterministic (si1 si2 : list string → list string)
    (filepath content tmp1 tmp2 : string) :
  set_order si1 → set_order si2 →
  match convert si1 filepath content tmp1, convert si2 filepath content tmp2 with
  | Return script1, Return script2 => alike script1 script2
  | Raise e1, Raise e2 => e2 = renamed tmp2 e1
  | _, _ => False
  end.
Proof.
  intros H1 H2. unfold convert.
  rewrite (parse_service_file_source filepath content tmp1 tmp2).
  destruct (parse_service_file filepath content tmp1) as [self|e]; [|done].
  by apply alike_init_script.
Qed.

Lemma set_order_reverse : set_order (λ l, reverse (remove_dups l)).
Proof. intros l. apply reverse_Permutation. Defined.

Lemma conversion_deterministic_witness :
  match convert remove_dups "/etc/systemd/system/foo.service" after_unit "/tmp/tmpk3v0a1x_",
        convert (λ l, reverse (remove_dups l)) "/etc/systemd/system/foo.service"
          after_unit "/tmp/tmp9q2m7c_d" with
  | Return script1, Return script2 => alike script1 script2
  | Raise e1, Raise e2 => e2 = renamed "/tmp/tmp9q2m7c_d" e1
  | _, _ => False
  end.
Proof.
  apply (conversion_deterministic remove_dups (λ l, reverse (remove_dups l)));
    [apply set_order_remove_dups|apply set_order_reverse].
Defined.

(** ** Specifiers *)

Lemma append_cons (a : ascii) (s t : string) : String a s +:+ t = String a (s +:+ t).
Proof. reflexivity. Qed.

Lemma append_nil_r (s : string) : s +:+ "" = s.
Proof. induction s as [|a s IH]; [done|]. by rewrite append_cons, IH. Qed.

Lemma append_assoc (s t u : string) : (s +:+ t) +:+ u = s +:+ t +:+ u.
Proof. induction s as [|a s IH]; [done|]. by rewrite !append_cons, IH. Qed.

Lemma prefix_nil (s : string) : String.prefix "" s = true.
Proof. by destruct s. Qed.

Lemma prefix_cons (c a : ascii) (p s : string) :
  String.prefix (String c p) (String a s) = bool_decide (c = a) && String.prefix p s.
Proof.
  simpl. destruct (ascii_dec c a).
  - by rewrite bool_decide_eq_true_2.
  - by rewrite bool_decide_eq_false_2.
Qed.

Lemma prefix_char (c a : ascii) (s : string) :
  String.prefix (String c "") (String a s) = bool_decide (c = a).
Proof. by rewrite prefix_cons, prefix_nil, andb_true_r. Qed.

Lemma contains_cons (sub : string) (a : ascii) (s : string) :
  Py.contains sub (String a s) = String.prefix sub (String a s) || Py.contains sub s.
Proof. reflexivity. Qed.

Lemma contains_char_cons (c a : ascii) (s : string) :
  Py.contains (String c "") (String a s) = bool_decide (c = a) || Py.contains (String c "") s.
Proof. by rewrite contains_cons, prefix_char. Qed.

Lemma contains_char_app (c : ascii) (s t : string) :
  Py.contains (String c "") (s +:+ t) =
  Py.contains (String c "") s || Py.contains (String c "") t.
Proof.
  induction s as [|a s IH].
  - by destruct t.
  - rewrite append_cons, !contains_char_cons, IH. by rewrite orb_assoc.
Qed.

Lemma replace_go_absent (old new s : string) :
  Py.contains old s = false → Py.replace_go old new 0 s = s.
Proof.
  induction s as [|a s IH]; [done|].
  rewrite contains_cons. intros [Hp Hc]%orb_false_elim.
  cbn [Py.replace_go]. rewrite Hp. by rewrite (IH Hc).
Qed.

Lemma replace_specifier_token sp v result :
  replace_specifier result (token_text sp, v) = Py.replace_go (token_text sp) v 0 result.
Proof.
  unfold replace_specifier. simpl fst; simpl snd.
  destruct (Py.contains _ _) eqn:Hc; [done|]. by rewrite replace_go_absent.
Qed.

Lemma specifier_of_letter sp : specifier_of (letter sp) = Some sp.
Proof. by destruct sp. Qed.

Lemma specifier_of_Some c sp : specifier_of c = Some sp → letter sp = c.
Proof.
  unfold specifier_of. intros H.
  repeat match type of H with
         | (if Ascii.eqb c ?x then _ else _) = _ =>
             destruct (Ascii.eqb_spec c x) as [->|_]; [by simplify_eq|]
         end.
  done.
Qed.

Lemma letter_not_percent sp : letter sp ≠ "%"%char.
Proof. by destruct sp. Qed.

Lemma prefix_token sp (s : string) :
  String.prefix (token_text sp) s =
  match s with
  | String a (String b _) => bool_decide (a = "%"%char) && bool_decide (b = letter sp)
  | _ => false
  end.
Proof.
  unfold token_text. destruct s as [|a [|b s]]; [done|..].
  - rewrite prefix_cons. simpl. apply andb_false_r.
  - rewrite prefix_cons, prefix_char.
    by rewrite (bool_decide_ext ("%"%char = a) (a = "%"%char)),
               (bool_decide_ext (letter sp = b) (b = letter sp)).
Qed.

Lemma unparse_app (ps qs : list piece) : unparse (ps ++ qs) = unparse ps +:+ unparse qs.
Proof.
  induction ps as [|p ps IH]; [done|].
  simpl. by rewrite IH, append_assoc.
Qed.

Lemma unparse_chars (v : string) : unparse (chars v) = v.
Proof. induction v as [|a v IH]; [done|]. simpl. by rewrite IH. Qed.

Lemma expand_cons sp v p ps : expand sp v (p :: ps) = expand_piece sp v p ++ expand sp v ps.
Proof. reflexivity. Qed.

Lemma expand_single sp v p : expand sp v [p] = expand_piece sp v p.
Proof. apply bind_singleton. Qed.

Lemma expand_chars sp v w : expand sp v (chars w) = chars w.
Proof. induction w as [|a w IH]; [done|]. simpl chars. by rewrite expand_cons, IH. Qed.

Lemma expand_app sp v ps qs : expand sp v (ps ++ qs) = expand sp v ps ++ expand sp v qs.
Proof. apply bind_app. Qed.

(** On settled pieces a replacement by [str.replace] replaces the tokens
    of its specifier and nothing else. *)
Lemma replace_unparse sp v ps :
  settled ps →
  Py.replace_go (token_text sp) v 0 (unparse ps) = unparse (expand sp v ps).
Proof.
  induction ps as [|[sp'|a] ps IH]; intros Hs; [done|..].
  - simpl in Hs. rewrite expand_cons, unparse_app.
    change (unparse (Token sp' :: ps)) with (String "%" (String (letter sp') (unparse ps))).
    cbn [Py.replace_go]. rewrite prefix_token.
    rewrite bool_decide_eq_true_2 by done. cbn [andb expand_piece].
    case_bool_decide as Heq.
    + change (String.length (token_text sp) - 1) with 1.
      cbn [Py.replace_go]. by rewrite IH, unparse_chars.
    + rewrite prefix_token.
      assert (match unparse ps with
              | String b _ =>
                  bool_decide (letter sp' = "%"%char) && bool_decide (b = letter sp)
              | "" => false
              end = false) as ->; [|by rewrite IH].
      destruct (unparse ps); [done|].
      by rewrite (bool_decide_eq_false_2 _ (letter_not_percent sp')).
  - destruct Hs as [Hs Ha]. rewrite expand_cons. cbn [expand_piece app].
    change (unparse (Chr a :: ps)) with (String a (unparse ps)).
    change (unparse (Chr a :: expand sp v ps)) with (String a (unparse (expand sp v ps))).
    cbn [Py.replace_go]. rewrite prefix_token.
    assert (match unparse ps with
            | String b _ => bool_decide (a = "%"%char) && bool_decide (b = letter sp)
            | "" => false
            end = false) as ->; [|by rewrite IH].
    destruct ps as [|[sp'|b] ps]; [done|..].
    + change (unparse (Token sp' :: ps)) with (String "%" (String (letter sp') (unparse ps))).
      case_bool_decide as Hpc; [by destruct (Ha Hpc)|done].
    + change (unparse (Chr b :: ps)) with (String b (unparse ps)).
      case_bool_decide as Hpc; [|done]. specialize (Ha Hpc).
      rewrite bool_decide_eq_false_2; [done|].
      intros ->. by rewrite specifier_of_letter in Ha.
Qed.

Lemma percent_free_cons (a : ascii) (s : string) :
  Py.contains "%" (String a s) = false → a ≠ "%"%char ∧ Py.contains "%" s = false.
Proof.
  rewrite contains_char_cons. intros [Ha Hs]%orb_false_elim.
  split; [|done]. intros ->. by rewrite bool_decide_eq_true_2 in Ha.
Qed.

Lemma settled_chars_app (v : string) (ps : list piece) :
  Py.contains "%" v = false → settled ps → settled (chars v ++ ps).
Proof.
  induction v as [|a v IH]; intros Hv Hs; [done|].
  apply percent_free_cons in Hv as [Ha Hv].
  simpl. split; [by apply IH|done].
Qed.

Lemma settled_expand sp v ps :
  Py.contains "%" v = false → settled ps → settled (expand sp v ps).
Proof.
  intros Hv. induction ps as [|[sp'|a] ps IH]; intros Hs; [done|..].
  - rewrite expand_cons. simpl in Hs. cbn [expand_piece].
    case_bool_decide; [by apply settled_chars_app, IH|by apply IH].
  - destruct Hs as [Hs Ha]. rewrite expand_cons. cbn [expand_piece app settled].
    split; [by apply IH|]. intros Hpc. specialize (Ha Hpc).
    by destruct ps as [|[sp'|b] ps].
Qed.

Lemma double_percent_cons (a : ascii) (s : string) :
  Py.contains "%%" (String a s) = false →
  Py.contains "%%" s = false ∧
  (a = "%"%char → match s with String c _ => c ≠ "%"%char | "" => True end).
Proof.
  rewrite contains_cons. intros [Hp Hs]%orb_false_elim. split; [done|].
  intros ->. destruct s as [|c s]; [done|]. intros ->.
  by rewrite prefix_cons, prefix_char in Hp.
Qed.

Lemma settled_pieces skip text :
  Py.contains "%%" text = false → settled (pieces_go skip text).
Proof.
  revert skip. induction text as [|a rest IH]; intros skip Hc; [done|].
  apply double_percent_cons in Hc as [Hrest Ha].
  destruct skip; cbn [pieces_go]; [by apply IH|].
  destruct (Ascii.eqb_spec a "%") as [->|Hne].
  - specialize (Ha eq_refl). destruct rest as [|c rest']; [done|].
    destruct (specifier_of c) as [sp|] eqn:Hsp; cbn [settled]; [by apply IH|].
    split; [by apply IH|]. intros _.
    cbn [pieces_go]. destruct (Ascii.eqb_spec c "%") as [->|_]; [done|]. done.
  - cbn [settled]. split; [by apply IH|done].
Qed.

Lemma unparse_pieces skip text :
  unparse (pieces_go skip text) = Py.slice_from (if skip then 1 else 0) text.
Proof.
  revert skip. induction text as [|a rest IH]; intros skip; [by destruct skip|].
  destruct skip; cbn [pieces_go Py.slice_from]; [by rewrite IH; destruct rest|].
  destruct (Ascii.eqb_spec a "%") as [->|Hne].
  - destruct rest as [|c rest']; [done|].
    destruct (specifier_of c) as [sp|] eqn:Hsp.
    + apply specifier_of_Some in Hsp as <-.
      cbn [unparse]. by rewrite IH.
    + cbn [unparse]. rewrite IH. by destruct rest'.
  - cbn [unparse]. rewrite IH. by destruct rest.
Qed.

Lemma substitute_once_pieces val skip text :
  substitute_once_go val skip text = unparse (expand_all val (pieces_go skip text)).
Proof.
  revert skip. induction text as [|a rest IH]; intros skip; [done|].
  destruct skip; cbn [pieces_go substitute_once_go]; [by apply IH|].
  destruct (if Ascii.eqb a "%" then _ else _) as [sp|].
  - unfold expand_all. rewrite bind_cons, unparse_app, unparse_chars.
    by rewrite IH.
  - unfold expand_all. rewrite bind_cons. by rewrite IH.
Qed.

Lemma passes_cons inst pre name p ps :
  passes inst pre name (p :: ps) = passes inst pre name [p] ++ passes inst pre name ps.
Proof.
  unfold passes. change (p :: ps) with ([p] ++ ps). by rewrite !expand_app.
Qed.

Lemma passes_piece inst pre name p :
  passes inst pre name [p] =
  match p with Token sp => chars (specifier_value inst pre name sp) | Chr _ => [p] end.
Proof.
  unfold passes.
  destruct p as [[]|a];
    repeat first
      [ rewrite expand_chars
      | rewrite expand_single; cbn [expand_piece letter];
        first [ rewrite bool_decide_eq_true_2 by done
              | rewrite bool_decide_eq_false_2 by done
              | idtac ] ];
    done.
Qed.

Lemma passes_expand_all inst pre name ps :
  passes inst pre name ps = expand_all (specifier_value inst pre name) ps.
Proof.
  induction ps as [|p ps IH]; [done|].
  rewrite passes_cons, passes_piece, IH. unfold expand_all. by rewrite bind_cons.
Qed.

(** Where no value has a percent sign and the text has no two in a row, the
    loop of [replace_systemd_specifiers] does what one pass does. *)
Lemma replace_specifiers_once inst pre name text :
  Py.contains "%" inst = false → Py.contains "%" pre = false →
  Py.contains "%" name = false → Py.contains "%%" text = false →
  replace_systemd_specifiers true inst pre name text =
  substitute_once (specifier_value inst pre name) text.
Proof.
  intros Hi Hp Hn Ht.
  assert (Py.contains "%" ("/" +:+ inst) = false) as Hf.
  { change ("/" +:+ inst) with (String "/" inst). by rewrite contains_char_cons, Hi. }
  unfold substitute_once. rewrite substitute_once_pieces, <- passes_expand_all.
  unfold replace_systemd_specifiers, replacements. cbn [negb foldl].
  change "%i" with (token_text Spec_i). change "%I" with (token_text Spec_I).
  change "%p" with (token_text Spec_p). change "%P" with (token_text Spec_P).
  change "%f" with (token_text Spec_f). change "%u" with (token_text Spec_u).
  change "%U" with (token_text Spec_U).
  pose proof (settled_pieces false text Ht) as Hs.
  rewrite <- (unparse_pieces false text) at 1. fold (pieces text). fold (pieces text) in Hs.
  unfold passes.
  rewrite (replace_specifier_token Spec_i), (replace_unparse Spec_i) by done.
  rewrite (replace_specifier_token Spec_I), (replace_unparse Spec_I)
    by eauto 10 using settled_expand.
  rewrite (replace_specifier_token Spec_p), (replace_unparse Spec_p)
    by eauto 10 using settled_expand.
  rewrite (replace_specifier_token Spec_P), (replace_unparse Spec_P)
    by eauto 10 using settled_expand.
  rewrite (replace_specifier_token Spec_f), (replace_unparse Spec_f)
    by eauto 10 using settled_expand.
  rewrite (replace_specifier_token Spec_u), (replace_unparse Spec_u)
    by eauto 10 using settled_expand.
  rewrite (replace_specifier_token Spec_U), (replace_unparse Spec_U)
    by eauto 10 using settled_expand.
  done.
Qed.

(** C4, as amended.  For a unit that is no template the text is left as it
    is.  For a template the seven tokens are replaced in turn, each by one
    [str.replace] over the whole text as the replacements before it left
    it, so that a later replacement does scan what an earlier one put in.
    Where the instance, the prefix and the service name have no percent
    sign and the text has no two percent signs in a row, the result is that
    of the single pass: each token replaced by its value, the values not
    scanned. *)
Theorem specifiers_replaced_in_turn (instance_name prefix_name service_name text : string) :
  replace_systemd_specifiers false instance_name prefix_name service_name text = text ∧
  replace_systemd_specifiers true instance_name prefix_name service_name text =
    Py.replace (Py.replace (Py.replace (Py.replace (Py.replace (Py.replace (Py.replace
      text "%i" instance_name) "%I" instance_name) "%p" prefix_name) "%P" prefix_name)
      "%f" ("/" +:+ instance_name)) "%u" service_name) "%U" service_name ∧
  (Py.contains "%" instance_name = false →
   Py.contains "%" prefix_name = false →
   Py.contains "%" service_name = false →
   Py.contains "%%" text = false →
   replace_systemd_specifiers true instance_name prefix_name service_name text =
   substitute_once (specifier_value instance_name prefix_name service_name) text).
Proof.
  split; [done|]. split; [|apply replace_specifiers_once].
  unfold replace_systemd_specifiers, replacements. cbn [negb foldl].
  by rewrite (replace_specifier_token Spec_i), (replace_specifier_token Spec_I),
    (replace_specifier_token Spec_p), (replace_specifier_token Spec_P),
    (replace_specifier_token Spec_f), (replace_specifier_token Spec_u),
    (replace_specifier_token Spec_U).
Qed.

Lemma specifiers_replaced_in_turn_witness :
  replace_systemd_specifiers true "bar" "foo" "foo@bar" "ExecStart=/bin/x %i --user %u --root %f" =
  substitute_once (specifier_value "bar" "foo" "foo@bar") "ExecStart=/bin/x %i --user %u --root %f".
Proof.
  apply (proj2 (proj2 (specifiers_replaced_in_turn "bar" "foo" "foo@bar"
                         "ExecStart=/bin/x %i --user %u --root %f")));
    reflexivity.
Defined.

(** C4, as it is stated, fails for the unit file [web@a%pb.service]: the
    instance is [a%pb], the token [%i] is replaced by it, and the later
    replacement of [%p] finds the [%p] that came in with the instance. *)
Lemma instance_value_replaced_again :
  parse_template "/etc/systemd/system/web@a%pb.service" =
    Return ("web@a%pb", true, "a%pb", "web") ∧
  replace_systemd_specifiers true "a%pb" "web" "web@a%pb" "ExecStart=/bin/x %i" =
    "ExecStart=/bin/x awebb" ∧
  substitute_once (specifier_value "a%pb" "web" "web@a%pb") "ExecStart=/bin/x %i" =
    "ExecStart=/bin/x a%pb".
Proof. repeat split; by vm_compute. Qed.

(** ** Template units *)

Lemma split_at_sign (s : string) :
  Py.contains "@" s = true →
  ∃ p r, s = p +:+ "@" +:+ r ∧ Py.contains "@" p = false ∧
         Py.split s "@" = p :: Py.split r "@".
Proof.
  unfold Py.split. induction s as [|c s IH]; [done|].
  rewrite contains_char_cons. cbn [Py.split_go]. rewrite prefix_char.
  case_bool_decide as Hc.
  - intros _. subst c. by exists "", s.
  - simpl. intros (p & r & -> & Hp & Hsplit)%IH.
    exists (String c p), r. split; [done|]. split.
    + rewrite contains_char_cons, Hp. by rewrite bool_decide_eq_false_2.
    + by rewrite Hsplit.
Qed.

Lemma split_head (r : string) :
  ∃ i rest tl,
    Py.split r "@" = i :: tl ∧ r = i +:+ rest ∧ Py.contains "@" i = false ∧
    (rest = "" ∨ Py.startswith rest "@" = true).
Proof.
  unfold Py.split. induction r as [|c r (i & rest & tl & Hsplit & -> & Hi & Hrest)].
  - exists "", "", []. by repeat split; [..|left].
  - cbn [Py.split_go]. rewrite prefix_char. case_bool_decide as Hc.
    + subst c. eexists "", _, _. split; [done|]. split; [done|]. split; [done|].
      right. unfold Py.startswith. by rewrite prefix_char, bool_decide_eq_true_2.
    + rewrite Hsplit. exists (String c i), rest, tl. split; [done|]. split; [done|].
      split; [|done]. rewrite contains_char_cons, Hi. by rewrite bool_decide_eq_false_2.
Qed.

(** What [parse_service_file] hands to the parser is [processed_content]. *)
Lemma parse_service_file_reads filepath content tmp :
  parse_service_file filepath content tmp =
  match processed_content filepath content with
  | Raise e => Raise e
  | Return text =>
      match configparser.read_file tmp text with
      | inl e => Raise (ConfigError e)
      | inr cfg =>
          if negb (configparser.has_section cfg "Service") then Raise missing_service_error
          else match parse_template filepath with
               | Return (service_name, template_service, instance_name, prefix_name) =>
                   Return {| config := cfg; service_name := service_name;
                             template_service := template_service;
                             instance_name := instance_name;
                             prefix_name := prefix_name |}
               | Raise e => Raise e
               end
      end
  end.
Proof.
  unfold parse_service_file, processed_content.
  by destruct (parse_template filepath) as [[[[name tpl] inst] pre]|e].
Qed.

(** C6, as amended.  A service name with an at sign is a prefix without at
    sign, the at sign, an instance without at sign, and, if there is a
    second at sign, the rest from that sign on.  With an empty instance
    loading fails with the template error.  Otherwise the prefix and the
    instance are those two parts, and, where the service name has no
    percent sign and the preprocessed text has no two percent signs in a
    row, the text handed to the parser is the preprocessed text with every
    [%i] and [%I] replaced by the instance (and the other tokens by their
    values). *)
Theorem template_prefix_and_instance (filepath content : string) :
  Py.contains "@" (Py.replace (Py.basename filepath) ".service" "") = true →
  ∃ prefix_name instance_name rest,
    Py.replace (Py.basename filepath) ".service" "" =
      prefix_name +:+ "@" +:+ instance_name +:+ rest ∧
    Py.contains "@" prefix_name = false ∧
    Py.contains "@" instance_name = false ∧
    (rest = "" ∨ Py.startswith rest "@" = true) ∧
    (instance_name = "" →
     parse_template filepath = Raise template_error ∧
     ∀ tmp, parse_service_file filepath content tmp = Raise template_error) ∧
    (instance_name ≠ "" →
     parse_template filepath =
       Return (Py.replace (Py.basename filepath) ".service" "", true,
               instance_name, prefix_name) ∧
     (Py.contains "%" (Py.replace (Py.basename filepath) ".service" "") = false →
      Py.contains "%%" (String.concat "" (preprocess_service_file content)) = false →
      processed_content filepath content =
        Return (substitute_once
                  (specifier_value instance_name prefix_name
                     (Py.replace (Py.basename filepath) ".service" ""))
                  (String.concat "" (preprocess_service_file content))))).
Proof.
  intros Hat.
  destruct (split_at_sign _ Hat) as (p & r & Hname & Hp & Hsplit).
  destruct (split_head r) as (i & rest & tl & Hr & -> & Hi & Hrest).
  exists p, i, rest. split; [done|]. split; [done|]. split; [done|]. split; [done|].
  assert (parse_template filepath =
          if Py.nonempty i
          then Return (Py.replace (Py.basename filepath) ".service" "", true, i, p)
          else Raise template_error) as Ht.
  { unfold parse_template. rewrite Hat, Hsplit, Hr. simpl. by destruct i. }
  split.
  - intros ->. split; [done|]. intros tmp. by rewrite parse_service_file_reads;
      unfold processed_content; rewrite Ht.
  - intros Hne. assert (Py.nonempty i = true) as Hi' by by destruct i.
    rewrite Hi' in Ht. split; [done|]. intros Hpc Htext.
    unfold processed_content. rewrite Ht. f_equal.
    pose proof Hpc as Hparts. rewrite Hname, !contains_char_app in Hparts.
    apply orb_false_elim in Hparts as [Hpp Hparts].
    apply orb_false_elim in Hparts as [_ Hparts].
    apply orb_false_elim in Hparts as [Hpi _].
    by apply replace_specifiers_once.
Qed.

Lemma template_prefix_and_instance_witness :
  processed_content "/etc/systemd/system/foo@bar.service" instance_unit =
  Return (substitute_once (specifier_value "bar" "foo" "foo@bar")
            (String.concat "" (preprocess_service_file instance_unit))).
Proof.
  destruct (template_prefix_and_instance "/etc/systemd/system/foo@bar.service"
              instance_unit eq_refl)
    as (p & i & rest & Hname & Hp & Hi & Hrest & Hempty & Hfull).
  destruct (decide (i = "")) as [Hnil|Hne].
  - destruct (Hempty Hnil) as [Ht _]. vm_compute in Ht. discriminate Ht.
  - destruct (Hfull Hne) as [Ht Hsub].
    assert (parse_template "/etc/systemd/system/foo@bar.service" =
            Return ("foo@bar", true, "bar", "foo")) as Hc by reflexivity.
    rewrite Hc in Ht. injection Ht as <- <-.
    apply Hsub; reflexivity.
Defined.

(** C6, as it is stated, fails for the unit file [foo@primary.service] and a
    command with [100%%i]: the [%i] in it is replaced by the instance
    [primary], and the replacement of [%p] then takes the percent sign
    before it with the first letter of the instance; the parser reads
    [100foorimary]. *)
Lemma percent_before_instance_token :
  parse_template "/etc/systemd/system/foo@primary.service" =
    Return ("foo@primary", true, "primary", "foo") ∧
  String.concat "" (preprocess_service_file template_unit) = template_unit ∧
  processed_content "/etc/systemd/system/foo@primary.service" template_unit =
    Return (lines [ "[Service]"; "ExecStart=/bin/echo 100foorimary";
                    "Environment=NAME=primary PORT=primary" ]) ∧
  substitute_once (specifier_value "primary" "foo" "foo@primary") template_unit =
    lines [ "[Service]"; "ExecStart=/bin/echo 100%primary";
            "Environment=NAME=primary PORT=primary" ].
Proof. repeat split; by vm_compute. Qed.

(** ** The library functions on examples *)

Example strip_example : Py.strip "  a b  " = "a b".
Proof. reflexivity. Qed.

Example split_example : Py.split "/bin/a ; /bin/b" " ; " = ["/bin/a"; "/bin/b"].
Proof. reflexivity. Qed.

Example split1_example : Py.split1 "Environment=A=1" "=" = ["Environment"; "A=1"].
Proof. reflexivity. Qed.

Example split_ws_example : Py.split_ws " a  bc d " = ["a"; "bc"; "d"].
Proof. reflexivity. Qed.

Example replace_example : Py.replace "x%iy%i%" "%i" "%ii" = "x%iiy%ii%".
Proof. reflexivity. Qed.

Example basename_example :
  Py.basename "/etc/systemd/system/foo@bar.service" = "foo@bar.service".
Proof. reflexivity. Qed.

Example readlines_example :
  Py.readlines ("a" +:+ Py.nl +:+ Py.nl +:+ "b") = ["a" +:+ Py.nl; Py.nl; "b"].
Proof. reflexivity. Qed.

(** A value goes on over indented lines and the empty lines between them. *)
Example read_file_continuation :
  match configparser.read_file "f" (lines ["[a] junk"; "x=1"; ""; ""; "y=2"; "  "; " z"]) with
  | inr cfg => configparser.get cfg "a" "y" None = Some ("2" +:+ Py.nl +:+ Py.nl +:+ "z")
  | inl _ => False
  end.
Proof. by vm_compute. Qed.

Example read_file_defaults :
  match configparser.read_file "f"
          (lines ["[a]"; "TimeoutSec="; "ExecStart=-"; "[DEFAULT]"; "q=1"; "[DEFAULT]"; "r=2"]) with
  | inr cfg =>
      configparser.get cfg "a" "q" None = Some "1" ∧
      configparser.get cfg "a" "TimeoutSec" None = Some "" ∧
      configparser.get cfg "b" "q" None = None ∧
      configparser.has_section cfg "DEFAULT" = false
  | inl _ => False
  end.
Proof. by vm_compute. Qed.

Example read_file_duplicate_section :
  configparser.read_file "f" (lines ["[a]"; "k=v"; "[a]"]) =
  inl (configparser.DuplicateSectionError "a" "f" 3).
Proof. by vm_compute. Qed.

Example read_file_duplicate_option :
  configparser.read_file "f" (lines ["[a]"; "x=1"; "X: 2"]) =
  inl (configparser.DuplicateOptionError "a" "x" "f" 3).
Proof. by vm_compute. Qed.

Example read_file_no_header :
  configparser.read_file "f" (lines ["x=1"]) =
  inl (configparser.MissingSectionHeaderError "f" 1 ("x=1" +:+ Py.nl)).
Proof. by vm_compute. Qed.

Example read_file_no_delimiter :
  configparser.read_file "f" (lines ["[a]"; "x=1"; "foo"]) =
  inl (configparser.ParsingError "f" [(3, "foo" +:+ Py.nl)]).
Proof. by vm_compute. Qed.

Example str_missing_section_header :
  Msg.str (ConfigError (configparser.MissingSectionHeaderError "f" 1 ("x=1" +:+ Py.nl))) =
  "File contains no section headers." +:+ Py.nl +:+ "file: 'f', line: 1" +:+ Py.nl +:+
  "'x=1" +:+ Msg.bs +:+ "n'".
Proof. by vm_compute. Qed.


(** ** When the generation runs to its end *)

Lemma lift_return {A : Type} (p : string) (f : string → Out A) :
  lift (Return p) ≫= f = f p.
Proof. unfold lift; simpl. by destruct (f p). Qed.

Lemma returns_path self p (f : string → Out unit) :
  get_executable_path self = Return p → returns (f p) →
  returns (lift (get_executable_path self) ≫= f).
Proof. intros -> Hf. by rewrite lift_return. Qed.

Lemma timeout_check_is_success_check self action :
  get_config_option self "Service" "TimeoutSec" None ∈ [None; Some ""; Some "0"] →
  _add_timeout_check self action = _add_success_check action.
Proof.
  intros H. unfold _add_timeout_check.
  repeat (apply elem_of_cons in H as [->|H]; [done|]). by apply elem_of_nil in H.
Qed.

Lemma returns_lsb_header set_iter self p :
  get_executable_path self = Return p → returns (generate_lsb_header set_iter self).
Proof.
  intros Hp. unfold generate_lsb_header, _generate_dependencies, _generate_runlevels.
  rewrite Hp, lift_return. returns_tac.
Qed.

Lemma returns_start_function self p :
  get_executable_path self = Return p →
  get_config_option self "Service" "TimeoutSec" None ∈ [None; Some ""; Some "0"] →
  returns (generate_start_function self).
Proof.
  intros Hp Ht. unfold generate_start_function, condition_guard.
  rewrite Hp, !lift_return, !timeout_check_is_success_check by done. returns_tac.
Qed.

Lemma returns_stop_function self p :
  get_executable_path self = Return p →
  get_config_option self "Service" "TimeoutSec" None ∈ [None; Some ""; Some "0"] →
  returns (generate_stop_function self).
Proof.
  intros Hp Ht. unfold generate_stop_function.
  rewrite Hp, !lift_return, !timeout_check_is_success_check by done. returns_tac.
Qed.

Lemma returns_status_function self p :
  get_executable_path self = Return p → returns (generate_status_function self).
Proof.
  intros Hp. unfold generate_status_function. rewrite Hp, lift_return. returns_tac.
Qed.

Lemma returns_reload_function self : returns (generate_reload_function self).
Proof. unfold generate_reload_function. returns_tac. Qed.

Lemma returns_force_reload_function self : returns (generate_force_reload_function self).
Proof. unfold generate_force_reload_function. returns_tac. Qed.

Lemma returns_case_statement self : returns (generate_case_statement self).
Proof. unfold generate_case_statement. by destruct (get_config_option _ _ _ _). Qed.

Lemma raises_lsb_header set_iter self e :
  get_executable_path self = Raise e →
  outcome (generate_lsb_header set_iter self) = Raise e.
Proof.
  intros He. unfold generate_lsb_header, _generate_dependencies. by rewrite He.
Qed.

Lemma raises_init_script set_iter self v :
  get_config_option self "Service" "TimeoutSec" None = Some v → v ≠ "" → v ≠ "0" →
  outcome (generate_init_script set_iter self) = Raise (abort self).
Proof.
  intros Hv Hne H0. unfold generate_init_script.
  apply raises_after; [ends_tac|].
  apply raises_after; [apply ends_lsb_header|].
  apply raises_after; [ends_tac|].
  apply raises_after; [apply ends_returns, returns_script_variables|].
  apply raises_after; [ends_tac|].
  apply raises_after; [apply ends_start_function|].
  apply raises_first. by eapply raises_stop_function.
Qed.

Lemma init_script_returns (set_iter : list string → list string)
    (self : SystemdServiceConverter) :
  returns (generate_init_script set_iter self) ↔
  (∃ p, get_executable_path self = Return p) ∧
  get_config_option self "Service" "TimeoutSec" None ∈ [None; Some ""; Some "0"].
Proof.
  split.
  - intros Hret. split.
    + destruct (get_executable_path self) as [p|e] eqn:Hp; [by exists p|].
      unfold returns, generate_init_script in Hret.
      rewrite outcome_bind in Hret. simpl in Hret.
      by rewrite outcome_bind, (raises_lsb_header _ _ e) in Hret.
    + destruct (get_config_option self "Service" "TimeoutSec" None) as [v|] eqn:Hv;
        [|set_solver].
      destruct (decide (v = "")) as [->|Hne]; [set_solver|].
      destruct (decide (v = "0")) as [->|H0]; [set_solver|].
      unfold returns in Hret. by rewrite (raises_init_script _ _ v) in Hret.
  - intros [[p Hp] Ht]. unfold generate_init_script.
    apply returns_seq; [apply returns_print|].
    apply returns_seq; [by eapply returns_lsb_header|].
    apply returns_seq; [apply returns_print|].
    apply returns_seq; [apply returns_script_variables|].
    apply returns_seq; [apply returns_print|].
    apply returns_seq; [by eapply returns_start_function|].
    apply returns_seq; [by eapply returns_stop_function|].
    apply returns_seq; [by eapply returns_status_function|].
    apply returns_seq; [apply returns_reload_function|].
    apply returns_seq; [apply returns_force_reload_function|].
    apply returns_case_statement.
Qed.

(** X1.  The script is generated to its end exactly when [ExecStart] has a word
    to take the executable from (or is not set) and [TimeoutSec] is absent,
    empty or ["0"]. *)
Theorem generation_returns_iff (set_iter : list string → list string)
    (self : SystemdServiceConverter) :
  returns (generate_init_script set_iter self) ↔
  (∃ p, get_executable_path self = Return p) ∧
  get_config_option self "Service" "TimeoutSec" None ∈ [None; Some ""; Some "0"].
Proof. apply init_script_returns. Qed.

Lemma case_statement_end self :
  ∃ usage body,
    printed (generate_case_statement self) =
      body ++ [Py.tab +:+ "*)"; usage; Py.tab +:+ Py.tab +:+ "exit 2"; "esac"].
Proof.
  unfold generate_case_statement.
  destruct (get_config_option self "Service" "ExecReload" None) as [v|].
  all: match goal with
       | |- ∃ _ _, ?x = _ =>
           let y := eval vm_compute in x in
           exists (default "" (y !! (length y - 3))), (take (length y - 4) y)
       end; by vm_compute.
Qed.

Lemma printed_seq (m k : Out unit) :
  returns m → printed (m ;; k) = printed m ++ printed k.
Proof. intros Hm. by rewrite printed_bind, Hm. Qed.

Lemma printed_seq_head (m k : Out unit) x :
  head (printed m) = Some x → head (printed (m ;; k)) = Some x.
Proof. rewrite printed_bind. by destruct (printed m). Qed.

Lemma init_script_printed (set_iter : list string → list string) self :
  returns (generate_init_script set_iter self) →
  printed (generate_init_script set_iter self) =
    "#!/bin/sh" :: printed (generate_lsb_header set_iter self) ++
    "" :: printed (generate_script_variables self) ++
    "" :: printed (generate_start_function self) ++
    printed (generate_stop_function self) ++
    printed (generate_status_function self) ++
    printed (generate_reload_function self) ++
    printed (generate_force_reload_function self) ++
    printed (generate_case_statement self).
Proof.
  intros [[p Hp] Ht]%init_script_returns. unfold generate_init_script.
  rewrite (printed_seq (print _)) by apply returns_print.
  rewrite (printed_seq (generate_lsb_header _ _)) by by eapply returns_lsb_header.
  rewrite (printed_seq (print _)) by apply returns_print.
  rewrite (printed_seq (generate_script_variables _)) by apply returns_script_variables.
  rewrite (printed_seq (print _)) by apply returns_print.
  rewrite (printed_seq (generate_start_function _)) by by eapply returns_start_function.
  rewrite (printed_seq (generate_stop_function _)) by by eapply returns_stop_function.
  rewrite (printed_seq (generate_status_function _)) by by eapply returns_status_function.
  rewrite (printed_seq (generate_reload_function _)) by apply returns_reload_function.
  rewrite (printed_seq (generate_force_reload_function _))
    by apply returns_force_reload_function.
  done.
Qed.

(** X2.  The script always starts with the shebang line; a script generated to
    its end is that line, the header, an empty line, the variables, an empty
    line and the procedures start, stop, status, reload, force_reload and the
    dispatch, in this order, and its last line is [esac]. *)
Theorem init_script_layout (set_iter : list string → list string)
    (self : SystemdServiceConverter) :
  head (printed (generate_init_script set_iter self)) = Some "#!/bin/sh" ∧
  (returns (generate_init_script set_iter self) →
   printed (generate_init_script set_iter self) =
     "#!/bin/sh" :: printed (generate_lsb_header set_iter self) ++
     "" :: printed (generate_script_variables self) ++
     "" :: printed (generate_start_function self) ++
     printed (generate_stop_function self) ++
     printed (generate_status_function self) ++
     printed (generate_reload_function self) ++
     printed (generate_force_reload_function self) ++
     printed (generate_case_statement self) ∧
   last (printed (generate_init_script set_iter self)) = Some "esac").
Proof.
  split; [by apply printed_seq_head|]. intros Hret.
  pose proof (init_script_printed set_iter self Hret) as Heq.
  split; [done|]. rewrite Heq.
  destruct (case_statement_end self) as (usage & body & ->).
  change [Py.tab +:+ "*)"; usage; Py.tab +:+ Py.tab +:+ "exit 2"; "esac"]
    with ([Py.tab +:+ "*)"; usage; Py.tab +:+ Py.tab +:+ "exit 2"] ++ ["esac"]).
  rewrite !app_comm_cons, !app_assoc. apply last_snoc.
Qed.

Lemma init_script_layout_witness :
  ∃ self,
    parse_service_file "/etc/systemd/system/foo.service" after_unit "/tmp/tmpk3v0a1x_"
      = Return self ∧
    last (printed (generate_init_script remove_dups self)) = Some "esac".
Proof.
  eexists. split; [vm_compute; reflexivity|].
  apply (proj2 (init_script_layout remove_dups _)). vm_compute. reflexivity.
Defined.

Lemma case_statement_entries self :
  (reload_entry ∈ printed (generate_case_statement self) ↔
   is_Some (get_config_option self "Service" "ExecReload" None)) ∧
  (reload_usage ∈ printed (generate_case_statement self) ↔
   is_Some (get_config_option self "Service" "ExecReload" None)).
Proof.
  unfold generate_case_statement.
  destruct (get_config_option self "Service" "ExecReload" None) as [v|].
  - split; (split; [by eauto|intros _; in_list]).
  - split; (split; [intros H; exfalso; revert H; not_in_list|by intros [??]]).
Qed.

(** X3.  The dispatch is printed for every unit and ends with the catch-all that
    prints the usage line and leaves with status 2; it has the [reload] entry
    exactly when the option [ExecReload] is there, empty or not, and its
    usage line lists [reload] exactly then. *)
Theorem case_statement_reload (self : SystemdServiceConverter) :
  returns (generate_case_statement self) ∧
  (reload_entry ∈ printed (generate_case_statement self) ↔
   is_Some (get_config_option self "Service" "ExecReload" None)) ∧
  (reload_usage ∈ printed (generate_case_statement self) ↔
   is_Some (get_config_option self "Service" "ExecReload" None)) ∧
  ∃ usage body,
    printed (generate_case_statement self) =
      body ++ [Py.tab +:+ "*)"; usage; Py.tab +:+ Py.tab +:+ "exit 2"; "esac"].
Proof.
  split; [apply returns_case_statement|].
  destruct (case_statement_entries self) as [Hentry Husage].
  split; [exact Hentry|]. split; [exact Husage|]. apply case_statement_end.
Qed.


(** ** What a loaded unit is *)

Lemma prefix_append (s t : string) : String.prefix s (s +:+ t) = true.
Proof.
  induction s as [|a s IH]; [apply prefix_nil|].
  by rewrite append_cons, prefix_cons, bool_decide_eq_true_2.
Qed.

Lemma template_prefix_split (filepath : string) :
  Py.contains "@" (Py.replace (Py.basename filepath) ".service" "") = true →
  ∃ p i rest,
    Py.replace (Py.basename filepath) ".service" "" = p +:+ "@" +:+ i +:+ rest ∧
    Py.contains "@" p = false ∧ Py.contains "@" i = false ∧
    (rest = "" ∨ Py.startswith rest "@" = true) ∧
    parse_template filepath =
      if Py.nonempty i
      then Return (Py.replace (Py.basename filepath) ".service" "", true, i, p)
      else Raise template_error.
Proof.
  intros Hat.
  destruct (split_at_sign _ Hat) as (p & r & Hname & Hp & Hsplit).
  destruct (split_head r) as (i & rest & tl & Hr & -> & Hi & Hrest).
  exists p, i, rest. repeat (split; [done|]).
  unfold parse_template. rewrite Hat, Hsplit, Hr. simpl. by destruct i.
Qed.

(** X4.  A converter that [parse_service_file] returns has the section
    [Service]; its service name is the base name without [.service]; it is a
    template exactly when that name has an at sign, and then its instance is
    not empty and neither instance nor prefix has an at sign; otherwise
    instance and prefix are empty. *)
Theorem loaded_unit_invariant (filepath content tmp : string)
    (self : SystemdServiceConverter) :
  parse_service_file filepath content tmp = Return self →
  configparser.has_section (config self) "Service" = true ∧
  service_name self = Py.replace (Py.basename filepath) ".service" "" ∧
  template_service self = Py.contains "@" (service_name self) ∧
  (template_service self = true →
   instance_name self ≠ "" ∧
   Py.contains "@" (instance_name self) = false ∧
   Py.contains "@" (prefix_name self) = false ∧
   Py.startswith (service_name self) (prefix_name self +:+ "@" +:+ instance_name self) = true) ∧
  (template_service self = false → instance_name self = "" ∧ prefix_name self = "").
Proof.
  intros Hparse. rewrite parse_service_file_reads in Hparse.
  destruct (processed_content filepath content) as [text|]; [|done].
  destruct (configparser.read_file tmp text) as [|cfg]; [done|].
  destruct (configparser.has_section cfg "Service") eqn:Hsec; [|done]. simpl in Hparse.
  destruct (Py.contains "@" (Py.replace (Py.basename filepath) ".service" "")) eqn:Hat.
  - destruct (template_prefix_split filepath Hat)
      as (p & i & rest & Hname & Hp & Hi & Hrest & Ht).
    rewrite Ht in Hparse. destruct i as [|a i]; [done|]. simpl in Hparse.
    injection Hparse as <-.
    cbn [config service_name template_service instance_name prefix_name].
    split; [done|]. split; [done|]. split; [exact (eq_sym Hat)|].
    split; [|done]. intros _. split; [done|]. split; [done|]. split; [done|].
    change (Py.replace_go ".service" "" 0 (Py.basename filepath))
      with (Py.replace (Py.basename filepath) ".service" "").
    rewrite Hname. unfold Py.startswith.
    rewrite <- (append_assoc p "@" (String a i +:+ rest)).
    rewrite <- (append_assoc (p +:+ "@")), (append_assoc p).
    apply prefix_append.
  - unfold parse_template in Hparse. rewrite Hat in Hparse.
    injection Hparse as <-.
    cbn [config service_name template_service instance_name prefix_name].
    split; [done|]. split; [done|]. split; [exact (eq_sym Hat)|]. by split.
Qed.

Lemma loaded_unit_invariant_witness :
  ∃ self,
    parse_service_file "/etc/systemd/system/foo@bar.service" instance_unit
      "/tmp/tmpk3v0a1x_" = Return self ∧
    configparser.has_section (config self) "Service" = true ∧
    instance_name self ≠ "".
Proof.
  eexists. split; [vm_compute; reflexivity|].
  match goal with
  | |- configparser.has_section (config ?s) _ = _ ∧ _ =>
      destruct (loaded_unit_invariant "/etc/systemd/system/foo@bar.service"
                  instance_unit "/tmp/tmpk3v0a1x_" s) as (H1 & _ & _ & H4 & _);
        [vm_compute; reflexivity|]
  end.
  split; [exact H1|]. apply H4. reflexivity.
Defined.


(** ** Preprocessing *)

Lemma preprocess_line_cases st line :
  processed_lines (preprocess_line st line) = processed_lines st ++ [line] ∨
  (processed_lines (preprocess_line st line) = processed_lines st ∧
   always_kept line = false).
Proof.
  unfold preprocess_line, always_kept. cbv zeta.
  destruct (Py.startswith _ _ && Py.endswith _ _); [by left|].
  destruct (Py.contains "=" (Py.strip line)); [|by left].
  destruct (Py.truthy (current_section st)); [|by left].
  simpl. repeat case_match; auto.
Qed.

Lemma preprocess_fold_kept ls st :
  ∃ kept,
    processed_lines (foldl preprocess_line st ls) = processed_lines st ++ kept ∧
    sublist kept ls ∧
    filter (λ l, always_kept l = true) kept = filter (λ l, always_kept l = true) ls.
Proof.
  revert st. induction ls as [|line ls IH]; intros st.
  - exists []. by rewrite app_nil_r.
  - simpl. destruct (IH (preprocess_line st line)) as (kept & Hp & Hsub & Hfil).
    destruct (preprocess_line_cases st line) as [Hl|[Hl Hk]]; rewrite Hl in Hp.
    + exists (line :: kept). rewrite Hp, <- app_assoc. split; [done|].
      split; [by apply sublist_skip|].
      by rewrite !(filter_cons _ line), Hfil.
    + exists kept. split; [done|]. split; [by apply sublist_cons|].
      rewrite filter_cons_False; [done|]. by rewrite Hk.
Qed.

(** X5.  The lines [preprocess_service_file] returns are lines of the file in
    their order; all that is ever left out is a line with an equals sign that
    is no section header: headers and lines without equals sign are all
    there, as often and in the order they were. *)
Theorem preprocess_drops_only_assignments (content : string) :
  sublist (preprocess_service_file content) (Py.readlines content) ∧
  filter (λ l, always_kept l = true) (preprocess_service_file content) =
  filter (λ l, always_kept l = true) (Py.readlines content).
Proof.
  unfold preprocess_service_file, preprocess_loop.
  destruct (preprocess_fold_kept (Py.readlines content)
              {| processed_lines := []; section_data := ∅; current_section := None |})
    as (kept & -> & Hsub & Hfil).
  done.
Qed.

Lemma same_keys_refl st : same_keys st st.
Proof. by split. Qed.

Lemma same_keys_insert (sd1 sd2 : gmap string (gmap string string)) sec key v1 v2 :
  (∀ s k, is_Some (default ∅ (sd1 !! s) !! k) ↔ is_Some (default ∅ (sd2 !! s) !! k)) →
  ∀ s k,
    is_Some (default ∅ (<[sec := <[key := v1]> (default ∅ (sd1 !! sec))]> sd1 !! s) !! k) ↔
    is_Some (default ∅ (<[sec := <[key := v2]> (default ∅ (sd2 !! sec))]> sd2 !! s) !! k).
Proof.
  intros H s k. destruct (decide (sec = s)) as [->|Hs].
  - rewrite !lookup_insert_eq. simpl.
    destruct (decide (key = k)) as [->|Hk].
    + by rewrite !lookup_insert_eq.
    + rewrite !lookup_insert_ne by done. apply H.
  - rewrite !lookup_insert_ne by done. apply H.
Qed.

Lemma same_keys_overwrite (sd : gmap string (gmap string string)) sec key old v :
  default ∅ (sd !! sec) !! key = Some old →
  ∀ s k,
    is_Some (default ∅ (<[sec := <[key := v]> (default ∅ (sd !! sec))]> sd !! s) !! k) ↔
    is_Some (default ∅ (sd !! s) !! k).
Proof.
  intros Hold s k. destruct (decide (sec = s)) as [->|Hs].
  - rewrite lookup_insert_eq. simpl.
    destruct (decide (key = k)) as [->|Hk].
    + rewrite lookup_insert_eq, Hold. by split.
    + by rewrite lookup_insert_ne.
  - by rewrite lookup_insert_ne.
Qed.

Lemma same_keys_header (sd1 sd2 : gmap string (gmap string string)) (sec : string) :
  (∀ s k, is_Some (default ∅ (sd1 !! s) !! k) ↔ is_Some (default ∅ (sd2 !! s) !! k)) →
  ∀ s k,
    is_Some (default ∅ (<[sec := ∅]> sd1 !! s) !! k) ↔
    is_Some (default ∅ (<[sec := ∅]> sd2 !! s) !! k).
Proof.
  intros H s k. destruct (decide (sec = s)) as [->|Hs].
  - by rewrite !lookup_insert_eq.
  - rewrite !lookup_insert_ne by done. apply H.
Qed.

Lemma preprocess_line_same_keys st1 st2 line :
  same_keys st1 st2 →
  (processed_lines (preprocess_line st1 line) = processed_lines st1 ++ [line] ∧
   processed_lines (preprocess_line st2 line) = processed_lines st2 ++ [line] ∧
   same_keys (preprocess_line st1 line) (preprocess_line st2 line)) ∨
  (processed_lines (preprocess_line st1 line) = processed_lines st1 ∧
   same_keys (preprocess_line st1 line) st2).
Proof.
  intros Hsame. pose proof Hsame as [Hcur Hkeys].
  unfold preprocess_line. cbv zeta. rewrite <- Hcur.
  destruct (Py.startswith _ _ && Py.endswith _ _).
  { left. split; [done|]. split; [done|]. split; [done|]. by apply same_keys_header. }
  destruct (Py.contains "=" (Py.strip line) && Py.truthy (current_section st1)).
  2: { left. split; [done|]. split; [done|]. by split. }
  destruct (Py.split1 (Py.strip line) "=") as [|key [|value [|]]];
    try (right; by split).
  destruct (current_section st1) as [sec|] eqn:Hsec; [|right; by split].
  destruct (default ∅ (section_data st1 !! sec) !! Py.lower (Py.strip key)) as [old|] eqn:H1.
  - right. split; [done|]. split; [simpl; congruence|]. simpl.
    intros s k. rewrite (same_keys_overwrite _ _ _ old) by done. apply Hkeys.
  - assert (default ∅ (section_data st2 !! sec) !! Py.lower (Py.strip key) = None) as H2.
    { apply eq_None_not_Some. rewrite <- Hkeys, H1. by intros [??]. }
    rewrite H2. left. split; [done|]. split; [done|].
    split; [simpl; congruence|]. simpl. by apply same_keys_insert.
Qed.

Lemma preprocess_fold_again ls st1 st2 :
  same_keys st1 st2 →
  ∃ kept,
    processed_lines (foldl preprocess_line st1 ls) = processed_lines st1 ++ kept ∧
    processed_lines (foldl preprocess_line st2 kept) = processed_lines st2 ++ kept.
Proof.
  revert st1 st2. induction ls as [|line ls IH]; intros st1 st2 Hsame.
  - exists []. by rewrite !app_nil_r.
  - simpl.
    destruct (preprocess_line_same_keys st1 st2 line Hsame)
      as [(H1 & H2 & Hsame')|[H1 Hsame']];
      destruct (IH _ _ Hsame') as (kept & Hk1 & Hk2).
    + exists (line :: kept). simpl. rewrite Hk1, Hk2, H1, H2, <- !app_assoc. done.
    + exists kept. by rewrite Hk1, H1.
Qed.

(** X6.  Preprocessing what preprocessing returned changes nothing: no line of
    the result repeats a key of its section. *)
Theorem preprocess_idempotent (ls : list string) :
  processed_lines (preprocess_loop (processed_lines (preprocess_loop ls))) =
  processed_lines (preprocess_loop ls).
Proof.
  unfold preprocess_loop.
  destruct (preprocess_fold_again ls _ _ (same_keys_refl
              {| processed_lines := []; section_data := ∅; current_section := None |}))
    as (kept & H1 & H2).
  rewrite H1. simpl. by rewrite H2.
Qed.

(** ** Text without specifiers *)

Lemma contains_token_percent sp (s : string) :
  Py.contains "%" s = false → Py.contains (token_text sp) s = false.
Proof.
  induction s as [|a s IH]; [done|].
  rewrite contains_char_cons, contains_cons. intros [Ha Hs]%orb_false_elim.
  rewrite IH by done. unfold token_text. by rewrite prefix_cons, Ha.
Qed.

(** X7.  A text without percent sign comes out of
    [replace_systemd_specifiers] as it went in, template unit or not. *)
Theorem specifier_free_text_unchanged (template_service : bool)
    (instance_name prefix_name service_name text : string) :
  Py.contains "%" text = false →
  replace_systemd_specifiers template_service instance_name prefix_name service_name text
  = text.
Proof.
  intros Hfree. destruct template_service; [|done].
  unfold replace_systemd_specifiers, replacements, replace_specifier. cbn [negb foldl fst snd].
  change "%i" with (token_text Spec_i). change "%I" with (token_text Spec_I).
  change "%p" with (token_text Spec_p). change "%P" with (token_text Spec_P).
  change "%f" with (token_text Spec_f). change "%u" with (token_text Spec_u).
  change "%U" with (token_text Spec_U).
  rewrite (contains_token_percent Spec_i text), (contains_token_percent Spec_I text),
    (contains_token_percent Spec_p text), (contains_token_percent Spec_P text),
    (contains_token_percent Spec_f text), (contains_token_percent Spec_u text),
    (contains_token_percent Spec_U text) by done.
  done.
Qed.

Lemma specifier_free_text_unchanged_witness :
  replace_systemd_specifiers true "bar" "foo" "foo@bar" "ExecStart=/bin/foo --all" =
  "ExecStart=/bin/foo --all".
Proof. apply specifier_free_text_unchanged. reflexivity. Defined.


(** ** The executable and its arguments *)

Lemma split_ws_nil (s : string) : Py.split_ws s = [] ↔ all_space s = true.
Proof.
  induction s as [|c s IH]; [done|]. simpl.
  destruct (Py.isspace c); simpl; [done|]. split; [|done].
  destruct s as [|d s]; [done|]. destruct (Py.isspace d); [done|].
  by destruct (Py.split_ws (String d s)).
Qed.

Lemma split_ws_cons (c : ascii) (s : string) :
  Py.split_ws (String c s) =
  if Py.isspace c then Py.split_ws s
  else match s with
       | "" => [String c ""]
       | String d _ =>
           if Py.isspace d then String c "" :: Py.split_ws s
           else Py.cons_field c (Py.split_ws s)
       end.
Proof. reflexivity. Qed.

(** The first word of a text that starts with a character that is no white
    space. *)
Lemma split_ws_word (s : string) (c : ascii) :
  Py.isspace c = false →
  ∃ w ws rest,
    Py.split_ws (String c s) = String c w :: ws ∧ s = w +:+ rest ∧
    no_space w = true ∧
    match rest with "" => True | String d _ => Py.isspace d = true end.
Proof.
  revert c. induction s as [|d s IH]; intros c Hc.
  - exists "", [], "". by rewrite split_ws_cons, Hc.
  - rewrite split_ws_cons, Hc. destruct (Py.isspace d) eqn:Hd.
    + by exists "", (Py.split_ws (String d s)), (String d s).
    + destruct (IH d Hd) as (w & ws & rest & Hsplit & -> & Hw & Hrest).
      rewrite Hsplit. exists (String d w), ws, rest. simpl. by rewrite Hd.
Qed.

Lemma lstrip_split (s : string) :
  ∃ pre, s = pre +:+ Py.lstrip s ∧ all_space pre = true ∧ Py.split_ws (Py.lstrip s) = Py.split_ws s.
Proof.
  induction s as [|c s (pre & Hs & Hpre & Hsplit)]; [by exists ""|].
  destruct (Py.isspace c) eqn:Hc.
  - exists (String c pre).
    assert (Py.lstrip (String c s) = Py.lstrip s) as -> by (simpl; by rewrite Hc).
    split; [by rewrite append_cons, <- Hs|]. split; [simpl; by rewrite Hc|].
    by rewrite Hsplit, split_ws_cons, Hc.
  - exists "".
    assert (Py.lstrip (String c s) = String c s) as -> by (simpl; by rewrite Hc).
    done.
Qed.

Lemma lstrip_head (s : string) (c : ascii) (t : string) :
  Py.lstrip s = String c t → Py.isspace c = false.
Proof.
  induction s as [|d s IH]; [done|]. simpl.
  destruct (Py.isspace d) eqn:Hd; [done|]. by intros [= <- _].
Qed.

Lemma lstrip_nil_all_space (s : string) : Py.lstrip s = "" ↔ all_space s = true.
Proof.
  induction s as [|c s IH]; [done|]. simpl. by destruct (Py.isspace c).
Qed.

Lemma slice_from_append (p rest : string) :
  Py.slice_from (String.length p) (p +:+ rest) = rest.
Proof. induction p as [|c p IH]; [by destruct rest|]. by rewrite append_cons. Qed.

Lemma full_command_value self :
  get_full_command self =
  let exec_start := str_of (get_config_option self "Service" "ExecStart" (Some "")) in
  if Py.startswith exec_start "-" then Py.slice_from 1 exec_start else exec_start.
Proof.
  unfold get_full_command. cbv zeta.
  by destruct (str_of (get_config_option self "Service" "ExecStart" (Some ""))).
Qed.

Lemma executable_path_value self :
  get_executable_path self =
  if Py.nonempty (str_of (get_config_option self "Service" "ExecStart" (Some "")))
  then match Py.split_ws (get_full_command self) with
       | x :: _ => Return x
       | [] => Raise IndexError
       end
  else Return "".
Proof.
  rewrite full_command_value. unfold get_executable_path. cbv zeta.
  by destruct (Py.nonempty _).
Qed.

(** X8.  [get_executable_path] gives the empty string exactly when [ExecStart] is
    absent or empty; it raises, and then [IndexError], exactly when
    [ExecStart] is there and nothing but white space follows its optional
    dash; otherwise it gives the first word of the full command: a word
    without white space, after at most white space, and followed by the end
    or by white space. *)
Theorem executable_path_is_first_word (self : SystemdServiceConverter) :
  let exec_start := str_of (get_config_option self "Service" "ExecStart" (Some "")) in
  (get_executable_path self = Raise IndexError ↔
   exec_start ≠ "" ∧ all_space (get_full_command self) = true) ∧
  (∀ e, get_executable_path self = Raise e → e = IndexError) ∧
  (∀ p, get_executable_path self = Return p →
     (p = "" ↔ exec_start = "") ∧
     no_space p = true ∧
     ∃ pre rest,
       get_full_command self = pre +:+ p +:+ rest ∧
       all_space pre = true ∧
       match rest with "" => True | String d _ => Py.isspace d = true end).
Proof.
  cbv zeta. split; [|split; [apply executable_path_error|]].
  - rewrite executable_path_value.
    destruct (str_of _) as [|a v] eqn:Hv; simpl; [by split; [|intros [??]]|].
    rewrite <- split_ws_nil. destruct (Py.split_ws (get_full_command self)).
    + by split.
    + split; [done|]. by intros [_ ?].
  - intros p. rewrite executable_path_value.
    destruct (str_of _) as [|a v] eqn:Hv; simpl.
    + intros [= <-]. split; [done|]. split; [done|]. exists "", "".
      rewrite full_command_value. cbv zeta. by rewrite Hv.
    + destruct (lstrip_split (get_full_command self)) as (pre & Hfull & Hpre & Hsplit).
      rewrite <- Hsplit.
      destruct (Py.lstrip (get_full_command self)) as [|c s] eqn:Hl; [done|].
      assert (Py.isspace c = false) as Hc by by eapply lstrip_head.
      destruct (split_ws_word s c Hc) as (w & ws & rest & Hw & -> & Hns & Hrest).
      rewrite Hw. intros [= <-]. split; [done|].
      split; [by simpl; rewrite Hc|].
      exists pre, rest. by rewrite Hfull at 1.
Qed.

(** X9.  Where the full command starts with its first word, as it does whenever
    [ExecStart] has no white space after its optional dash, the executable
    path is a prefix of the full command and what [generate_start_function]
    cuts off as the arguments is the rest of it. *)
Theorem executable_path_prefix (self : SystemdServiceConverter) (p : string) :
  get_executable_path self = Return p →
  Py.lstrip (get_full_command self) = get_full_command self →
  get_full_command self =
    p +:+ Py.slice_from (String.length p) (get_full_command self) ∧
  match Py.slice_from (String.length p) (get_full_command self) with
  | "" => True
  | String d _ => Py.isspace d = true
  end.
Proof.
  intros Hp Hl. rewrite executable_path_value in Hp.
  destruct (Py.nonempty _) eqn:Hne.
  - destruct (get_full_command self) as [|c s] eqn:Hfull; [done|].
    assert (Py.isspace c = false) as Hc by by eapply lstrip_head.
    destruct (split_ws_word s c Hc) as (w & ws & rest & Hw & -> & Hns & Hrest).
    rewrite Hw in Hp. injection Hp as <-.
    rewrite <- append_cons, slice_from_append. by split.
  - injection Hp as <-. simpl. split; [done|].
    revert Hne. rewrite full_command_value. cbv zeta.
    by destruct (str_of _).
Qed.

Lemma executable_path_prefix_witness :
  ∃ self,
    parse_service_file "/etc/systemd/system/foo.service" args_unit "/tmp/tmpk3v0a1x_"
      = Return self ∧
    get_full_command self =
      "/usr/bin/foo" +:+ Py.slice_from (String.length "/usr/bin/foo") (get_full_command self).
Proof.
  eexists. split; [vm_compute; reflexivity|].
  refine (proj1 (executable_path_prefix _ "/usr/bin/foo" _ _)); vm_compute; reflexivity.
Defined.

Lemma executable_path_is_first_word_witness :
  ∃ self,
    parse_service_file "/etc/systemd/system/foo.service" args_unit "/tmp/tmpk3v0a1x_"
      = Return self ∧
    no_space "/usr/bin/foo" = true ∧
    ∃ pre rest,
      get_full_command self = pre +:+ "/usr/bin/foo" +:+ rest ∧
      all_space pre = true ∧
      match rest with "" => True | String d _ => Py.isspace d = true end.
Proof.
  eexists. split; [vm_compute; reflexivity|].
  refine (proj2 (proj2 (proj2 (executable_path_is_first_word _)) "/usr/bin/foo" _)).
  vm_compute. reflexivity.
Defined.


(** ** Soft dependencies and runlevels *)

Lemma add_should_set (l : list string) (want : string) :
  list_to_set (add_should l want) =@{gset string}
  list_to_set l ∪ match should_facility want with Some f => {[f]} | None => ∅ end.
Proof.
  unfold add_should, should_facility.
  repeat (destruct (String.eqb want _);
          [rewrite list_to_set_app_L; simpl; set_solver|]).
  set_solver.
Qed.

Lemma add_should_nil (l : list string) (want : string) :
  add_should l want = l ++ option_list (should_facility want).
Proof.
  unfold add_should, should_facility.
  repeat (destruct (String.eqb want _); [done|]). by rewrite app_nil_r.
Qed.

Lemma foldl_add_should (toks l : list string) :
  foldl add_should l toks = l ++ omap should_facility toks.
Proof.
  revert l. induction toks as [|want toks IH]; intros l; simpl; [by rewrite app_nil_r|].
  rewrite IH, add_should_nil. rewrite <- app_assoc. f_equal.
  by destruct (should_facility want).
Qed.

Lemma should_deps_tokens self :
  should_deps self = omap should_facility (dependency_tokens self "Wants").
Proof.
  unfold should_deps, dependency_tokens.
  destruct (str_of _) eqn:Hw; [done|]. simpl Py.nonempty. cbv iota.
  by rewrite foldl_add_should.
Qed.

(** X10.  The soft dependencies are [$network] for every [network.target] and
    [$remote_fs] for every [remote-fs.target] among the words of [Wants], in
    their order, and nothing for any other word; the [Should-Start] line is
    printed, after the two required lines, exactly when there is one. *)
Theorem should_start_from_wants (set_iter : list string → list string)
    (self : SystemdServiceConverter) (p : string) :
  get_executable_path self = Return p →
  should_deps self = omap should_facility (dependency_tokens self "Wants") ∧
  list_to_set (should_deps self) ⊆@{gset string} {["$network"; "$remote_fs"]} ∧
  drop 2 (printed (_generate_dependencies set_iter self)) =
    match should_deps self with
    | [] => []
    | _ => ["# Should-Start:" +:+ Py.tab +:+ Py.join " " (set_iter (should_deps self))]
    end.
Proof.
  intros Hp. split; [apply should_deps_tokens|]. split.
  - rewrite should_deps_tokens. intros x Hx.
    apply elem_of_list_to_set, list_elem_of_omap in Hx as (tok & _ & Hx).
    unfold should_facility in Hx. repeat case_match; simplify_eq; set_solver.
  - unfold _generate_dependencies. rewrite Hp. by destruct (should_deps self).
Qed.

Lemma should_start_from_wants_witness :
  ∃ self,
    parse_service_file "/etc/systemd/system/foo.service" wants_unit "/tmp/tmpk3v0a1x_"
      = Return self ∧
    should_deps self = omap should_facility (dependency_tokens self "Wants") ∧
    should_deps self = ["$network"; "$remote_fs"; "$network"].
Proof.
  eexists. split; [vm_compute; reflexivity|].
  split; [|vm_compute; reflexivity].
  refine (proj1 (should_start_from_wants remove_dups _ "/bin/foo" _)).
  vm_compute. reflexivity.
Defined.

(** X11.  For every unit [_generate_runlevels] prints the [Default-Start] field
    and then the [Default-Stop] field and nothing else; the start field has a
    runlevel, and no runlevel is in both. *)
Theorem runlevels_start_and_stop_disjoint (self : SystemdServiceConverter) :
  ∃ start stop,
    _generate_runlevels self =
      (["# Default-Start:" +:+ Py.tab +:+ start; "# Default-Stop:" +:+ Py.tab +:+ stop],
       Return tt) ∧
    digits start ≠ [] ∧
    digits start ## digits stop.
Proof.
  unfold _generate_runlevels. cbv zeta.
  repeat (destruct (String.eqb _ _);
          [eexists _, _; split; [reflexivity|]; split; [done|];
           vm_compute digits; set_solver|]).
  eexists _, _. split; [reflexivity|]. split; [done|].
  vm_compute digits. set_solver.
Qed.


(** ** What [main] writes *)





(** ** The values of a loaded unit *)

Lemma rev_app_app (s t u : string) :
  String.rev_app (String.rev_app s t) u = String.rev_app t (s +:+ u).
Proof.
  revert t u. induction s as [|a s IH]; intros t u; [done|].
  simpl. by rewrite IH.
Qed.

Lemma rev_involutive (s : string) : String.rev (String.rev s) = s.
Proof. unfold String.rev. by rewrite rev_app_app, append_nil_r. Qed.

Lemma rev_app_append (s t : string) : String.rev_app s t = String.rev s +:+ t.
Proof.
  unfold String.rev. revert t. induction s as [|a s IH]; intros t; [done|].
  simpl. rewrite IH, (IH (String a "")). by rewrite append_assoc.
Qed.

Lemma rev_app_of_append (s t u : string) :
  String.rev_app (s +:+ t) u = String.rev_app t (String.rev_app s u).
Proof. revert u. induction s as [|a s IH]; intros u; [done|]. rewrite append_cons. apply IH. Qed.

Lemma rev_append (s t : string) : String.rev (s +:+ t) = String.rev t +:+ String.rev s.
Proof. unfold String.rev at 1. by rewrite rev_app_of_append, rev_app_append. Qed.

Lemma all_space_append (s t : string) :
  all_space (s +:+ t) = all_space s && all_space t.
Proof.
  induction s as [|a s IH]; [done|]. rewrite append_cons. simpl.
  by rewrite IH, andb_assoc.
Qed.

Lemma all_space_rev (s : string) : all_space (String.rev s) = all_space s.
Proof.
  induction s as [|a s IH]; [done|].
  change (String.rev (String a s)) with (String.rev_app s (String a "")).
  rewrite rev_app_append, all_space_append, IH. simpl.
  by rewrite andb_true_r, andb_comm.
Qed.

Lemma lstrip_all_space_append (ws s : string) :
  all_space ws = true → Py.lstrip (ws +:+ s) = Py.lstrip s.
Proof.
  induction ws as [|c ws IH]; [done|]. rewrite append_cons. simpl.
  intros [-> Hws]%andb_true_iff. by apply IH.
Qed.

Lemma rstrip_append_all_space (s ws : string) :
  all_space ws = true → Py.rstrip (s +:+ ws) = Py.rstrip s.
Proof.
  intros Hws. unfold Py.rstrip.
  by rewrite rev_append, lstrip_all_space_append by by rewrite all_space_rev.
Qed.

Lemma lstrip_idempotent (s : string) : Py.lstrip (Py.lstrip s) = Py.lstrip s.
Proof.
  induction s as [|c s IH]; [done|]. simpl.
  destruct (Py.isspace c) eqn:Hc; [done|]. simpl. by rewrite Hc.
Qed.

Lemma rstrip_idempotent (s : string) : Py.rstrip (Py.rstrip s) = Py.rstrip s.
Proof. unfold Py.rstrip. by rewrite rev_involutive, lstrip_idempotent. Qed.

Lemma read_file_values_rstripped fpname content cfg section opt v :
  configparser.read_file fpname content = inr cfg →
  configparser.get cfg section opt None = Some v →
  Py.rstrip v = v.
Proof.
  unfold configparser.read_file.
  destruct (configparser.read_lines _ _ _ _) as [|st]; [done|].
  destruct (configparser.errors st); [|done]. intros [= <-].
  unfold configparser.get. simpl. rewrite lookup_fmap.
  assert (∀ d : gmap string (list string),
            (configparser.join_value <$> d) !! configparser.optionxform opt = Some v →
            Py.rstrip v = v) as Hvalue.
  { intros d. rewrite lookup_fmap.
    destruct (d !! configparser.optionxform opt); [|done].
    intros [= <-]. apply rstrip_idempotent. }
  destruct (configparser.sections st !! section) as [d|]; simpl.
  - destruct ((configparser.join_value <$> d) !! _) eqn:Hd.
    + intros [= <-]. by eapply Hvalue.
    + destruct ((configparser.join_value <$> configparser.defaults st) !! _) eqn:Hd';
        [|done]. intros [= <-]. by eapply Hvalue.
  - destruct (String.eqb section configparser.default_section); [|done].
    rewrite lookup_empty.
    destruct ((configparser.join_value <$> configparser.defaults st) !! _) eqn:Hd';
      [|done]. intros [= <-]. by eapply Hvalue.
Qed.

Lemma loaded_config filepath content tmp self :
  parse_service_file filepath content tmp = Return self →
  ∃ text, configparser.read_file tmp text = inr (config self).
Proof.
  rewrite parse_service_file_reads.
  destruct (processed_content filepath content) as [text|]; [|done].
  destruct (configparser.read_file tmp text) as [|cfg] eqn:Hread; [done|].
  destruct (negb _); [done|].
  destruct (parse_template filepath) as [[[[??]?]?]|]; [|done].
  intros [= <-]. by exists text.
Qed.

Lemma loaded_values_have_no_trailing_space_aux (filepath content tmp : string)
    (self : SystemdServiceConverter) (section opt v : string) :
  parse_service_file filepath content tmp = Return self →
  get_config_option self section opt None = Some v →
  Py.rstrip v = v.
Proof.
  intros [text Hread]%loaded_config Hv.
  by eapply read_file_values_rstripped.
Qed.

(** X13.  No value of an option of a loaded unit ends with white space. *)
Theorem loaded_values_have_no_trailing_space (filepath content tmp : string)
    (self : SystemdServiceConverter) (section opt v : string) :
  parse_service_file filepath content tmp = Return self →
  get_config_option self section opt None = Some v →
  Py.rstrip v = v.
Proof. apply loaded_values_have_no_trailing_space_aux. Qed.

Lemma loaded_values_have_no_trailing_space_witness :
  ∃ self,
    parse_service_file "/etc/systemd/system/foo.service" args_unit "/tmp/tmpk3v0a1x_"
      = Return self ∧
    get_config_option self "Service" "ExecStart" None = Some "-/usr/bin/foo --bar baz" ∧
    Py.rstrip "-/usr/bin/foo --bar baz" = "-/usr/bin/foo --bar baz".
Proof.
  eexists. split; [vm_compute; reflexivity|]. split; [vm_compute; reflexivity|].
  eapply (loaded_values_have_no_trailing_space "/etc/systemd/system/foo.service"
            args_unit "/tmp/tmpk3v0a1x_" _ "Service" "ExecStart");
    vm_compute; reflexivity.
Defined.

Lemma get_fallback cfg section opt fb :
  configparser.get cfg section opt (Some fb) =
  Some (default fb (configparser.get cfg section opt None)).
Proof. unfold configparser.get. by repeat case_match. Qed.

Lemma all_space_rstrip (s : string) : all_space s = true → Py.rstrip s = "".
Proof. intros H. change s with ("" +:+ s). by rewrite rstrip_append_all_space. Qed.

(** X14.  For a loaded unit [get_executable_path] raises exactly when [ExecStart]
    is a dash and nothing else; so its script is generated to its end
    exactly when [ExecStart] is not that and [TimeoutSec] is absent, empty or
    ["0"]. *)
Theorem loaded_unit_generation (set_iter : list string → list string)
    (filepath content tmp : string) (self : SystemdServiceConverter) :
  parse_service_file filepath content tmp = Return self →
  (get_executable_path self = Raise IndexError ↔
   get_config_option self "Service" "ExecStart" None = Some "-") ∧
  (returns (generate_init_script set_iter self) ↔
   get_config_option self "Service" "ExecStart" None ≠ Some "-" ∧
   get_config_option self "Service" "TimeoutSec" None ∈ [None; Some ""; Some "0"]).
Proof.
  intros Hparse.
  assert (get_executable_path self = Raise IndexError ↔
          get_config_option self "Service" "ExecStart" None = Some "-") as Hdash.
  { rewrite executable_path_value, full_command_value. cbv zeta.
    unfold get_config_option. rewrite get_fallback. simpl.
    destruct (configparser.get (config self) "Service" "ExecStart" None) as [v|] eqn:Hv;
      simpl; [|by split].
    assert (Py.rstrip v = v) as Hr
      by by eapply (loaded_values_have_no_trailing_space_aux filepath content tmp self).
    destruct v as [|a v]; [by split|]. simpl Py.nonempty. cbv iota.
    unfold Py.startswith. rewrite prefix_char.
    case_bool_decide as Ha.
    - subst a. simpl Py.slice_from.
      destruct (Py.split_ws v) eqn:Hs.
      + apply split_ws_nil in Hs.
        change (String "-" v) with ("-" +:+ v) in Hr.
        rewrite rstrip_append_all_space in Hr by done.
        change (Py.rstrip "-") with "-" in Hr.
        change ("-" +:+ v) with (String "-" v) in Hr. by injection Hr as <-.
      + split; [done|]. intros [= ->]. done.
    - destruct (Py.split_ws (String a v)) eqn:Hs.
      + apply split_ws_nil in Hs. by rewrite all_space_rstrip in Hr.
      + split; [done|]. intros [= -> ->]. done. }
  split; [done|]. rewrite init_script_returns, <- Hdash.
  split.
  - intros [[p Hp] Ht]. split; [congruence|done].
  - intros [Hne Ht]. split; [|done].
    destruct (get_executable_path self) as [p|e] eqn:Hp; [by exists p|].
    by rewrite (executable_path_error self e Hp) in Hne.
Qed.

Lemma loaded_unit_generation_witness :
  ∃ self,
    parse_service_file "/etc/systemd/system/foo.service" dash_unit "/tmp/tmpk3v0a1x_"
      = Return self ∧
    get_executable_path self = Raise IndexError.
Proof.
  eexists. split; [vm_compute; reflexivity|].
  refine (proj2 (proj1 (loaded_unit_generation remove_dups
            "/etc/systemd/system/foo.service" dash_unit "/tmp/tmpk3v0a1x_" _ _)) _);
    vm_compute; reflexivity.
Defined.


(** ** Discovery *)

Example find_systemd_services_sample :
  find_systemd_services sample_fs =
  [ ("cron.service", "/lib/systemd/system/cron.service");
    ("ssh.service", "/etc/systemd/system/multi-user.target.wants/ssh.service") ].
Proof. by vm_compute. Qed.

Lemma usable_skip fs p :
  negb (fs_isfile fs p) || (fs_getsize fs p =? 0)%nat = negb (usable fs p).
Proof. unfold usable. by destruct (fs_isfile fs p), (fs_getsize fs p =? 0)%nat. Qed.

Lemma NoDup_fst_filter (P : string * string → Prop) `{!∀ x, Decision (P x)}
    (l : list (string * string)) :
  NoDup l.*1 → NoDup (filter P l).*1.
Proof.
  induction l as [|x l IH]; [done|]. rewrite fmap_cons, NoDup_cons. intros [Hx Hl].
  rewrite filter_cons. destruct (decide (P x)); [|by apply IH].
  rewrite fmap_cons, NoDup_cons. split; [|by apply IH].
  intros (y & Hy & Hin)%list_elem_of_fmap. apply Hx.
  apply list_elem_of_fmap. exists y. split; [done|].
  by apply list_elem_of_filter in Hin as [_ ?].
Qed.

Lemma discovered_start fs :
  discovered fs {| valid_services := []; seen_names := ∅ |} [].
Proof.
  split; simpl.
  - set_solver.
  - constructor.
  - intros n p H. by apply elem_of_nil in H.
  - intros p H. by apply elem_of_nil in H.
  - intros p p' H. by apply elem_of_nil in H.
Qed.

Lemma discovered_skip fs st paths p :
  usable fs p = false → discovered fs st paths → discovered fs st (paths ++ [p]).
Proof.
  intros Hp [Hseen Hnodup Hentry Hall Hetc]. split; [done|done|..].
  - intros n q [-> [??]]%Hentry. split; [done|]. split; [|done].
    apply elem_of_app. by left.
  - intros q [Hq| ->%list_elem_of_singleton]%elem_of_app Hu; [by apply Hall|congruence].
  - intros q q' [Hq| ->%list_elem_of_singleton]%elem_of_app Hu; [by eapply Hetc|congruence].
Qed.

Lemma discovered_seen_again fs st paths p :
  usable fs p = true → Py.basename p ∈ seen_names st →
  Py.contains "/etc/systemd" p = false →
  discovered fs st paths → discovered fs st (paths ++ [p]).
Proof.
  intros Hp Hin Hno [Hseen Hnodup Hentry Hall Hetc]. split; [done|done|..].
  - intros n q [-> [??]]%Hentry. split; [done|]. split; [|done].
    apply elem_of_app. by left.
  - intros q [Hq| ->%list_elem_of_singleton]%elem_of_app Hu; [by apply Hall|].
    by apply Hseen.
  - intros q q' [Hq| ->%list_elem_of_singleton]%elem_of_app Hu; [by eapply Hetc|congruence].
Qed.

Lemma discovered_new fs st paths p :
  usable fs p = true → Py.basename p ∉ seen_names st →
  discovered fs st paths →
  discovered fs
    {| valid_services := valid_services st ++ [(Py.basename p, p)];
       seen_names := {[Py.basename p]} ∪ seen_names st |} (paths ++ [p]).
Proof.
  intros Hp Hnew [Hseen Hnodup Hentry Hall Hetc]. split; simpl.
  - intros n. rewrite fmap_app, elem_of_app, elem_of_union, Hseen. simpl. set_solver.
  - rewrite fmap_app. apply NoDup_app. split; [done|]. split; [|apply NoDup_singleton].
    intros n Hn ->%list_elem_of_singleton. by apply Hnew, Hseen.
  - intros n q [Hq| [= -> ->]%list_elem_of_singleton]%elem_of_app.
    + destruct (Hentry n q Hq) as (-> & ? & ?). split; [done|]. split; [|done].
      apply elem_of_app. by left.
    + split; [done|]. split; [|done]. apply elem_of_app. right. by apply list_elem_of_singleton.
  - intros q Hq Hu. rewrite fmap_app, elem_of_app.
    apply elem_of_app in Hq as [Hq| ->%list_elem_of_singleton]; [left; by apply Hall|].
    right. by apply list_elem_of_singleton.
  - intros q q' Hq' Hu Hetc' [Hq| [= Hname ->]%list_elem_of_singleton]%elem_of_app.
    + apply elem_of_app in Hq' as [Hq'| ->%list_elem_of_singleton]; [by eapply Hetc|].
      exfalso. apply Hnew, Hseen. apply list_elem_of_fmap. by exists (Py.basename p, q).
    + apply elem_of_app in Hq' as [Hq'| ->%list_elem_of_singleton]; [|done].
      exfalso. apply Hnew, Hseen. rewrite <- Hname. by apply Hall.
Qed.

Lemma discovered_replace fs st paths p :
  usable fs p = true → Py.basename p ∈ seen_names st →
  Py.contains "/etc/systemd" p = true →
  discovered fs st paths →
  discovered fs
    {| valid_services :=
         filter (λ s, Py.basename s.2 ≠ Py.basename p) (valid_services st)
         ++ [(Py.basename p, p)];
       seen_names := seen_names st |} (paths ++ [p]).
Proof.
  intros Hp Hin Hetcp [Hseen Hnodup Hentry Hall Hetc].
  assert (∀ n, n ∈ (valid_services st).*1 ↔
               n ∈ (filter (λ s, Py.basename s.2 ≠ Py.basename p) (valid_services st)
                    ++ [(Py.basename p, p)]).*1) as Hnames.
  { intros n. rewrite fmap_app, elem_of_app. simpl. rewrite list_elem_of_singleton. split.
    - intros ([n' q] & -> & Hq)%list_elem_of_fmap. simpl.
      destruct (decide (Py.basename q = Py.basename p)) as [Heq|Hne].
      + right. by destruct (Hentry n' q Hq) as (-> & _).
      + left. apply list_elem_of_fmap. exists (n', q). split; [done|].
        by apply list_elem_of_filter.
    - intros [([n' q] & -> & [_ Hq]%list_elem_of_filter)%list_elem_of_fmap| ->].
      + apply list_elem_of_fmap. by exists (n', q).
      + by apply Hseen. }
  split; simpl.
  - intros n. by rewrite Hseen.
  - rewrite fmap_app. apply NoDup_app. split; [by apply NoDup_fst_filter|].
    split; [|apply NoDup_singleton].
    intros n ([n' q] & -> & [Hne Hq]%list_elem_of_filter)%list_elem_of_fmap
      Hn%list_elem_of_singleton.
    simpl in *. apply Hne. destruct (Hentry _ _ Hq) as (Hb & _). congruence.
  - intros n q [[_ Hq]%list_elem_of_filter| [= -> ->]%list_elem_of_singleton]%elem_of_app.
    + destruct (Hentry n q Hq) as (-> & ? & ?). split; [done|]. split; [|done].
      apply elem_of_app. by left.
    + split; [done|]. split; [|done]. apply elem_of_app. right. by apply list_elem_of_singleton.
  - intros q Hq Hu. apply Hnames.
    apply elem_of_app in Hq as [Hq| ->%list_elem_of_singleton]; [by apply Hall|].
    by apply Hseen.
  - intros q q' Hq' Hu Hetc'
      [[Hne Hq]%list_elem_of_filter| [= Hname ->]%list_elem_of_singleton]%elem_of_app;
      [|done].
    simpl in Hne. apply elem_of_app in Hq' as [Hq'| ->%list_elem_of_singleton];
      [by eapply Hetc|].
    by destruct (Hentry _ _ Hq) as (Hb & _).
Qed.

Lemma discovered_step fs st paths p :
  discovered fs st paths → discovered fs (consider_service fs st p) (paths ++ [p]).
Proof.
  intros Hd. unfold consider_service. rewrite usable_skip.
  destruct (usable fs p) eqn:Hu; simpl; [|by apply discovered_skip].
  case_bool_decide as Hin; [|by apply discovered_new].
  destruct (Py.contains "/etc/systemd" p) eqn:Hetc;
    [by apply discovered_replace|by apply discovered_seen_again].
Qed.

Lemma discovered_fold fs l st paths :
  discovered fs st paths →
  discovered fs (foldl (consider_service fs) st l) (paths ++ l).
Proof.
  revert st paths. induction l as [|p l IH]; intros st paths Hd.
  - by rewrite app_nil_r.
  - simpl. replace (paths ++ p :: l) with ((paths ++ [p]) ++ l)
      by (by rewrite <- app_assoc).
    by apply IH, discovered_step.
Qed.

Lemma chosen_later fs paths n p p0 :
  (usable fs p0 = true → Py.basename p0 = n →
   Py.contains "/etc/systemd" p = true → Py.contains "/etc/systemd" p0 = false) →
  chosen fs paths n p → chosen fs (paths ++ [p0]) n p.
Proof.
  intros Hp0 (l1 & l2 & -> & H). exists l1, (l2 ++ [p0]).
  split; [by rewrite <- app_assoc|].
  destruct (Py.contains "/etc/systemd" p) eqn:Hetc; [|done].
  intros q [Hq| ->%list_elem_of_singleton]%elem_of_app Hu Hn; [by apply H|by apply Hp0].
Qed.

Lemma chosen_step fs st paths p0 :
  discovered fs st paths →
  (∀ n p, (n, p) ∈ valid_services st → chosen fs paths n p) →
  ∀ n p, (n, p) ∈ valid_services (consider_service fs st p0) →
         chosen fs (paths ++ [p0]) n p.
Proof.
  intros [Hseen Hnodup Hentry Hall Hetc] Hch n p. unfold consider_service.
  rewrite usable_skip. destruct (usable fs p0) eqn:Hu; simpl.
  2:{ intros Hin. apply chosen_later; [congruence|by apply Hch]. }
  case_bool_decide as Hin; [destruct (Py.contains "/etc/systemd" p0) eqn:Hetc0|]; simpl.
  - intros [[Hne Hq]%list_elem_of_filter| [= -> ->]%list_elem_of_singleton]%elem_of_app.
    + apply chosen_later; [|by apply Hch]. intros _ Hn. simpl in Hne.
      destruct (Hentry _ _ Hq) as (Hb & _). congruence.
    + exists paths, []. split; [done|]. rewrite Hetc0.
      intros q Hq. by apply elem_of_nil in Hq.
  - intros Hq. apply chosen_later; [done|by apply Hch].
  - intros [Hq| [= -> ->]%list_elem_of_singleton]%elem_of_app.
    + apply chosen_later; [|by apply Hch]. intros _ Hn. exfalso.
      apply Hin, Hseen. rewrite Hn. apply list_elem_of_fmap. by exists (n, p).
    + exists paths, []. split; [done|].
      destruct (Py.contains "/etc/systemd" p0) eqn:Hetc0.
      * intros q Hq. by apply elem_of_nil in Hq.
      * intros q Hq Huq Hn. apply Hin, Hseen. rewrite <- Hn. by apply Hall.
Qed.

Lemma chosen_fold fs l st paths :
  discovered fs st paths →
  (∀ n p, (n, p) ∈ valid_services st → chosen fs paths n p) →
  ∀ n p, (n, p) ∈ valid_services (foldl (consider_service fs) st l) →
         chosen fs (paths ++ l) n p.
Proof.
  revert st paths. induction l as [|p0 l IH]; intros st paths Hd Hch.
  - by rewrite app_nil_r.
  - simpl. replace (paths ++ p0 :: l) with ((paths ++ [p0]) ++ l)
      by (by rewrite <- app_assoc).
    apply IH; [by apply discovered_step|by apply chosen_step].
Qed.

Lemma insert_by_name_perm x l : insert_by_name x l ≡ₚ x :: l.
Proof.
  induction l as [|y l IH]; [done|]. simpl.
  destruct (String.leb x.1 y.1); [done|]. by rewrite IH, Permutation_swap.
Qed.

Lemma sorted_by_name_perm l : sorted_by_name l ≡ₚ l.
Proof.
  induction l as [|x l IH]; [done|]. simpl. by rewrite insert_by_name_perm, IH.
Qed.

Lemma insert_by_name_sorted x l :
  Sorted (λ a b, String.leb a.1 b.1 = true) l →
  Sorted (λ a b, String.leb a.1 b.1 = true) (insert_by_name x l).
Proof.
  induction l as [|y l IH]; intros Hl; [by repeat constructor|]. simpl.
  destruct (String.leb x.1 y.1) eqn:Hxy; [constructor; [done|by constructor]|].
  apply Sorted_inv in Hl as [Hl Hhd]. constructor; [by apply IH|].
  assert (String.leb y.1 x.1 = true) as Hyx
    by (by destruct (String.leb_total x.1 y.1) as [H|H]; [congruence|]).
  destruct l as [|z l]; simpl; [by constructor|].
  destruct (String.leb x.1 z.1); constructor; [done|].
  by apply HdRel_inv in Hhd.
Qed.

Lemma sorted_by_name_sorted l :
  Sorted (λ a b, String.leb a.1 b.1 = true) (sorted_by_name l).
Proof.
  induction l as [|x l IH]; [constructor|]. by apply insert_by_name_sorted.
Qed.

Lemma find_discovered fs :
  ∃ st, find_systemd_services fs ≡ₚ valid_services st ∧
        discovered fs st (found_services fs).
Proof.
  eexists. split; [apply sorted_by_name_perm|].
  apply (discovered_fold fs (found_services fs) _ []), discovered_start.
Qed.

(** X15.  The list [find_systemd_services] returns is in the order of the names
    and no name is in it twice. *)
Theorem discovery_sorted_without_duplicates (fs : FileSystem) :
  Sorted (λ a b, String.leb a.1 b.1 = true) (find_systemd_services fs) ∧
  NoDup (find_systemd_services fs).*1.
Proof.
  split; [apply sorted_by_name_sorted|].
  destruct (find_discovered fs) as (st & Hperm & Hd).
  rewrite Hperm. apply Hd.
Qed.

(** X16.  Every entry of the list is a path that was found, is a file and is not
    empty, under its base name. *)
Theorem discovery_entries_usable (fs : FileSystem) (n p : string) :
  (n, p) ∈ find_systemd_services fs →
  n = Py.basename p ∧ p ∈ found_services fs ∧
  fs_isfile fs p = true ∧ fs_getsize fs p ≠ 0.
Proof.
  destruct (find_discovered fs) as (st & Hperm & Hd).
  intros Hin. rewrite Hperm in Hin.
  destruct (discovered_entry _ _ _ Hd n p Hin) as (-> & Hp & Hu).
  unfold usable in Hu. apply andb_true_iff in Hu as [Hf Hs].
  repeat split; [done..|]. intros H0. by rewrite H0 in Hs.
Qed.

Lemma discovery_entries_usable_witness :
  ("ssh.service", "/etc/systemd/system/multi-user.target.wants/ssh.service")
    ∈ find_systemd_services sample_fs ∧
  "/etc/systemd/system/multi-user.target.wants/ssh.service" ∈ found_services sample_fs.
Proof.
  assert (("ssh.service", "/etc/systemd/system/multi-user.target.wants/ssh.service")
            ∈ find_systemd_services sample_fs) as Hin
    by (apply (list_elem_of_lookup_2 _ 1); vm_compute; reflexivity).
  split; [exact Hin|].
  exact (proj1 (proj2 (discovery_entries_usable sample_fs _ _ Hin))).
Defined.

(** X17.  The base name of every path that was found, is a file and is not empty
    is in the list. *)
Theorem discovery_complete (fs : FileSystem) (p : string) :
  p ∈ found_services fs → fs_isfile fs p = true → fs_getsize fs p ≠ 0 →
  Py.basename p ∈ (find_systemd_services fs).*1.
Proof.
  destruct (find_discovered fs) as (st & Hperm & Hd).
  intros Hp Hf Hs. rewrite Hperm. apply (discovered_all _ _ _ Hd); [done|].
  unfold usable. rewrite Hf. simpl. by destruct (fs_getsize fs p).
Qed.

Lemma discovery_complete_witness :
  "/lib/systemd/system/ssh.service" ∈ found_services sample_fs ∧
  Py.basename "/lib/systemd/system/ssh.service" ∈ (find_systemd_services sample_fs).*1.
Proof.
  assert ("/lib/systemd/system/ssh.service" ∈ found_services sample_fs) as Hin
    by in_list.
  split; [exact Hin|].
  apply (discovery_complete sample_fs _ Hin); [reflexivity|].
  vm_compute. discriminate.
Defined.

(** X18.  Where a usable path with [/etc/systemd] in it was found for a name, the
    path listed for that name has [/etc/systemd] in it. *)
Theorem discovery_prefers_etc (fs : FileSystem) (p p' : string) :
  p' ∈ found_services fs →
  fs_isfile fs p' = true → fs_getsize fs p' ≠ 0 →
  Py.contains "/etc/systemd" p' = true →
  (Py.basename p', p) ∈ find_systemd_services fs →
  Py.contains "/etc/systemd" p = true.
Proof.
  intros Hp' Hf Hs Hetc Hin.
  destruct (find_discovered fs) as (st & Hperm & Hd). rewrite Hperm in Hin.
  apply (discovered_etc _ _ _ Hd p p'); [done| |done|done].
  unfold usable. rewrite Hf. simpl. by destruct (fs_getsize fs p').
Qed.

Lemma discovery_prefers_etc_witness :
  "/etc/systemd/system/ssh.service" ∈ found_services sample_fs ∧
  Py.contains "/etc/systemd"
    "/etc/systemd/system/multi-user.target.wants/ssh.service" = true.
Proof.
  assert ("/etc/systemd/system/ssh.service" ∈ found_services sample_fs) as Hin
    by in_list.
  split; [exact Hin|].
  apply (discovery_prefers_etc sample_fs _ "/etc/systemd/system/ssh.service" Hin).
  - reflexivity.
  - vm_compute. discriminate.
  - vm_compute. reflexivity.
  - apply (list_elem_of_lookup_2 _ 1); vm_compute; reflexivity.
Defined.

(** X19.  The path listed for a name is, among the paths found in the order of
    the search, the last usable one with [/etc/systemd] in it that has the
    name, or else the first usable one that has the name. *)
Theorem discovery_choice (fs : FileSystem) (n p : string) :
  (n, p) ∈ find_systemd_services fs →
  ∃ l1 l2, found_services fs = l1 ++ p :: l2 ∧
    if Py.contains "/etc/systemd" p
    then ∀ q, q ∈ l2 → usable fs q = true → Py.basename q = n →
              Py.contains "/etc/systemd" q = false
    else ∀ q, q ∈ l1 → usable fs q = true → Py.basename q ≠ n.
Proof.
  unfold find_systemd_services. rewrite sorted_by_name_perm. intros Hin.
  apply (chosen_fold fs (found_services fs) _ [] (discovered_start fs)); [|done].
  intros n' p' H. by apply elem_of_nil in H.
Qed.

Lemma discovery_choice_witness :
  ∃ l1 l2,
    found_services sample_fs = l1 ++ "/lib/systemd/system/cron.service" :: l2 ∧
    ∀ q, q ∈ l1 → usable sample_fs q = true → Py.basename q ≠ "cron.service".
Proof.
  apply (discovery_choice sample_fs "cron.service" "/lib/systemd/system/cron.service").
  apply (list_elem_of_lookup_2 _ 0); vm_compute; reflexivity.
Defined.

(** ** The procedures the script defines *)





















